(** * Vehicle detector: frame pipeline, latency window and JSON entry point

    A shallow embedding of [vehicle_detector.py] (class [VehicleDetector]) and
    of [qt_gui/python_detector.py] (function [detect_frame]).

    Conventions.
    - Python [float]s and the entries of numpy float arrays are rationals
      [Q].  The float32 array of boxes is rounded as IEEE 754 rounds it: the
      factors of lines 127-128 to a [float64], the products of lines 132-133
      to a [float32].  The other arithmetic on floats is exact, and the
      largest exponent of a format is not modelled.
    - Python [int]s are [Z]; array shapes are [N].
    - Python exceptions are values of [exn]; a computation that may raise
      returns a [result].  [SystemExit] is kept apart from the subclasses of
      [Exception], as [except Exception] does not catch it.
    - numpy frames are mutable buffers: they live in a heap of images and are
      passed by reference, so that [frame.copy()] and the in-place drawing of
      [cv2.putText] can be told apart.
    - The detector network, the tracker and the rasterisers of OpenCV and
      supervision are external; they are the fields of [Externals]. *)

From Stdlib Require Import QArith Qabs Qround Qpower Lqa.
From stdpp Require Import gmap strings list pretty.

Open Scope Z_scope.

(** ** Exceptions and results *)

Inductive exn : Type :=
  | ZeroDivisionError
  | TypeError
  | IndexError
  | Cv2Error
  | SystemExit (code : Z).

(** [isinstance(e, Exception)]: everything but [SystemExit]. *)
Definition is_Exception (e : exn) : bool :=
  match e with
  | SystemExit _ => false
  | _ => true
  end.

(** [str(e)], as far as the kind of the exception determines it. *)
Definition exn_str (e : exn) : string :=
  match e with
  | ZeroDivisionError => "division by zero"
  | TypeError => "object of type 'NoneType' has no len()"
  | IndexError => "index out of range"
  | Cv2Error => "OpenCV: resize assertion failed"
  | SystemExit c => pretty c
  end.

Inductive result (A : Type) : Type :=
  | Ok (a : A)
  | Raise (e : exn).
Arguments Ok {A} a.
Arguments Raise {A} e.

Definition rbind {A B} (r : result A) (k : A -> result B) : result B :=
  match r with
  | Ok a => k a
  | Raise e => Raise e
  end.

(** ** Numbers *)

(** [int(x)] of a float: truncation towards zero. *)
Definition py_int (x : Q) : Z :=
  if Qle_bool 0 x then Qfloor x else Qceiling x.

(** Rounding to the nearest integer, ties to even (what [format] does with
    the exact value of its argument). *)
Definition round_half_even (x : Q) : Z :=
  let f := Qfloor x in
  let r := (x - inject_Z f)%Q in
  match (r ?= 1 # 2)%Q with
  | Lt => f
  | Gt => f + 1
  | Eq => if Z.even f then f else f + 1
  end.

Fixpoint zero_pad (width : nat) (s : string) : string :=
  match width with
  | O => s
  | S w => if (String.length s <? S w)%nat then zero_pad w ("0" +:+ s) else s
  end.

(** [f"{x:.<d>f}"]. *)
Definition format_f (d : nat) (x : Q) : string :=
  let p := 10 ^ Z.of_nat d in
  let n := round_half_even (Qabs x * inject_Z p) in
  let sign := if Qle_bool 0 x then "" else "-" in
  let int_part := pretty (n / p) in
  match d with
  | O => sign +:+ int_part
  | _ => sign +:+ int_part +:+ "." +:+ zero_pad d (pretty (n mod p))
  end.

(** *** IEEE 754 rounding

    [round_float prec emin x] is the number nearest to [x] among the binary
    floating-point numbers with [prec] bits of precision whose least
    spacing, that of the subnormal numbers, is [2 ^ emin]; ties go to the
    even significand. *)

Definition pow2 (e : Z) : Q := (2 ^ e)%Q.

(** The exponent [e] of a positive number: [2 ^ e <= x < 2 ^ (e + 1)]. *)
Definition Qlog2 (x : Q) : Z :=
  let c := Z.log2 (Qnum x) - Z.log2 (Zpos (Qden x)) in
  if Qle_bool (pow2 c) x then c else c - 1.

Definition round_float (prec emin : Z) (x : Q) : Q :=
  let e := Qlog2 (Qabs x) in
  let ulp := pow2 (Z.max (e - prec + 1) emin) in
  let n := round_half_even (Qabs x / ulp) in
  if Qle_bool 0 x then (inject_Z n * ulp)%Q else (- (inject_Z n * ulp))%Q.

(** numpy's [float32] and Python's [float]. *)
Definition float32 : Q -> Q := round_float 24 (-149).
Definition float64 : Q -> Q := round_float 53 (-1074).

Definition Qsum (l : list Q) : Q := fold_left Qplus l 0%Q.

Definition Qlen {A} (l : list A) : Q := inject_Z (Z.of_nat (length l)).

(** [min(l)] and [max(l)] of a non-empty list: the first extremal element. *)
Definition Qmin_list (x : Q) (l : list Q) : Q :=
  fold_left (fun m y => if Qlt_le_dec y m then y else m) l x.
Definition Qmax_list (x : Q) (l : list Q) : Q :=
  fold_left (fun m y => if Qlt_le_dec m y then y else m) l x.

(** ** Detections ([supervision.Detections])

    A structure of arrays: [xyxy] always, the others optional ([None]).
    [len(detections)] is the number of boxes. *)

Definition box : Type := Q * Q * Q * Q.

Record Detections : Type := mkDetections {
  xyxy : list box;
  confidence : option (list Q);
  class_id : option (list Z);
  tracker_id : option (list Z)
}.

Definition len (d : Detections) : nat := length (xyxy d).

(** The check of [Detections.__post_init__]: every present array has one
    entry per box. *)
Definition opt_len_ok {A} (n : nat) (o : option (list A)) : Prop :=
  match o with
  | Some l => length l = n
  | None => True
  end.

Definition valid (d : Detections) : Prop :=
  opt_len_ok (len d) (confidence d) /\
  opt_len_ok (len d) (class_id d) /\
  opt_len_ok (len d) (tracker_id d).

(** One prediction of the network: box, confidence, class. *)
Definition prediction : Type := box * Q * Z.

(** [sv.Detections.from_ultralytics]. *)
Definition from_ultralytics (results : list prediction) : Detections :=
  {| xyxy := map (fun p => fst (fst p)) results;
     confidence := Some (map (fun p => snd (fst p)) results);
     class_id := Some (map snd results);
     tracker_id := None |}.

(** numpy indexing by a boolean mask; the mask must have the length of the
    array. *)
Fixpoint mask_select {A} (mask : list bool) (l : list A) : result (list A) :=
  match mask, l with
  | [], [] => Ok []
  | b :: mask', x :: l' =>
      rbind (mask_select mask' l')
            (fun r => Ok (if b then x :: r else r))
  | _, _ => Raise IndexError
  end.

(** The number of entries that a mask selects. *)
Fixpoint popcount (mask : list bool) : nat :=
  match mask with
  | [] => O
  | b :: mask' => if b then S (popcount mask') else popcount mask'
  end.

Definition mask_select_opt {A} (mask : list bool) (o : option (list A))
  : result (option (list A)) :=
  match o with
  | None => Ok None
  | Some l => rbind (mask_select mask l) (fun r => Ok (Some r))
  end.

(** [detections[mask]]. *)
Definition getitem_mask (d : Detections) (mask : list bool) : result Detections :=
  rbind (mask_select mask (xyxy d)) (fun bx =>
  rbind (mask_select_opt mask (confidence d)) (fun cf =>
  rbind (mask_select_opt mask (class_id d)) (fun ci =>
  rbind (mask_select_opt mask (tracker_id d)) (fun ti =>
  Ok (mkDetections bx cf ci ti))))).

(** ** [VehicleDetector.vehicle_classes] *)

Definition vehicle_classes : gmap Z string :=
  list_to_map
    [ (0, "person"); (1, "bicycle"); (2, "car"); (3, "motorcycle");
      (5, "bus"); (7, "truck"); (8, "boat"); (4, "airplane"); (6, "train");
      (9, "traffic_light"); (10, "fire_hydrant"); (11, "stop_sign");
      (13, "bench"); (14, "bird"); (15, "cat"); (16, "dog"); (17, "horse");
      (18, "sheep"); (19, "cow"); (20, "elephant"); (21, "bear"); (22, "zebra");
      (23, "giraffe"); (24, "backpack"); (25, "umbrella"); (27, "handbag");
      (28, "suitcase"); (31, "sports_ball"); (32, "kite"); (33, "baseball_bat");
      (34, "baseball_glove"); (35, "skateboard"); (36, "surfboard");
      (37, "tennis_racket"); (38, "bottle"); (39, "wine_glass"); (40, "cup");
      (41, "fork"); (42, "knife"); (43, "spoon"); (44, "bowl"); (46, "banana");
      (47, "apple"); (48, "sandwich"); (49, "orange"); (50, "broccoli");
      (51, "carrot"); (52, "hot_dog"); (53, "pizza"); (54, "donut"); (55, "cake");
      (56, "chair"); (57, "couch"); (58, "potted_plant"); (59, "bed");
      (60, "dining_table"); (61, "toilet"); (62, "tv"); (63, "laptop");
      (64, "mouse"); (65, "remote"); (66, "keyboard"); (67, "cell_phone");
      (68, "microwave"); (69, "oven"); (70, "toaster"); (71, "sink");
      (72, "refrigerator"); (73, "book"); (74, "clock"); (75, "vase");
      (76, "scissors"); (77, "teddy_bear"); (78, "hair_drier"); (79, "toothbrush") ].

(** [class_id in self.vehicle_classes]. *)
Definition is_vehicle (c : Z) : bool := bool_decide (is_Some (vehicle_classes !! c)).

(** ** [VehicleDetector.filter_vehicles] *)

Definition filter_vehicles (detections : Detections) : result Detections :=
  if (len detections =? 0)%nat then Ok detections
  else
    match class_id detections with
    | None => Raise TypeError
    | Some ids =>
        let vehicle_mask := map is_vehicle ids in
        getitem_mask detections vehicle_mask
    end.

(** True division of Python numbers. *)
Definition py_truediv (a b : Q) : result Q :=
  if Qeq_bool b 0 then Raise ZeroDivisionError else Ok (a / b)%Q.

(** ** JSON values and Python dictionaries of numbers *)

#[warnings="-register-all"]
Inductive json : Type :=
  | JInt (z : Z)
  | JFloat (q : Q)
  | JStr (s : string)
  | JBool (b : bool)
  | JArr (items : list json)
  | JObj (fields : list (string * json)).

(** ** Frames and the heap of numpy buffers *)

Definition pixel : Type := Z * Z * Z.

(** A frame: [frame.shape[:2]] is [(im_height, im_width)]. *)
Record image : Type := mkImage {
  im_height : N;
  im_width : N;
  im_data : list pixel
}.

#[global] Instance image_inhabited : Inhabited image := populate (mkImage 0 0 []).

Definition loc : Type := nat.

(** ** External collaborators *)

Class Externals : Type := {
  (** [YOLO(path)]: the network stored under [path], if it loads. *)
  yolo_weights : string -> option (image -> list prediction);
  (** [sv.ByteTrack()] and its [update_with_detections]. *)
  tracker_state : Type;
  byte_track : tracker_state;
  update_with_detections : tracker_state -> Detections -> tracker_state * Detections;
  (** What [sv.BoxAnnotator.annotate] draws for the detection of index [i]. *)
  draw_detection : Detections -> nat -> image -> image;
  (** [cv2.imread]: [None] for a path that cannot be read. *)
  cv2_imread : string -> option image;
  (** The interpolation of [cv2.resize] to a given width and height. *)
  resize_pixels : image -> N -> N -> list pixel;
  (** Whether [cv2.resize] obtains the memory for a buffer of a given width
      and height. *)
  cv2_allocates : Z -> Z -> bool;
  (** The rasteriser of [cv2.putText] (font FONT_HERSHEY_SIMPLEX, white):
      image, text, origin, font scale, thickness. *)
  cv2_putText : image -> string -> Z * Z -> Q -> Z -> image
}.

Section Detector.
Context `{E : Externals}.

(** The fields of [VehicleDetector] that the methods below read or write. *)
Record VehicleDetector : Type := mkDetector {
  model_size : string;
  conf_threshold : Q;
  frame_count : Z;
  model : image -> list prediction;
  tracker : tracker_state;
  fps_history : list Q
}.

Record world : Type := mkWorld {
  self : VehicleDetector;
  heap : list image
}.

(** ** The monad of methods: state and exceptions *)

Definition M (A : Type) : Type := world -> world * result A.

Definition ret {A} (a : A) : M A := fun w => (w, Ok a).
Definition raise {A} (e : exn) : M A := fun w => (w, Raise e).
Definition bind {A B} (m : M A) (k : A -> M B) : M B :=
  fun w => match m w with
           | (w', Ok a) => k a w'
           | (w', Raise e) => (w', Raise e)
           end.
Definition lift {A} (r : result A) : M A := fun w => (w, r).

Notation "'let*' x ':=' m 'in' k" := (bind m (fun x => k))
  (at level 10, x pattern, m at level 100, k at level 200).

Definition get_self : M VehicleDetector := fun w => (w, Ok (self w)).
Definition set_self (d : VehicleDetector) : M unit :=
  fun w => (mkWorld d (heap w), Ok tt).

Definition read (l : loc) : M image := fun w => (w, Ok (heap w !!! l)).
Definition write (l : loc) (img : image) : M unit :=
  fun w => (mkWorld (self w) (<[l := img]> (heap w)), Ok tt).
Definition alloc (img : image) : M loc :=
  fun w => (mkWorld (self w) (heap w ++ [img]), Ok (length (heap w))).

Definition set_frame_count (n : Z) (d : VehicleDetector) : VehicleDetector :=
  mkDetector (model_size d) (conf_threshold d) n (model d) (tracker d) (fps_history d).
Definition set_tracker (t : tracker_state) (d : VehicleDetector) : VehicleDetector :=
  mkDetector (model_size d) (conf_threshold d) (frame_count d) (model d) t (fps_history d).
Definition set_fps_history (h : list Q) (d : VehicleDetector) : VehicleDetector :=
  mkDetector (model_size d) (conf_threshold d) (frame_count d) (model d) (tracker d) h.

(** ** OpenCV and supervision calls on heap buffers *)

(** [frame.copy()]. *)
Definition copy (src : loc) : M loc :=
  let* img := read src in alloc img.

(** The largest [int] of C; OpenCV takes the sides of a size as such. *)
Definition INT_MAX : Z := 2147483647.

(** What [cv2.resize(src, (w, h))] refuses: an empty target size, a side
    that is no [int], an empty source, a buffer for which there is no
    memory. *)
Definition resize_refused (img : image) (dsize : Z * Z) : bool :=
  let '(w, h) := dsize in
  (w <=? 0) || (h <=? 0) || (INT_MAX <? w) || (INT_MAX <? h)
  || (im_height img =? 0)%N || (im_width img =? 0)%N || negb (cv2_allocates w h).

(** [cv2.resize(src, (w, h))]: a new buffer, or an error. *)
Definition cv2_resize (src : loc) (dsize : Z * Z) : M loc :=
  let* img := read src in
  if resize_refused img dsize then raise Cv2Error
  else
    let '(w, h) := dsize in
    alloc (mkImage (Z.to_N h) (Z.to_N w) (resize_pixels img (Z.to_N w) (Z.to_N h))).

(** [cv2.putText(dst, text, org, FONT_HERSHEY_SIMPLEX, scale, white, thickness)],
    in place. *)
Definition putText (dst : loc) (text : string) (org : Z * Z) (scale : Q) (thickness : Z)
  : M unit :=
  let* img := read dst in
  write dst (cv2_putText img text org scale thickness).

Definition draw_boxes (d : Detections) (img : image) : image :=
  fold_left (fun im i => draw_detection d i im) (seq 0 (len d)) img.

(** [self.box_annotator.annotate(scene=..., detections=...)]: draws on the
    scene in place, one detection after the other, and returns the scene. *)
Definition annotate (scene : loc) (d : Detections) : M loc :=
  let* img := read scene in
  let* _ := write scene (draw_boxes d img) in
  ret scene.

(** ** [VehicleDetector.process_frame], block by block *)

(** Lines 125-140: boxes back to the size of the original frame.  The
    factors are Python floats; [xyxy] is a float32 array, and multiplying it
    in place by a Python float is a float32 product by the factor as a
    float32. *)
Definition times_float32 (x scale : Q) : Q := float32 (x * float32 scale).

Definition scale_box (scale_x scale_y : Q) (b : box) : box :=
  let '(x1, y1, x2, y2) := b in
  (times_float32 x1 scale_x, times_float32 y1 scale_y,
   times_float32 x2 scale_x, times_float32 y2 scale_y).

Definition rescale (detections : Detections) (width height target_width target_height : Z)
  : result Detections :=
  if (0 <? len detections)%nat then
    rbind (py_truediv (inject_Z width) (inject_Z target_width)) (fun scale_x =>
    rbind (py_truediv (inject_Z height) (inject_Z target_height)) (fun scale_y =>
    let scaled_xyxy :=
      map (scale_box (float64 scale_x) (float64 scale_y)) (xyxy detections) in
    Ok (mkDetections scaled_xyxy (confidence detections) (class_id detections) None)))
  else Ok detections.

(** Lines 150-158: one label per pair of [zip(class_id, confidence)]. *)
Definition class_label (class_id : Z) : string :=
  default ("class_" +:+ pretty class_id) (vehicle_classes !! class_id).

Fixpoint labels_from (tracker_id : option (list Z)) (i : nat) (rows : list (Z * Q))
  : result (list string) :=
  match rows with
  | [] => Ok []
  | (class_id, confidence) :: rows' =>
      let class_name := class_label class_id in
      rbind (match tracker_id with
             | None => Raise TypeError
             | Some ids =>
                 match ids !! i with
                 | Some tid =>
                     Ok ("ID:" +:+ pretty tid +:+ " " +:+ class_name +:+ " "
                         +:+ format_f 2 confidence)
                 | None => Ok (class_name +:+ " " +:+ format_f 2 confidence)
                 end
             end) (fun label =>
      rbind (labels_from tracker_id (S i) rows') (fun labels =>
      Ok (label :: labels)))
  end.

Definition make_labels (vd : Detections) : result (list string) :=
  match class_id vd, confidence vd with
  | Some ids, Some confs => labels_from (tracker_id vd) 0 (zip ids confs)
  | _, _ => Raise TypeError
  end.

(** Lines 167-171: the labels, drawn above the boxes. *)
Fixpoint put_labels (dst : loc) (items : list (box * string)) : M unit :=
  match items with
  | [] => ret tt
  | ((x1, y1, _, _), label) :: items' =>
      let* _ := putText dst label (py_int x1, py_int y1 - 10) (6 # 10) 2 in
      put_labels dst items'
  end.

(** Line 174. *)
Definition fps_of (inference_time : Q) : Q :=
  if Qlt_le_dec 0 inference_time then (1 / inference_time)%Q else 0%Q.

(** Lines 175-177: append, then drop the oldest entry beyond 30. *)
Definition push_fps (fps : Q) (history : list Q) : list Q :=
  let history := history ++ [fps] in
  if (30 <? length history)%nat then drop 1 history else history.

Definition info_text (n : nat) (avg_fps : Q) (frame_count : Z) : string :=
  "Vehicles: " +:+ pretty n +:+ " | FPS: " +:+ format_f 1 avg_fps
  +:+ " | Frame: " +:+ pretty frame_count.

Definition inference_text (inference_time : Q) (target_width target_height : Z) : string :=
  "Inference: " +:+ format_f 1 (inference_time * 1000) +:+ "ms | Processed: "
  +:+ pretty target_width +:+ "x" +:+ pretty target_height.

(** Lines 145-147: the tracker sees non-empty sets only. *)
Definition track_vehicles (vehicle_detections : Detections) : M Detections :=
  if (0 <? len vehicle_detections)%nat then
    let* d := get_self in
    let '(t, tracked) := update_with_detections (tracker d) vehicle_detections in
    let* _ := set_self (set_tracker t d) in
    ret tracked
  else ret vehicle_detections.

(** Lines 149-190: labels, boxes, latency window and the two overlay lines. *)
Definition annotate_frame (frame : loc) (vehicle_detections : Detections)
    (inference_time : Q) (target_width target_height : Z) : M (loc * Detections) :=
  let* labels := lift (make_labels vehicle_detections) in
  let* scene := copy frame in
  let* annotated_frame := annotate scene vehicle_detections in
  let* _ := put_labels annotated_frame (zip (xyxy vehicle_detections) labels) in
  let fps := fps_of inference_time in
  let* d := get_self in
  let* _ := set_self (set_fps_history (push_fps fps (fps_history d)) d) in
  let* d := get_self in
  let* avg_fps := lift (py_truediv (Qsum (fps_history d)) (Qlen (fps_history d))) in
  let* _ := putText annotated_frame
              (info_text (len vehicle_detections) avg_fps (frame_count d)) (10, 30) 1 2 in
  let* _ := putText annotated_frame
              (inference_text inference_time target_width target_height) (10, 70) 1 2 in
  ret (annotated_frame, vehicle_detections).

(** [process_frame(self, frame)].  [inference_time] is the difference of the
    two clock readings around the call of the network. *)
Definition process_frame (frame : loc) (inference_time : Q) : M (loc * Detections) :=
  let* d := get_self in
  let* _ := set_self (set_frame_count (frame_count d + 1) d) in
  let* img := read frame in
  let height := Z.of_N (im_height img) in
  let width := Z.of_N (im_width img) in
  let target_height := 480 in
  let* target_width :=
    lift (if height =? 0 then Raise ZeroDivisionError
          else Ok (Z.quot (width * target_height) height)) in
  let* processed_frame := cv2_resize frame (target_width, target_height) in
  let* d := get_self in
  let* processed := read processed_frame in
  let results := model d processed in
  let detections := from_ultralytics results in
  let* detections := lift (rescale detections width height target_width target_height) in
  let* vehicle_detections := lift (filter_vehicles detections) in
  let* vehicle_detections := track_vehicles vehicle_detections in
  annotate_frame frame vehicle_detections inference_time target_width target_height.

(** ** [VehicleDetector.get_performance_stats]

    The source tests [not self.fps_history] twice in a row; both tests are
    kept, in their order.  The dictionary is a map from keys to JSON
    numbers. *)

Definition get_performance_stats (d : VehicleDetector) : result (gmap string json) :=
  if bool_decide (fps_history d = []) then
    Ok (<["avg_fps" := JInt 0]> (<["total_frames" := JInt 0]> ∅))
  else if bool_decide (fps_history d = []) then
    Ok (<["avg_fps" := JInt 0]> (<["total_frames" := JInt (frame_count d)]>
       (<["min_fps" := JInt 0]> (<["max_fps" := JInt 0]> ∅))))
  else
    match fps_history d with
    | [] => Raise ZeroDivisionError
    | x :: rest =>
        rbind (py_truediv (Qsum (fps_history d)) (Qlen (fps_history d))) (fun avg =>
        Ok (<["avg_fps" := JFloat avg]> (<["total_frames" := JInt (frame_count d)]>
           (<["min_fps" := JFloat (Qmin_list x rest)]>
           (<["max_fps" := JFloat (Qmax_list x rest)]> ∅)))))
    end.

(** [VehicleDetector.__init__]: loading the weights is fatal when it fails
    ([load_model] calls [sys.exit(1)]). *)
Definition new_detector (model_size : string) (conf_threshold : Q) : result VehicleDetector :=
  match yolo_weights ("yolov8" +:+ model_size +:+ ".pt") with
  | Some net => Ok (mkDetector model_size conf_threshold 0 net byte_track [])
  | None => Raise (SystemExit 1)
  end.

End Detector.

(** ** [python_detector.detect_frame] *)

(** The function looks at its detections through [hasattr]: an attribute is
    absent, [None], or an array. *)
Inductive attr (A : Type) : Type :=
  | Absent
  | PyNone
  | Arr (items : list A).
Arguments Absent {A}.
Arguments PyNone {A}.
Arguments Arr {A} items.

Record DetObject : Type := mkDetObject {
  o_xyxy : attr box;
  o_tracker_id : attr Z;
  o_confidence : attr Q;
  o_class_id : attr Z
}.

Definition attr_of_option {A} (o : option (list A)) : attr A :=
  match o with
  | Some l => Arr l
  | None => PyNone
  end.

(** A [supervision.Detections] seen as such an object: every attribute is
    there. *)
Definition of_Detections (d : Detections) : DetObject :=
  mkDetObject (Arr (xyxy d)) (attr_of_option (tracker_id d))
              (attr_of_option (confidence d)) (attr_of_option (class_id d)).

(** [a[i] if hasattr(o, name) and i < len(o.name) else fallback]. *)
Definition attr_get {A} (a : attr A) (i : nat) (fallback : A) : result A :=
  match a with
  | Absent => Ok fallback
  | PyNone => Raise TypeError
  | Arr l => Ok (default fallback (l !! i))
  end.

Definition coco_classes : list string :=
  ["person"; "bicycle"; "car"; "motorcycle"; "airplane"; "bus"; "train"; "truck"; "boat"].

(** Lines 65-69; a negative index counts from the end of the list. *)
Definition coco_name (class_id : Z) : result string :=
  let n := Z.of_nat (length coco_classes) in
  if class_id <? n then
    let k := if class_id <? 0 then class_id + n else class_id in
    if k <? 0 then Raise IndexError
    else Ok (default "" (coco_classes !! Z.to_nat k))
  else Ok ("class_" +:+ pretty class_id).

(** Lines 48-78: the body of the loop, for the box of index [i]. *)
Definition detection_entry (o : DetObject) (i : nat) (bbox : box) : result json :=
  let '(x1, y1, x2, y2) := bbox in
  rbind (attr_get (o_tracker_id o) i (Z.of_nat i)) (fun track_id =>
  rbind (attr_get (o_confidence o) i (1 # 2)%Q) (fun confidence =>
  rbind (attr_get (o_class_id o) i 2) (fun class_id =>
  rbind (coco_name class_id) (fun class_name =>
  Ok (JObj [ ("bbox", JArr [JFloat x1; JFloat y1; JFloat x2; JFloat y2]);
             ("track_id", JInt track_id);
             ("confidence", JFloat confidence);
             ("class_id", JInt class_id);
             ("class_name", JStr class_name) ]))))).

Fixpoint entries_from (o : DetObject) (i : nat) (boxes : list box) : result (list json) :=
  match boxes with
  | [] => Ok []
  | bbox :: boxes' =>
      rbind (detection_entry o i bbox) (fun r =>
      rbind (entries_from o (S i) boxes') (fun rs => Ok (r :: rs)))
  end.

(** Lines 46-78. *)
Definition detection_results (o : DetObject) : result (list json) :=
  match o_xyxy o with
  | Absent => Ok []
  | PyNone => Raise TypeError
  | Arr boxes => if (0 <? length boxes)%nat then entries_from o 0 boxes else Ok []
  end.

(** [try: ... except Exception as e: handler]. *)
Definition try_except {A} (body : result A) (handler : exn -> result A) : result A :=
  match body with
  | Ok a => Ok a
  | Raise e => if is_Exception e then handler e else Raise e
  end.

Section EntryPoint.
Context `{E : Externals}.

(** [detect_frame(image_path, model_size, conf_threshold)]; the value is the
    object given to [json.dumps]. *)
Definition detect_frame (image_path model_size : string) (conf_threshold inference_time : Q)
  : result json :=
  try_except
    (rbind (new_detector model_size conf_threshold) (fun detector =>
     match cv2_imread image_path with
     | None => Ok (JObj [("error", JStr "Could not load image")])
     | Some frame =>
         match process_frame 0%nat inference_time (mkWorld detector [frame]) with
         | (_, Raise e) => Raise e
         | (_, Ok (_, detections)) =>
             rbind (detection_results (of_Detections detections)) (fun results =>
             Ok (JObj [("detections", JArr results); ("success", JBool true)]))
         end
     end))
    (fun e => Ok (JObj [("error", JStr (exn_str e)); ("success", JBool false)])).

End EntryPoint.

(** ** What a call of [process_frame] computes, step by step

    The values that the statements below name: the size and content of the
    frame given to the network, the outcome of the tracker, and the pixels
    of the annotated frame. *)

Section Views.
Context `{E : Externals}.

(** Line 111. *)
Definition target_width_of (img : image) : Z :=
  Z.quot (Z.of_N (im_width img) * 480) (Z.of_N (im_height img)).

(** The buffer that [cv2.resize] allocates. *)
Definition resized_frame (img : image) (target_width target_height : Z) : image :=
  mkImage (Z.to_N target_height) (Z.to_N target_width)
          (resize_pixels img (Z.to_N target_width) (Z.to_N target_height)).

(** Tracker state and detections after [track_vehicles]. *)
Definition track (d : VehicleDetector) (fvd : Detections) : tracker_state * Detections :=
  if (0 <? len fvd)%nat then update_with_detections (tracker d) fvd else (tracker d, fvd).

(** The image after the loop of [put_labels]. *)
Definition draw_labels (items : list (box * string)) (img : image) : image :=
  fold_left (fun im (it : box * string) =>
               let '((x1, y1, _, _), label) := it in
               cv2_putText im label (py_int x1, py_int y1 - 10) (6 # 10) 2)
            items img.

(** The image after the two overlay lines. *)
Definition overlay (img : image) (n : nat) (avg_fps : Q) (count : Z)
    (inference_time : Q) (target_width : Z) : image :=
  cv2_putText (cv2_putText img (info_text n avg_fps count) (10, 30) 1 2)
              (inference_text inference_time target_width 480) (10, 70) 1 2.

(** The label that carries a track id. *)
Definition id_label (track_id class_id : Z) (confidence : Q) : string :=
  "ID:" +:+ pretty track_id +:+ " " +:+ class_label class_id +:+ " "
  +:+ format_f 2 confidence.

(** [Qsum l / len(l)]. *)
Definition mean (l : list Q) : Q := (Qsum l / Qlen l)%Q.

End Views.

(** ** States of a running detector *)

Section Reachable.
Context `{E : Externals}.

(** The states a caller can bring a detector to: construct it, call
    [process_frame] on a frame of the heap (whether the call returns or
    raises), and handle frames in between. *)
Inductive reachable : world -> Prop :=
  | reach_new size conf d h :
      new_detector size conf = Ok d -> reachable (mkWorld d h)
  | reach_call w frame img t :
      reachable w -> heap w !! frame = Some img ->
      reachable (fst (process_frame frame t w))
  | reach_heap w h :
      reachable w -> reachable (mkWorld (self w) h).

End Reachable.

(** ** Vocabulary of the statements *)








(** A detection set as the tracker hands it out: the three arrays are there,
    one entry per box. *)
Definition tracked (d : Detections) : Prop :=
  exists ids confs tids,
    class_id d = Some ids /\ confidence d = Some confs /\ tracker_id d = Some tids /\
    length ids = len d /\ length confs = len d /\ length tids = len d.

Section Contracts.
Context `{E : Externals}.


(** The tracker numbers every detection that it returns, when it is given
    a set with confidences and class ids, one per box. *)
Definition tracker_assigns_ids : Prop :=
  forall ts d,
    valid d -> is_Some (class_id d) -> is_Some (confidence d) ->
    tracked (snd (update_with_detections ts d)).

(** The detector with another network. *)
Definition with_network (net : image -> list prediction) (d : VehicleDetector)
  : VehicleDetector :=
  mkDetector (model_size d) (conf_threshold d) (frame_count d) net (tracker d) (fps_history d).

(** Inference was run on the frame resized to the given size: the call
    allocated that buffer, what [cv2.resize] makes of the frame, next on the
    heap; the detections that the call returns, if it returns, come from
    the network's predictions on that buffer; and the call asks the network
    nothing else: with any network that predicts the same on that buffer the
    outcome, the buffers and the state are the same. *)
Definition runs_inference_on (frame : loc) (t : Q) (w : world) (width' height' : Z) : Prop :=
  let img := heap w !!! frame in
  let processed := resized_frame img width' height' in
  let out := process_frame frame t w in
  heap (fst out) !! length (heap w) = Some processed /\
  Z.of_N (im_height processed) = height' /\
  Z.of_N (im_width processed) = width' /\
  (forall ann vd, snd out = Ok (ann, vd) ->
     exists fvd,
       rbind (rescale (from_ultralytics (model (self w) processed))
                      (Z.of_N (im_width img)) (Z.of_N (im_height img)) width' height')
             filter_vehicles = Ok fvd /\
       vd = snd (track (self w) fvd)) /\
  (forall net, net processed = model (self w) processed ->
     process_frame frame t (mkWorld (with_network net (self w)) (heap w))
     = (mkWorld (with_network net (self (fst out))) (heap (fst out)), snd out)).

End Contracts.

(** A result that is not [SystemExit]: what [except Exception] catches. *)
Definition catchable {A} (r : result A) : Prop :=
  match r with
  | Raise e => is_Exception e = true
  | Ok _ => True
  end.

(** The first value stored under [name] in a list of fields. *)
Fixpoint assoc (name : string) (fields : list (string * json)) : option json :=
  match fields with
  | [] => None
  | (k, v) :: fields' => if String.eqb k name then Some v else assoc name fields'
  end.

(** The field [name] of a JSON object. *)
Definition json_field (name : string) (j : json) : option json :=
  match j with
  | JObj fields => assoc name fields
  | _ => None
  end.

(** One entry of the list of detections. *)
Definition is_detection_entry (j : json) : Prop :=
  exists x1 y1 x2 y2 track_id conf cls name,
    j = JObj [ ("bbox", JArr [JFloat x1; JFloat y1; JFloat x2; JFloat y2]);
               ("track_id", JInt track_id);
               ("confidence", JFloat conf);
               ("class_id", JInt cls);
               ("class_name", JStr name) ].

Definition is_detections_object (j : json) : Prop :=
  exists entries,
    j = JObj [("detections", JArr entries); ("success", JBool true)] /\
    Forall is_detection_entry entries.

Definition is_error_object (j : json) : Prop :=
  exists msg rest, j = JObj (("error", JStr msg) :: rest).

(** ** A concrete set of collaborators, for running the definitions

    The network [toy_net] reports a car, a parking meter (class 12, not in
    [vehicle_classes]) and a truck on a frame wider than 500 columns, the
    parking meter alone on one wider than 300, and nothing on others; the
    tracker numbers its detections from 1; drawing records nothing but a
    marker pixel per call; there is memory for buffers of up to 100000000
    pixels. *)

Definition toy_net (img : image) : list prediction :=
  if (500 <? im_width img)%N then
    [ ((10, 20, 110, 220)%Q, 9 # 10, 2);
      ((0, 0, 50, 50)%Q, 8 # 10, 12);
      ((300, 100, 640, 480)%Q, 75 # 100, 7) ]
  else if (300 <? im_width img)%N then
    [ ((0, 0, 50, 50)%Q, 8 # 10, 12) ]
  else [].

Definition toy_track (next : Z) (d : Detections) : Z * Detections :=
  (next + Z.of_nat (len d),
   mkDetections (xyxy d) (confidence d) (class_id d)
                (Some (map (fun i => next + Z.of_nat i) (seq 0 (len d))))).

Definition mark (p : pixel) (img : image) : image :=
  mkImage (im_height img) (im_width img) (p :: im_data img).

#[global] Instance toy : Externals := {|
  yolo_weights := fun path => if String.eqb path "yolov8n.pt" then Some toy_net else None;
  tracker_state := Z;
  byte_track := 1;
  update_with_detections := toy_track;
  draw_detection := fun d i img => mark (0, 0, Z.of_nat i) img;
  cv2_imread := fun path =>
    if String.eqb path "road.jpg" then Some (mkImage 720 1280 [])
    else if String.eqb path "sliver.png" then Some (mkImage 481 1 [])
    else if String.eqb path "icon.png" then Some (mkImage 48 64 [])
    else if String.eqb path "portrait.jpg" then Some (mkImage 640 480 [])
    else None;
  resize_pixels := fun img w h => im_data img;
  cv2_allocates := fun w h => negb (100000000 <? w * h);
  cv2_putText := fun img text org scale thickness =>
    mark (fst org, snd org, Z.of_nat (String.length text)) img
|}.

Definition road : image := mkImage 720 1280 [].
Definition sliver : image := mkImage 481 1 [].
Definition icon : image := mkImage 48 64 [].
Definition portrait : image := mkImage 640 480 [].
Definition strip : image := mkImage 1 5000000 [].


(** A detector as [VehicleDetector("n", 0.5)] builds it. *)
Definition fresh_detector : VehicleDetector := mkDetector "n" (1 # 2) 0 toy_net 1 [].

(** [n] calls on the frame [road], the caller keeping that frame only. *)
Definition after_calls (n : nat) (t : Q) (w : world) : world :=
  Nat.iter n (fun w => mkWorld (self (fst (process_frame 0%nat t w))) [road]) w.

(** Detections with three boxes and one tracker id. *)
Definition short_ids : DetObject :=
  mkDetObject (Arr [(0, 0, 10, 10)%Q; (5, 5, 20, 20)%Q; (1, 2, 3, 4)%Q])
              (Arr [7])
              (Arr [9 # 10; 8 # 10; 7 # 10]%Q)
              (Arr [2; 7; 0]).

(** ** Further vocabulary *)

Section MoreContracts.
Context `{E : Externals}.

(** The tracker returns class ids that it was given. *)
Definition tracker_keeps_classes : Prop :=
  forall ts d c,
    c ∈ default [] (class_id (snd (update_with_detections ts d))) ->
    c ∈ default [] (class_id d).

(** [self.detector.conf_threshold = conf], the assignment of the
    [on_conf_change] handlers of both GUIs. *)
Definition set_conf_threshold (conf : Q) (d : VehicleDetector) : VehicleDetector :=
  mkDetector (model_size d) conf (frame_count d) (model d) (tracker d) (fps_history d).

End MoreContracts.

(** The number behind a JSON number. *)
Definition json_number (j : json) : option Q :=
  match j with
  | JInt z => Some (inject_Z z)
  | JFloat q => Some q
  | _ => None
  end.

(** ** Front ends: [main] of [vehicle_detector.py] and [run_demo] of [demo.py]

    A front end reads frames from an opened capture, shows and saves
    pictures and prints lines.  What the capture, the clock and the keyboard
    deliver is input ([shot]); what the front end does to the outside is a
    trace of [effect]s, in order.  [KeyboardInterrupt] is not modelled. *)

(** What a front end can raise beyond the exceptions of the detector. *)
Inductive front_exn : Type :=
  | Raised (e : exn)
  | KeyError (key : string)
  | ValueError.

Inductive outcome (A : Type) : Type :=
  | Done (a : A)
  | Failed (e : front_exn).
Arguments Done {A} a.
Arguments Failed {A} e.

(** One turn of a reading loop: the frame that [cap.read()] delivers, the
    inference time that [process_frame] measures on it, the value of
    [cv2.waitKey(1)] after it was shown, and [int(time.time())] then. *)
Record shot : Type := mkShot {
  shot_frame : image;
  shot_time : Q;
  shot_key : Z;
  shot_clock : Z
}.

Inductive effect : Type :=
  | Print (line : string)
  | Show (window : string) (picture : image)
  | WriteVideo (picture : image)
  | WriteImage (path : string) (picture : image)
  | ReleaseAll.

(** [stats[key]]. *)
Definition dict_get (stats : gmap string json) (key : string) : outcome json :=
  match stats !! key with
  | Some v => Done v
  | None => Failed (KeyError key)
  end.

(** [f"{x:.1f}"] of a number of a dictionary. *)
Definition format_number_1f (j : json) : string :=
  match j with
  | JInt z => format_f 1 (inject_Z z)
  | JFloat q => format_f 1 q
  | _ => ""
  end.

(** [x > 0] of a number of a dictionary. *)
Definition number_positive (j : json) : bool :=
  match json_number j with
  | Some q => if Qlt_le_dec 0 q then true else false
  | None => false
  end.

Section FrontEnds.
Context `{E : Externals}.

(** [str(x)] of a float, Python's shortest representation, is not modelled:
    it is a parameter. *)
Variable str_float : Q -> string.

(** [f"{x}"] of a number of a dictionary. *)
Definition format_number (j : json) : string :=
  match j with
  | JInt z => pretty z
  | JFloat q => str_float q
  | _ => ""
  end.

Record front : Type := mkFront {
  f_world : world;
  f_trace : list effect
}.

Definition F (A : Type) : Type := front -> front * outcome A.

Definition f_ret {A} (a : A) : F A := fun s => (s, Done a).
Definition f_bind {A B} (m : F A) (k : A -> F B) : F B :=
  fun s => match m s with
           | (s', Done a) => k a s'
           | (s', Failed e) => (s', Failed e)
           end.

Notation "'let*' x ':=' m 'in' k" := (f_bind m (fun x => k))
  (at level 10, x pattern, m at level 100, k at level 200).

(** A method of the detector, called from the front end. *)
Definition call {A} (m : M A) : F A :=
  fun s => match m (f_world s) with
           | (w', Ok a) => (mkFront w' (f_trace s), Done a)
           | (w', Raise e) => (mkFront w' (f_trace s), Failed (Raised e))
           end.

Definition emit (e : effect) : F unit :=
  fun s => (mkFront (f_world s) (f_trace s ++ [e]), Done tt).

Definition f_lift {A} (o : outcome A) : F A := fun s => (s, o).

(** [try: body finally: cleanup]: the cleanup runs in any case; what it
    raises replaces the outcome of the body. *)
Definition try_finally {A} (body : F A) (cleanup : F unit) : F A :=
  fun s => match body s with
           | (s', r) =>
               match cleanup s' with
               | (s'', Done _) => (s'', r)
               | (s'', Failed e) => (s'', Failed e)
               end
           end.

(** *** [vehicle_detector.main], lines 260-303 *)

(** Lines 261-284: the loop, on the shots that the capture delivers before
    [cap.read()] fails. *)
Fixpoint main_loop (writer : bool) (shots : list shot) : F unit :=
  match shots with
  | [] => emit (Print "End of video")
  | s :: shots' =>
      let* frame := call (alloc (shot_frame s)) in
      let* r := call (process_frame frame (shot_time s)) in
      let* annotated_frame := call (read (fst r)) in
      let* _ := if writer then emit (WriteVideo annotated_frame) else f_ret tt in
      let* _ := emit (Show "Vehicle Detection" annotated_frame) in
      let key := Z.land (shot_key s) 255 in
      if key =? 113 then f_ret tt
      else
        let* _ :=
          if key =? 115 then
            let screenshot_path := "screenshot_" +:+ pretty (shot_clock s) +:+ ".jpg" in
            let* _ := emit (WriteImage screenshot_path annotated_frame) in
            emit (Print ("📸 Screenshot saved: " +:+ screenshot_path))
          else f_ret tt in
        main_loop writer shots'
  end.

(** Lines 296-303. *)
Definition print_summary : F unit :=
  let* d := call get_self in
  let* stats := call (lift (get_performance_stats d)) in
  let* _ := emit (Print "
📊 Performance Summary:") in
  let* total := f_lift (dict_get stats "total_frames") in
  let* _ := emit (Print ("   Total frames: " +:+ format_number total)) in
  let* avg := f_lift (dict_get stats "avg_fps") in
  let* _ := emit (Print ("   Average FPS: " +:+ format_number_1f avg)) in
  let* lo := f_lift (dict_get stats "min_fps") in
  let* _ := emit (Print ("   Min FPS: " +:+ format_number_1f lo)) in
  let* hi := f_lift (dict_get stats "max_fps") in
  let* _ := emit (Print ("   Max FPS: " +:+ format_number_1f hi)) in
  emit (Print "👋 Vehicle detection stopped").

(** Lines 260-303: [try: loop finally: release, summary]. *)
Definition main_block (writer : bool) (shots : list shot) : F unit :=
  try_finally (main_loop writer shots)
              (let* _ := emit ReleaseAll in print_summary).

(** *** [demo.run_demo], lines 82-118 *)

(** Lines 85-102: the loop, with its two counters. *)
Fixpoint demo_loop (shots : list shot) (frame_count total_detections : Z) : F (Z * Z) :=
  match shots with
  | [] => f_ret (frame_count, total_detections)
  | s :: shots' =>
      let* frame := call (alloc (shot_frame s)) in
      let* r := call (process_frame frame (shot_time s)) in
      let '(annotated, detections) := r in
      let total_detections := total_detections + Z.of_nat (len detections) in
      let frame_count := frame_count + 1 in
      let* _ :=
        if frame_count mod 10 =? 0 then
          emit (Print ("Frame " +:+ pretty frame_count +:+ ": "
                       +:+ pretty (len detections) +:+ " vehicles detected"))
        else f_ret tt in
      let* annotated_frame := call (read annotated) in
      let* _ := emit (Show "Vehicle Detection Demo" annotated_frame) in
      if Z.land (shot_key s) 255 =? 113 then f_ret (frame_count, total_detections)
      else demo_loop shots' frame_count total_detections
  end.

(** [f"{a/b:.1f}"] for two integers. *)
Definition format_ratio_1f (a b : Q) : F string :=
  match py_truediv a b with
  | Ok q => f_ret (format_f 1 q)
  | Raise e => f_lift (Failed (Raised e))
  end.

(** Lines 104-118. *)
Definition demo_report (frame_count total_detections : Z) : F unit :=
  let* _ := emit ReleaseAll in
  let* d := call get_self in
  let* stats := call (lift (get_performance_stats d)) in
  let* _ := emit (Print "
📊 Demo Results:") in
  let* _ := emit (Print ("   Total frames processed: " +:+ pretty frame_count)) in
  let* _ := emit (Print ("   Total vehicle detections: " +:+ pretty total_detections)) in
  if 0 <? frame_count then
    let* per_frame := format_ratio_1f (inject_Z total_detections) (inject_Z frame_count) in
    let* _ := emit (Print ("   Average vehicles per frame: " +:+ per_frame)) in
    let* avg := f_lift (dict_get stats "avg_fps") in
    let* _ := emit (Print ("   Average FPS: " +:+ format_number_1f avg)) in
    if number_positive avg then
      let* seconds := format_ratio_1f (inject_Z frame_count) (default 0%Q (json_number avg)) in
      emit (Print ("   Processing time: " +:+ seconds +:+ " seconds"))
    else f_ret tt
  else emit (Print "   No frames processed").

(** Lines 82-118: the loop from zero counters, then the report. *)
Definition demo_run (shots : list shot) : F unit :=
  let* counts := demo_loop shots 0 0 in
  demo_report (fst counts) (snd counts).

End FrontEnds.

(** The pictures that a trace shows, those it writes to the video, and the
    lines it prints. *)
Definition shown (trace : list effect) : list image :=
  omap (fun e => match e with Show _ p => Some p | _ => None end) trace.
Definition written (trace : list effect) : list image :=
  omap (fun e => match e with WriteVideo p => Some p | _ => None end) trace.
Definition printed (trace : list effect) : list string :=
  omap (fun e => match e with Print l => Some l | _ => None end) trace.

(** Shots for running the front ends: no key pressed, "q" pressed, "s"
    pressed with num lock on (the key code has bits above the low byte). *)
Definition quiet_shot : shot := mkShot road (1 # 50) (-1) 1700000000.
Definition q_shot : shot := mkShot road (1 # 25) 113 1700000001.
Definition s_shot : shot := mkShot icon (1 # 40) (1048576 + 115) 1700000002.

(** A front end that starts with a new detector and has printed nothing. *)
Definition fresh_front : front := mkFront (mkWorld fresh_detector []) [].

(** ** The GUIs: [gui_detector.py] and [gui.py]

    A GUI object holds the detector, the opened video, the position in it
    and the widgets; the frames it reads are buffers of its heap.  The
    widgets are modelled by what they show.  The loops that the source runs
    in a thread are modelled as they run when nothing else touches the
    object meanwhile. *)

(** [isinstance(e, Exception)] and [str(e)] for the front ends. *)
Definition is_front_Exception (e : front_exn) : bool :=
  match e with
  | Raised e' => is_Exception e'
  | _ => true
  end.

Definition front_exn_str (e : front_exn) : string :=
  match e with
  | Raised e' => exn_str e'
  | KeyError key => "'" +:+ key +:+ "'"
  | ValueError => "sleep length must be non-negative"
  end.

(** State and exceptions over any object. *)
Definition St (S A : Type) : Type := S -> S * outcome A.

Definition st_ret {S A} (a : A) : St S A := fun s => (s, Done a).
Definition st_bind {S A B} (m : St S A) (k : A -> St S B) : St S B :=
  fun s => match m s with
           | (s', Done a) => k a s'
           | (s', Failed e) => (s', Failed e)
           end.
Definition st_get {S} : St S S := fun s => (s, Done s).
Definition st_modify {S} (f : S -> S) : St S unit := fun s => (f s, Done tt).
Definition st_lift {S A} (o : outcome A) : St S A := fun s => (s, o).

(** [try: body except Exception as e: handler(e)]. *)
Definition st_try {S A} (body : St S A) (handler : front_exn -> St S A) : St S A :=
  fun s => match body s with
           | (s', Done a) => (s', Done a)
           | (s', Failed e) => if is_front_Exception e then handler e s' else (s', Failed e)
           end.

(** [cap.set(cv2.CAP_PROP_POS_FRAMES, pos); ret, frame = cap.read()] on the
    frames of a video: no frame outside of it. *)
Definition seek_read (video : list image) (pos : Z) : option image :=
  if pos <? 0 then None else video !! Z.to_nat pos.

(** [cv2.cvtColor(frame, cv2.COLOR_BGR2RGB)]. *)
Definition bgr2rgb (img : image) : image :=
  mkImage (im_height img) (im_width img)
          (map (fun p : pixel => let '(b, g, r) := p in (r, g, b)) (im_data img)).

(** [min(a, b)]. *)
Definition py_min (a b : Q) : Q := if Qlt_le_dec b a then b else a.

(** [time.sleep(1.0 / fps)]. *)
Definition sleep_one_frame (fps : Q) : outcome unit :=
  match py_truediv 1 fps with
  | Raise e => Failed (Raised e)
  | Ok seconds => if Qlt_le_dec seconds 0 then Failed ValueError else Done tt
  end.

(** The size for the display of a picture that exceeds 600 in a direction
    (lines 209-211 of [gui_detector.py], 367-369 of [gui.py]). *)
Definition display_size (width height : Z) : result (Z * Z) :=
  let max_size := 600 in
  rbind (py_truediv (inject_Z max_size) (inject_Z width)) (fun sx =>
  rbind (py_truediv (inject_Z max_size) (inject_Z height)) (fun sy =>
  let scale := py_min sx sy in
  let new_width := py_int (inject_Z width * scale) in
  let new_height := py_int (inject_Z height * scale) in
  Ok (new_width, new_height))).

Section Guis.
Context `{E : Externals}.

Notation "'let*' x ':=' m 'in' k" := (st_bind m (fun x => k))
  (at level 10, x pattern, m at level 100, k at level 200).

(** [cv2.resize] on a heap. *)
Definition heap_resize (h : list image) (src : loc) (dsize : Z * Z) : list image * result loc :=
  let img := h !!! src in
  if resize_refused img dsize then (h, Raise Cv2Error)
  else
    let '(w, hh) := dsize in
    (h ++ [resized_frame img w hh], Ok (length h)).

(** Lines 205-212 of [gui_detector.py], 363-370 of [gui.py]: the frame to
    show, resized when it exceeds 600 in a direction. *)
Definition resize_for_display (h : list image) (frame : loc) : list image * result loc :=
  let img := h !!! frame in
  let height := Z.of_N (im_height img) in
  let width := Z.of_N (im_width img) in
  let max_size := 600 in
  if (max_size <? width) || (max_size <? height) then
    match display_size width height with
    | Ok dsize => heap_resize h frame dsize
    | Raise e => (h, Raise e)
    end
  else (h, Ok frame).

(** *** [gui_detector.VehicleDetectionGUI] *)

Record DetectionGUI : Type := mkDetectionGUI {
  dg_detector : option VehicleDetector;
  dg_cap : option (list image);
  dg_is_playing : bool;
  dg_current_frame : Z;
  dg_total_frames : Z;
  dg_fps : Q;
  dg_frame_var : Z;
  dg_info_text : list string;
  dg_video_label : option image;
  dg_status_var : string;
  dg_heap : list image
}.

Definition dg_set_detection (d : option VehicleDetector) (h : list image) (g : DetectionGUI)
  : DetectionGUI :=
  mkDetectionGUI d (dg_cap g) (dg_is_playing g) (dg_current_frame g) (dg_total_frames g)
                 (dg_fps g) (dg_frame_var g) (dg_info_text g) (dg_video_label g)
                 (dg_status_var g) h.
Definition dg_set_info_text (lines : list string) (g : DetectionGUI) : DetectionGUI :=
  mkDetectionGUI (dg_detector g) (dg_cap g) (dg_is_playing g) (dg_current_frame g)
                 (dg_total_frames g) (dg_fps g) (dg_frame_var g) lines (dg_video_label g)
                 (dg_status_var g) (dg_heap g).
Definition dg_set_display (photo : image) (status : string) (g : DetectionGUI) : DetectionGUI :=
  mkDetectionGUI (dg_detector g) (dg_cap g) (dg_is_playing g) (dg_current_frame g)
                 (dg_total_frames g) (dg_fps g) (dg_frame_var g) (dg_info_text g) (Some photo)
                 status (dg_heap g).
Definition dg_set_position (pos : Z) (g : DetectionGUI) : DetectionGUI :=
  mkDetectionGUI (dg_detector g) (dg_cap g) (dg_is_playing g) pos (dg_total_frames g)
                 (dg_fps g) pos (dg_info_text g) (dg_video_label g) (dg_status_var g)
                 (dg_heap g).
Definition dg_set_is_playing (b : bool) (g : DetectionGUI) : DetectionGUI :=
  mkDetectionGUI (dg_detector g) (dg_cap g) b (dg_current_frame g) (dg_total_frames g)
                 (dg_fps g) (dg_frame_var g) (dg_info_text g) (dg_video_label g)
                 (dg_status_var g) (dg_heap g).

(** [self.log_info(message)]. *)
Definition dg_log_info (message : string) : St DetectionGUI unit :=
  st_modify (fun g => dg_set_info_text (dg_info_text g ++ [message]) g).

(** A frame read from the video: a new buffer. *)
Definition dg_new_frame (img : image) : St DetectionGUI loc :=
  fun g => (dg_set_detection (dg_detector g) (dg_heap g ++ [img]) g, Done (length (dg_heap g))).

(** A method of the detector [d] of the GUI. *)
Definition dg_call {A} (d : VehicleDetector) (m : M A) : St DetectionGUI A :=
  fun g => match m (mkWorld d (dg_heap g)) with
           | (w', Ok a) => (dg_set_detection (Some (self w')) (heap w') g, Done a)
           | (w', Raise e) => (dg_set_detection (Some (self w')) (heap w') g, Failed (Raised e))
           end.

(** Lines 205-212. *)
Definition dg_resize_for_display (frame : loc) : St DetectionGUI loc :=
  fun g => match resize_for_display (dg_heap g) frame with
           | (h', Ok l) => (dg_set_detection (dg_detector g) h' g, Done l)
           | (h', Raise e) => (dg_set_detection (dg_detector g) h' g, Failed (Raised e))
           end.

(** [update_frame(self)], lines 179-224. *)
Definition dg_update_frame (inference_time : Q) : St DetectionGUI unit :=
  let* g := st_get in
  match dg_cap g with
  | None => st_ret tt
  | Some video =>
      match seek_read video (dg_current_frame g) with
      | None => st_ret tt
      | Some img =>
          let* frame := dg_new_frame img in
          let* frame :=
            match dg_detector g with
            | None => st_ret frame
            | Some d =>
                st_try
                  (let* r := dg_call d (process_frame frame inference_time) in
                   let '(processed_frame, detections) := r in
                   let* _ :=
                     if (0 <? len detections)%nat then
                       dg_log_info ("Frame " +:+ pretty (dg_current_frame g) +:+ ": "
                                    +:+ pretty (len detections) +:+ " objects detected")
                     else
                       dg_log_info ("Frame " +:+ pretty (dg_current_frame g)
                                    +:+ ": No objects detected") in
                   st_ret processed_frame)
                  (fun e =>
                     let* _ := dg_log_info ("Detection error: " +:+ front_exn_str e) in
                     st_ret frame)
            end in
          let* frame := dg_resize_for_display frame in
          st_modify (fun g' =>
            dg_set_display (bgr2rgb (dg_heap g' !!! frame))
                           ("Frame: " +:+ pretty (dg_current_frame g' + 1) +:+ "/"
                            +:+ pretty (dg_total_frames g')) g')
      end
  end.

(** What the detection step of [update_frame] leaves: detector, heap, frame
    to show and log. *)
Definition dg_detected (t : Q) (g : DetectionGUI) (img : image)
  : option VehicleDetector * list image * loc * list string :=
  let frame := length (dg_heap g) in
  let h0 := dg_heap g ++ [img] in
  match dg_detector g with
  | None => (None, h0, frame, dg_info_text g)
  | Some d =>
      let out := process_frame frame t (mkWorld d h0) in
      match snd out with
      | Ok (processed, detections) =>
          (Some (self (fst out)), heap (fst out), processed,
           dg_info_text g ++
           [if (0 <? len detections)%nat
            then "Frame " +:+ pretty (dg_current_frame g) +:+ ": "
                 +:+ pretty (len detections) +:+ " objects detected"
            else "Frame " +:+ pretty (dg_current_frame g) +:+ ": No objects detected"])
      | Raise e =>
          (Some (self (fst out)), heap (fst out), frame,
           dg_info_text g ++ ["Detection error: " +:+ exn_str e])
      end
  end.

(** [play_loop] of [play_video], lines 157-166, for at most [fuel] turns;
    [times] gives the inference time measured at each position. *)
Fixpoint dg_play_loop (fuel : nat) (times : Z -> Q) (g : DetectionGUI)
  : option (DetectionGUI * outcome unit) :=
  match fuel with
  | O => None
  | S fuel' =>
      if dg_is_playing g && bool_decide (is_Some (dg_cap g)) then
        if dg_current_frame g <? dg_total_frames g - 1 then
          let g1 := dg_set_position (dg_current_frame g + 1) g in
          match dg_update_frame (times (dg_current_frame g1)) g1 with
          | (g2, Failed e) => Some (g2, Failed e)
          | (g2, Done _) =>
              match sleep_one_frame (dg_fps g2) with
              | Failed e => Some (g2, Failed e)
              | Done _ => dg_play_loop fuel' times g2
              end
          end
        else Some (dg_set_is_playing false g, Done tt)
      else Some (g, Done tt)
  end.

(** [stop_video(self)], lines 171-177. *)
Definition dg_stop_video (inference_time : Q) : St DetectionGUI unit :=
  let* _ := st_modify (dg_set_is_playing false) in
  let* g := st_get in
  match dg_cap g with
  | Some _ =>
      let* _ := st_modify (dg_set_position 0) in
      dg_update_frame inference_time
  | None => st_ret tt
  end.

End Guis.

(** A GUI of [gui_detector.py] on a video of four frames, paused on the
    first one. *)
Definition toy_player : DetectionGUI :=
  mkDetectionGUI (Some fresh_detector) (Some [icon; portrait; sliver; icon]) false 0 4 30 0
                 [] None "Ready" [].

(** A frame 601 rows high and one column wide, and the same GUI on a video
    of it, without detector. *)
Definition needle : image := mkImage 601 1 [].
Definition needle_player : DetectionGUI :=
  mkDetectionGUI None (Some [needle]) false 0 1 30 0 [] None "Ready" [].

(** The GUI of [toy_player], playing, and the same on a video that reports
    0 frames per second. *)
Definition playing_player : DetectionGUI := dg_set_is_playing true toy_player.
Definition stalled_player : DetectionGUI :=
  mkDetectionGUI (Some fresh_detector) (Some [icon; portrait; sliver; icon]) true 0 4 0 0
                 [] None "Ready" [].

(** *** [gui.VehicleGUI] *)

Section VehicleGuis.
Context `{E : Externals}.

Notation "'let*' x ':=' m 'in' k" := (st_bind m (fun x => k))
  (at level 10, x pattern, m at level 100, k at level 200).

Record VehicleGUI : Type := mkVehicleGUI {
  vg_detector : option VehicleDetector;
  vg_cap : option (list image);
  vg_is_playing : bool;
  vg_current_frame : Z;
  vg_total_frames : Z;
  vg_fps : Q;
  vg_processing_times : list Q;
  vg_downsample : bool;
  vg_downsample_factor : Q;
  vg_frame_var : Z;
  vg_video_label : option image;
  vg_frame_label : string;
  vg_detection_label : string;
  vg_processing_label : string;
  vg_status_var : string;
  vg_heap : list image
}.

Definition vg_set_detection (d : option VehicleDetector) (h : list image) (g : VehicleGUI)
  : VehicleGUI :=
  mkVehicleGUI d (vg_cap g) (vg_is_playing g) (vg_current_frame g) (vg_total_frames g)
               (vg_fps g) (vg_processing_times g) (vg_downsample g) (vg_downsample_factor g)
               (vg_frame_var g) (vg_video_label g) (vg_frame_label g) (vg_detection_label g)
               (vg_processing_label g) (vg_status_var g) h.
Definition vg_set_status (message : string) (g : VehicleGUI) : VehicleGUI :=
  mkVehicleGUI (vg_detector g) (vg_cap g) (vg_is_playing g) (vg_current_frame g)
               (vg_total_frames g) (vg_fps g) (vg_processing_times g) (vg_downsample g)
               (vg_downsample_factor g) (vg_frame_var g) (vg_video_label g) (vg_frame_label g)
               (vg_detection_label g) (vg_processing_label g) message (vg_heap g).
Definition vg_set_processing_times (times : list Q) (g : VehicleGUI) : VehicleGUI :=
  mkVehicleGUI (vg_detector g) (vg_cap g) (vg_is_playing g) (vg_current_frame g)
               (vg_total_frames g) (vg_fps g) times (vg_downsample g)
               (vg_downsample_factor g) (vg_frame_var g) (vg_video_label g) (vg_frame_label g)
               (vg_detection_label g) (vg_processing_label g) (vg_status_var g) (vg_heap g).
Definition vg_set_display (photo : image) (frame_text detection_text processing_text : string)
    (g : VehicleGUI) : VehicleGUI :=
  mkVehicleGUI (vg_detector g) (vg_cap g) (vg_is_playing g) (vg_current_frame g)
               (vg_total_frames g) (vg_fps g) (vg_processing_times g) (vg_downsample g)
               (vg_downsample_factor g) (vg_frame_var g) (Some photo) frame_text
               detection_text processing_text (vg_status_var g) (vg_heap g).
Definition vg_set_position (pos : Z) (g : VehicleGUI) : VehicleGUI :=
  mkVehicleGUI (vg_detector g) (vg_cap g) (vg_is_playing g) pos (vg_total_frames g)
               (vg_fps g) (vg_processing_times g) (vg_downsample g) (vg_downsample_factor g)
               pos (vg_video_label g) (vg_frame_label g) (vg_detection_label g)
               (vg_processing_label g) (vg_status_var g) (vg_heap g).
Definition vg_set_is_playing (b : bool) (g : VehicleGUI) : VehicleGUI :=
  mkVehicleGUI (vg_detector g) (vg_cap g) b (vg_current_frame g) (vg_total_frames g)
               (vg_fps g) (vg_processing_times g) (vg_downsample g) (vg_downsample_factor g)
               (vg_frame_var g) (vg_video_label g) (vg_frame_label g) (vg_detection_label g)
               (vg_processing_label g) (vg_status_var g) (vg_heap g).

(** [log_status(self, message)], lines 449-452. *)
Definition vg_log_status (message : string) : St VehicleGUI unit :=
  st_modify (vg_set_status message).

(** An OpenCV call on the buffers of the GUI. *)
Definition vg_heap_op {A} (f : list image -> list image * result A) : St VehicleGUI A :=
  fun g => match f (vg_heap g) with
           | (h', Ok a) => (vg_set_detection (vg_detector g) h' g, Done a)
           | (h', Raise e) => (vg_set_detection (vg_detector g) h' g, Failed (Raised e))
           end.

(** A method of the detector [d] of the GUI. *)
Definition vg_call {A} (d : VehicleDetector) (m : M A) : St VehicleGUI A :=
  fun g => match m (mkWorld d (vg_heap g)) with
           | (w', Ok a) => (vg_set_detection (Some (self w')) (heap w') g, Done a)
           | (w', Raise e) => (vg_set_detection (Some (self w')) (heap w') g, Failed (Raised e))
           end.

(** Lines 336-342 of [update_frame]: the frame, downsampled if the setting
    is on. *)
Definition vg_downsampled (frame : loc) : St VehicleGUI loc :=
  let* g := st_get in
  if vg_downsample g then
    let factor := vg_downsample_factor g in
    let img := vg_heap g !!! frame in
    let height := Z.of_N (im_height img) in
    let width := Z.of_N (im_width img) in
    let new_width := py_int (inject_Z width * factor) in
    let new_height := py_int (inject_Z height * factor) in
    vg_heap_op (fun h => heap_resize h frame (new_width, new_height))
  else st_ret frame.

(** Lines 344-355: the frame to show and the number of detections. *)
Definition vg_detected (inference_time : Q) (frame : loc) : St VehicleGUI (loc * nat) :=
  let* g := st_get in
  match vg_detector g with
  | None => st_ret (frame, 0%nat)
  | Some d =>
      st_try
        (let* r := vg_call d (process_frame frame inference_time) in
         let '(processed_frame, detections) := r in
         st_ret (processed_frame,
                 if (0 <? len detections)%nat then len detections else 0%nat))
        (fun e =>
           let* _ := vg_log_status ("Detection error: " +:+ front_exn_str e) in
           st_ret (frame, 0%nat))
  end.

(** Lines 357-361: the time of this frame joins the last 30, by the same
    append and pop as the rates of the detector. *)
Definition vg_record_time (processing_time : Q) : St VehicleGUI unit :=
  st_modify (fun g =>
    vg_set_processing_times (push_fps processing_time (vg_processing_times g)) g).

(** Lines 363-384: the picture and the labels. *)
Definition vg_show (frame : loc) (detections_count : nat) (processing_time : Q)
  : St VehicleGUI unit :=
  let* frame := vg_heap_op (fun h => resize_for_display h frame) in
  st_modify (fun g =>
    vg_set_display (bgr2rgb (vg_heap g !!! frame))
                   ("Frame: " +:+ pretty (vg_current_frame g + 1) +:+ "/"
                    +:+ pretty (vg_total_frames g))
                   ("Detections: " +:+ pretty detections_count)
                   ("Processing: " +:+ format_f 1 processing_time +:+ "ms") g).

(** [update_frame(self)], lines 321-387; [elapsed] is what the clock
    measures between lines 327 and 358, in seconds. *)
Definition vg_update_frame (inference_time elapsed : Q) : St VehicleGUI unit :=
  st_try
    (let* g := st_get in
     match vg_cap g with
     | None => st_ret tt
     | Some video =>
         match seek_read video (vg_current_frame g) with
         | None => st_ret tt
         | Some img =>
             let* frame := vg_heap_op (fun h => (h ++ [img], Ok (length h))) in
             let* frame := vg_downsampled frame in
             let* r := vg_detected inference_time frame in
             let '(frame, detections_count) := r in
             let processing_time := (elapsed * 1000)%Q in
             let* _ := vg_record_time processing_time in
             vg_show frame detections_count processing_time
         end
     end)
    (fun e => vg_log_status ("Frame update error: " +:+ front_exn_str e)).

(** The turns of the [while] of [play_loop], lines 297-305, at most [fuel]
    of them; [times] gives the inference time and the time of the whole
    update measured at each position. *)
Fixpoint vg_play_turns (fuel : nat) (times : Z -> Q * Q) (g : VehicleGUI)
  : option (VehicleGUI * outcome unit) :=
  match fuel with
  | O => None
  | S fuel' =>
      if vg_is_playing g && bool_decide (is_Some (vg_cap g)) then
        if vg_current_frame g <? vg_total_frames g - 1 then
          let g1 := vg_set_position (vg_current_frame g + 1) g in
          let '(inference_time, elapsed) := times (vg_current_frame g1) in
          match vg_update_frame inference_time elapsed g1 with
          | (g2, Failed e) => Some (g2, Failed e)
          | (g2, Done _) =>
              match sleep_one_frame (vg_fps g2) with
              | Failed e => Some (g2, Failed e)
              | Done _ => vg_play_turns fuel' times g2
              end
          end
        else Some (vg_set_is_playing false g, Done tt)
      else Some (g, Done tt)
  end.

(** [play_loop] of [play_video], lines 295-308. *)
Definition vg_play_loop (fuel : nat) (times : Z -> Q * Q) (g : VehicleGUI)
  : option (VehicleGUI * outcome unit) :=
  match vg_play_turns fuel times g with
  | None => None
  | Some (g', Done _) => Some (g', Done tt)
  | Some (g', Failed e) =>
      if is_front_Exception e then
        Some (vg_set_is_playing false
                (vg_set_status ("Playback error: " +:+ front_exn_str e) g'), Done tt)
      else Some (g', Failed e)
  end.

(** What [update_frame] and the steps of it leave alone: the video, the
    position, the playback flag and the settings. *)
Definition vg_kept (g g' : VehicleGUI) : Prop :=
  vg_cap g' = vg_cap g /\ vg_is_playing g' = vg_is_playing g /\
  vg_current_frame g' = vg_current_frame g /\ vg_total_frames g' = vg_total_frames g /\
  vg_fps g' = vg_fps g /\ vg_frame_var g' = vg_frame_var g /\
  vg_downsample g' = vg_downsample g /\ vg_downsample_factor g' = vg_downsample_factor g.

End VehicleGuis.

(** A GUI of [gui.py] as [__init__] sets it, with a detector, on a video of
    four frames that reports 0 frames per second, playing. *)
Definition stalled_gui : VehicleGUI :=
  mkVehicleGUI (Some fresh_detector) (Some [icon; portrait; sliver; icon]) true 0 4 0 []
               true (1 # 2) 0 None "Frame: 0/0" "Detections: 0" "Processing: 0ms" "Ready" [].

(** The same GUI paused on [needle], without downsampling and detector. *)
Definition needle_gui : VehicleGUI :=
  mkVehicleGUI None (Some [needle]) false 0 1 30 [] false (1 # 2) 0 None "Frame: 0/0"
               "Detections: 0" "Processing: 0ms" "Ready" [].

(** * Properties *)

Ltac simp_state :=
  cbn [set_frame_count set_tracker set_fps_history frame_count model_size
       conf_threshold model tracker fps_history self heap fst snd].

Section HeapLemmas.
Context `{E : Externals}.

Lemma read_last (h : list image) (x : image) : (h ++ [x]) !!! length h = x.
Proof.
  apply list_lookup_total_correct. rewrite lookup_app_r by lia.
  by rewrite Nat.sub_diag.
Qed.

Lemma write_last (h : list image) (x y : image) : <[length h := y]> (h ++ [x]) = h ++ [y].
Proof.
  replace (length h) with (length h + 0)%nat at 1 by lia.
  by rewrite insert_app_r.
Qed.

Lemma putText_last (h : list image) im d text org scale th :
  putText (length h) text org scale th (mkWorld d (h ++ [im]))
  = (mkWorld d (h ++ [cv2_putText im text org scale th]), Ok tt).
Proof.
  unfold putText, bind, read, write. cbn [heap self].
  by rewrite read_last, write_last.
Qed.

Lemma put_labels_last items : forall (h : list image) im d,
  put_labels (length h) items (mkWorld d (h ++ [im]))
  = (mkWorld d (h ++ [draw_labels items im]), Ok tt).
Proof.
  induction items as [|[[[[x1 y1] x2] y2] label] items IH]; intros h im d.
  - reflexivity.
  - cbn [put_labels]. unfold bind at 1. rewrite putText_last. apply IH.
Qed.

Lemma push_fps_length fps hist :
  (length hist <= 30)%nat -> (1 <= length (push_fps fps hist) <= 30)%nat.
Proof.
  intros H. unfold push_fps.
  destruct (30 <? length (hist ++ [fps]))%nat eqn:Hc.
  - apply Nat.ltb_lt in Hc. rewrite length_drop, length_app in *. simpl in *. lia.
  - apply Nat.ltb_ge in Hc. rewrite length_app in *. simpl in *. lia.
Qed.

Lemma push_fps_nonempty fps hist : push_fps fps hist <> [].
Proof.
  unfold push_fps. destruct (30 <? length (hist ++ [fps]))%nat eqn:Hc.
  - apply Nat.ltb_lt in Hc. intros Heq.
    apply (f_equal length) in Heq. rewrite length_drop in Heq. simpl in Heq. lia.
  - destruct hist; discriminate.
Qed.

Lemma py_truediv_len (l : list Q) : l <> [] -> py_truediv (Qsum l) (Qlen l) = Ok (mean l).
Proof.
  intros Hne. unfold py_truediv, mean.
  destruct (Qeq_bool (Qlen l) 0) eqn:Hz; [|reflexivity].
  apply Qeq_bool_eq in Hz. unfold Qlen, Qeq in Hz. simpl in Hz.
  destruct l; [congruence|]. simpl in Hz. lia.
Qed.

Lemma annotate_frame_run frame vd t tw d h img :
  h !! frame = Some img ->
  annotate_frame frame vd t tw 480 (mkWorld d h) =
  match make_labels vd with
  | Raise e => (mkWorld d h, Raise e)
  | Ok labels =>
      let hist := push_fps (fps_of t) (fps_history d) in
      let drawn := draw_labels (zip (xyxy vd) labels) (draw_boxes vd img) in
      (mkWorld (set_fps_history hist d)
               (h ++ [overlay drawn (len vd) (mean hist) (frame_count d) t tw]),
       Ok (length h, vd))
  end.
Proof.
  intros Hframe. unfold annotate_frame, bind at 1, lift.
  destruct (make_labels vd) as [labels|e]; [|reflexivity].
  unfold bind at 1, copy, bind at 1, read, alloc. simp_state.
  rewrite (list_lookup_total_correct _ _ _ Hframe).
  unfold bind at 1, annotate, bind at 1 2, read, write, ret. simp_state.
  rewrite read_last, write_last.
  unfold bind at 1. rewrite put_labels_last.
  unfold bind, get_self, set_self, lift. simp_state.
  destruct d as [ms ct fc net tr hist]. simp_state.
  rewrite py_truediv_len by apply push_fps_nonempty.
  rewrite !putText_last. reflexivity.
Qed.

Lemma track_vehicles_run fvd d h :
  track_vehicles fvd (mkWorld d h)
  = (mkWorld (set_tracker (fst (track d fvd)) d) h, Ok (snd (track d fvd))).
Proof.
  unfold track_vehicles, track. destruct d as [ms ct fc net tr hist].
  destruct (0 <? len fvd)%nat.
  - unfold bind, get_self, set_self, ret. simp_state.
    destruct (update_with_detections tr fvd) as [tr' vd]. reflexivity.
  - reflexivity.
Qed.

(** When [cv2.resize] refuses a target of height 480, and when not. *)
Lemma resize_refused_narrow img tw th : tw <= 0 -> resize_refused img (tw, th) = true.
Proof. intros Htw. unfold resize_refused. by replace (tw <=? 0) with true by (symmetry; lia). Qed.

Lemma resize_refused_false img tw :
  resize_refused img (tw, 480) = false <->
  0 < tw <= INT_MAX /\ im_height img <> 0%N /\ im_width img <> 0%N /\
  cv2_allocates tw 480 = true.
Proof.
  unfold resize_refused.
  replace (480 <=? 0) with false by reflexivity.
  replace (INT_MAX <? 480) with false by reflexivity.
  rewrite !orb_false_r, !orb_false_iff, negb_false_iff.
  rewrite Z.leb_gt, Z.ltb_ge, !N.eqb_neq. tauto.
Qed.

Lemma process_frame_run frame t d h img :
  h !! frame = Some img ->
  process_frame frame t (mkWorld d h) =
  let d1 := set_frame_count (frame_count d + 1) d in
  let height := Z.of_N (im_height img) in
  let width := Z.of_N (im_width img) in
  if height =? 0 then (mkWorld d1 h, Raise ZeroDivisionError) else
  let tw := target_width_of img in
  if resize_refused img (tw, 480) then (mkWorld d1 h, Raise Cv2Error) else
  let resized := resized_frame img tw 480 in
  let h1 := h ++ [resized] in
  match rbind (rescale (from_ultralytics (model d resized)) width height tw 480)
              filter_vehicles with
  | Raise e => (mkWorld d1 h1, Raise e)
  | Ok fvd =>
      let d2 := set_tracker (fst (track d fvd)) d1 in
      let vd := snd (track d fvd) in
      match make_labels vd with
      | Raise e => (mkWorld d2 h1, Raise e)
      | Ok labels =>
          let hist := push_fps (fps_of t) (fps_history d) in
          let drawn := draw_labels (zip (xyxy vd) labels) (draw_boxes vd img) in
          (mkWorld (set_fps_history hist d2)
                   (h1 ++ [overlay drawn (len vd) (mean hist) (frame_count d + 1) t tw]),
           Ok (S (length h), vd))
      end
  end.
Proof.
  intros Hframe.
  assert (Hlt : (frame < length h)%nat) by (eapply lookup_lt_Some; eauto).
  unfold process_frame, bind at 1 2 3 4, get_self, set_self, read, lift. simp_state.
  rewrite (list_lookup_total_correct _ _ _ Hframe).
  destruct (Z.of_N (im_height img) =? 0) eqn:Hh; [reflexivity|].
  cbn zeta. unfold bind at 1, cv2_resize, bind at 1, read. simp_state.
  rewrite (list_lookup_total_correct _ _ _ Hframe).
  fold (target_width_of img).
  destruct (resize_refused img (target_width_of img, 480)) eqn:Htw.
  { reflexivity. }
  unfold alloc, raise. simp_state.
  unfold bind at 1 2 3. simp_state.
  rewrite read_last. fold (resized_frame img (target_width_of img) 480).
  destruct d as [ms ct fc net tr hist]. simp_state.
  destruct (rescale _ _ _ _ _) as [dets|e]; [|reflexivity]. cbn [rbind].
  unfold bind at 1.
  destruct (filter_vehicles dets) as [fvd|e]; [|reflexivity].
  unfold bind. rewrite track_vehicles_run.
  erewrite annotate_frame_run by (rewrite lookup_app_l by lia; exact Hframe).
  destruct (make_labels _) as [labels|e]; [|reflexivity].
  rewrite length_app. simpl. rewrite Nat.add_1_r.
  destruct (track _ fvd) as [tr' vd]. reflexivity.
Qed.

End HeapLemmas.

(** ** The class filter *)

#[global] Opaque vehicle_classes.

Section Filter.


Lemma mask_select_length {A} (mask : list bool) : forall (l r : list A),
  mask_select mask l = Ok r -> length l = length mask /\ length r = popcount mask.
Proof.
  induction mask as [|b mask IH]; intros [|x l] r H; simpl in H; try discriminate.
  - by inversion H.
  - destruct (mask_select mask l) as [r'|] eqn:Hr; simpl in H; [|discriminate].
    destruct (IH _ _ Hr) as [Hl Hp]. inversion H; subst.
    destruct b; simpl; lia.
Qed.

Lemma mask_select_total {A} (mask : list bool) : forall (l : list A),
  length l = length mask -> exists r, mask_select mask l = Ok r.
Proof.
  induction mask as [|b mask IH]; intros [|x l] H; simpl in H; try discriminate.
  - by exists [].
  - destruct (IH l) as [r Hr]; [lia|]. simpl. rewrite Hr. simpl. eauto.
Qed.

Lemma mask_select_all {A} (l : list A) : mask_select (repeat true (length l)) l = Ok l.
Proof. induction l as [|x l IH]; simpl; [done|]. by rewrite IH. Qed.


(** What survives the mask of [filter_vehicles] is a vehicle. *)
Lemma mask_select_vehicles (ids : list Z) : forall r,
  mask_select (map is_vehicle ids) ids = Ok r ->
  map is_vehicle r = repeat true (length r).
Proof.
  induction ids as [|c ids IH]; intros r H; cbn [map mask_select] in H.
  - by inversion H.
  - destruct (mask_select (map is_vehicle ids) ids) as [r'|] eqn:Hr;
      cbn [rbind] in H; [|discriminate].
    destruct (is_vehicle c) eqn:Hc; injection H as <-.
    + cbn [map length repeat]. rewrite Hc. f_equal. by apply IH.
    + by apply IH.
Qed.

Lemma mask_select_opt_all {A} (o : option (list A)) n :
  opt_len_ok n o -> mask_select_opt (repeat true n) o = Ok o.
Proof.
  destruct o as [l|]; simpl; [|done]. intros <-. by rewrite mask_select_all.
Qed.

Lemma mask_select_opt_length {A} mask (o o' : option (list A)) :
  mask_select_opt mask o = Ok o' -> opt_len_ok (popcount mask) o'.
Proof.
  destruct o as [l|]; simpl.
  - destruct (mask_select mask l) as [r|] eqn:Hr; simpl; [|discriminate].
    intros H; inversion H; subst. simpl. by apply mask_select_length in Hr as [_ ?].
  - intros H; by inversion H.
Qed.

Lemma getitem_mask_inv d mask d' :
  getitem_mask d mask = Ok d' ->
  mask_select mask (xyxy d) = Ok (xyxy d') /\
  mask_select_opt mask (confidence d) = Ok (confidence d') /\
  mask_select_opt mask (class_id d) = Ok (class_id d') /\
  mask_select_opt mask (tracker_id d) = Ok (tracker_id d').
Proof.
  unfold getitem_mask.
  destruct (mask_select mask (xyxy d)) as [bx|]; simpl; [|discriminate].
  destruct (mask_select_opt mask (confidence d)) as [cf|]; simpl; [|discriminate].
  destruct (mask_select_opt mask (class_id d)) as [ci|]; simpl; [|discriminate].
  destruct (mask_select_opt mask (tracker_id d)) as [ti|]; simpl; [|discriminate].
  intros H; inversion H; subst. done.
Qed.

Lemma getitem_mask_valid d mask d' : getitem_mask d mask = Ok d' -> valid d'.
Proof.
  intros (Hb & Hc & Hi & Ht)%getitem_mask_inv.
  apply mask_select_length in Hb as [_ Hb]. unfold valid, len. rewrite Hb.
  repeat split; eapply mask_select_opt_length; eauto.
Qed.

Lemma getitem_mask_all d : valid d -> getitem_mask d (repeat true (len d)) = Ok d.
Proof.
  intros (Hc & Hi & Ht). unfold getitem_mask.
  unfold len at 1. rewrite mask_select_all. simpl.
  rewrite !mask_select_opt_all by done. simpl. by destruct d.
Qed.

Lemma filter_vehicles_fixed d d' : filter_vehicles d = Ok d' -> filter_vehicles d' = Ok d'.
Proof.
  unfold filter_vehicles at 1.
  destruct (len d =? 0)%nat eqn:Hlen.
  - intros H; inversion H; subst. unfold filter_vehicles. by rewrite Hlen.
  - destruct (class_id d) as [ids|] eqn:Hids; [|discriminate].
    intros H. pose proof (getitem_mask_valid _ _ _ H) as Hv.
    apply getitem_mask_inv in H as (_ & _ & Hi & _).
    unfold filter_vehicles. destruct (len d' =? 0)%nat; [done|].
    rewrite Hids in Hi. cbn [mask_select_opt] in Hi.
    destruct (mask_select (map is_vehicle ids) ids) as [r|] eqn:Hr;
      cbn [rbind] in Hi; [|discriminate].
    inversion Hi as [Hci]. rewrite (mask_select_vehicles _ _ Hr).
    pose proof Hv as (_ & Hl & _). rewrite <- Hci in Hl. cbn [opt_len_ok] in Hl.
    rewrite Hl. by apply getitem_mask_all.
Qed.


(** [C4] Filtering is idempotent: filtering the result of [filter_vehicles]
    once more gives that result again, on every detection set (a set on
    which the filter raises raises the same exception either way). *)
Theorem filter_vehicles_idempotent (d : Detections) :
  rbind (filter_vehicles d) filter_vehicles = filter_vehicles d.
Proof.
  destruct (filter_vehicles d) as [d'|e] eqn:Hd; cbn [rbind]; [|reflexivity].
  by apply filter_vehicles_fixed in Hd.
Qed.

(** The filter returns on every set that [Detections] accepts and that
    carries class ids. *)
Lemma filter_vehicles_total (d : Detections) :
  valid d -> is_Some (class_id d) -> exists d', filter_vehicles d = Ok d'.
Proof.
  intros (Hc & Hi & Ht) [ids Hids]. unfold filter_vehicles.
  destruct (len d =? 0)%nat; [eauto|]. rewrite Hids.
  rewrite Hids in Hi. cbn [opt_len_ok] in Hi.
  assert (Hm : length (map is_vehicle ids) = len d) by (by rewrite length_map).
  unfold getitem_mask.
  destruct (mask_select_total (map is_vehicle ids) (xyxy d)) as [bx ->]; [by rewrite Hm|].
  assert (Hopt : forall A (o : option (list A)), opt_len_ok (len d) o ->
            exists r, mask_select_opt (map is_vehicle ids) o = Ok r).
  { intros A [l|] Hl; cbn [mask_select_opt]; [|eauto].
    destruct (mask_select_total (map is_vehicle ids) l) as [r ->]; [|cbn; eauto].
    cbn [opt_len_ok] in Hl. by rewrite Hm. }
  destruct (Hopt _ _ Hc) as [cf ->].
  destruct (Hopt _ (class_id d)) as [ci ->]; [by rewrite Hids|].
  destruct (Hopt _ _ Ht) as [ti ->]. cbn. eauto.
Qed.

End Filter.

(** ** The latency window *)

Section Window.
Context `{E : Externals}.

(** A call leaves the window alone when it raises and pushes one entry when
    it returns; it counts the frame either way. *)
Lemma process_frame_history frame t d h img :
  h !! frame = Some img ->
  let out := process_frame frame t (mkWorld d h) in
  frame_count (self (fst out)) = frame_count d + 1 /\
  fps_history (self (fst out)) =
    match snd out with
    | Ok _ => push_fps (fps_of t) (fps_history d)
    | Raise _ => fps_history d
    end.
Proof.
  intros Hframe. cbv zeta. rewrite (process_frame_run _ _ _ _ _ Hframe). cbv zeta.
  destruct d as [ms ct fc net tr hist]. simp_state.
  destruct (Z.of_N (im_height img) =? 0); [done|].
  destruct (resize_refused img (target_width_of img, 480)); [done|].
  destruct (rbind _ _) as [fvd|e]; [|done].
  destruct (make_labels _) as [labels|e]; done.
Qed.

Lemma reachable_window w : reachable w -> (length (fps_history (self w)) <= 30)%nat.
Proof.
  induction 1 as [size conf d h Hnew | w frame img t Hw IH Hframe | w h Hw IH].
  - unfold new_detector in Hnew. destruct (yolo_weights _); [|discriminate].
    injection Hnew as <-. simpl. lia.
  - destruct w as [d h]. cbn [heap self] in *.
    destruct (process_frame_history frame t d h img Hframe) as [_ Hhist].
    rewrite Hhist. destruct (snd _); [|done].
    by apply push_fps_length.
  - done.
Qed.

Lemma stats_nonempty d :
  fps_history d <> [] ->
  exists stats, get_performance_stats d = Ok stats /\
    stats !! "avg_fps" = Some (JFloat (mean (fps_history d))) /\
    stats !! "total_frames" = Some (JInt (frame_count d)).
Proof.
  intros Hne. unfold get_performance_stats.
  rewrite !bool_decide_eq_false_2 by done.
  rewrite py_truediv_len by done.
  destruct (fps_history d) as [|x rest] eqn:Hh; [done|]. cbn [rbind].
  eexists. split; [reflexivity|]. split; [by rewrite lookup_insert_eq|].
  rewrite lookup_insert_ne by done. by rewrite lookup_insert_eq.
Qed.

(** [C3] The window of a running detector holds at most 30 entries after
    every call.  A call that returns appends its rate; on the 31st entry the
    oldest one is dropped, and the average reported afterwards is the mean
    of the entries that are left. *)
Theorem latency_window_bounded frame t w img :
  reachable w -> heap w !! frame = Some img ->
  let w' := fst (process_frame frame t w) in
  let old := fps_history (self w) in
  let new := fps_history (self w') in
  (length new <= 30)%nat /\
  (forall out, snd (process_frame frame t w) = Ok out ->
     ((length old < 30)%nat -> new = old ++ [fps_of t]) /\
     (forall oldest rest, old = oldest :: rest -> length old = 30%nat ->
        new = rest ++ [fps_of t]) /\
     exists stats, get_performance_stats (self w') = Ok stats /\
       stats !! "avg_fps" = Some (JFloat (mean new))).
Proof.
  intros Hw Hframe. cbv zeta. split.
  - apply reachable_window. by eapply reach_call.
  - intros out Hout. destruct w as [d h]. cbn [heap self] in *.
    destruct (process_frame_history frame t d h img Hframe) as [_ Hhist].
    rewrite Hout in Hhist. rewrite Hhist. repeat split.
    + intros Hlt. unfold push_fps. rewrite length_app. simpl.
      replace (30 <? length (fps_history d) + 1)%nat with false; [done|].
      symmetry. apply Nat.ltb_ge. lia.
    + intros oldest rest Hold Hlen. unfold push_fps. rewrite Hold in *.
      rewrite length_app. simpl in *.
      replace (30 <? S (length rest + 1))%nat with true; [done|].
      symmetry. apply Nat.ltb_lt. lia.
    + destruct (stats_nonempty (self (fst (process_frame frame t (mkWorld d h)))))
        as (stats & Hs & Havg & _).
      { rewrite Hhist. apply push_fps_nonempty. }
      exists stats. by rewrite <- Hhist.
Qed.

End Window.

(** [latency_window_bounded] on a window that is full: thirty calls on [road],
    then one more with another inference time. *)
Lemma latency_window_bounded_witness :
  let w := after_calls 30 (1 # 50) (mkWorld fresh_detector [road]) in
  let w' := fst (process_frame 0%nat (1 # 25) w) in
  length (fps_history (self w)) = 30%nat /\
  (length (fps_history (self w')) <= 30)%nat /\
  fps_history (self w') = repeat (fps_of (1 # 50)) 29 ++ [fps_of (1 # 25)].
Proof.
  assert (Hheap : forall n, heap (after_calls n (1 # 50) (mkWorld fresh_detector [road])) = [road]).
  { by intros [|n]. }
  assert (Hreach : forall n, reachable (after_calls n (1 # 50) (mkWorld fresh_detector [road]))).
  { induction n as [|n IH]; cbn [after_calls Nat.iter].
    - by apply (reach_new "n" (1 # 2)).
    - apply (reach_heap (fst (process_frame 0%nat (1 # 50) _))).
      apply (reach_call _ 0%nat road (1 # 50) IH). by rewrite Hheap. }
  cbv zeta.
  assert (Hroad : heap (after_calls 30 (1 # 50) (mkWorld fresh_detector [road])) !! 0%nat
                  = Some road) by (by rewrite Hheap).
  destruct (latency_window_bounded 0%nat (1 # 25) _ road (Hreach 30%nat) Hroad)
    as [Hbound Hcall].
  split; [by vm_compute|]. split; [exact Hbound|].
  destruct (snd (process_frame 0%nat (1 # 25)
             (after_calls 30 (1 # 50) (mkWorld fresh_detector [road])))) as [out|e] eqn:Hout;
    [|vm_compute in Hout; discriminate].
  destruct (Hcall out eq_refl) as (_ & Hevict & _).
  apply (Hevict (fps_of (1 # 50))); by vm_compute.
Defined.

(** ** The rate of one frame *)

Section Rate.
Context `{E : Externals}.

Lemma fps_of_zero t : (t == 0)%Q -> fps_of t = 0%Q.
Proof.
  intros Ht. unfold fps_of. destruct (Qlt_le_dec 0 t) as [Hlt|]; [|reflexivity].
  rewrite Ht in Hlt. by apply Qlt_irrefl in Hlt.
Qed.

Lemma push_fps_last fps hist : last (push_fps fps hist) = Some fps.
Proof.
  unfold push_fps. destruct (30 <? length (hist ++ [fps]))%nat eqn:Hc.
  - apply Nat.ltb_lt in Hc. rewrite length_app in Hc. simpl in Hc.
    destruct hist as [|x rest]; [simpl in Hc; lia|]. simpl. rewrite drop_0.
    apply last_snoc.
  - apply last_snoc.
Qed.

(** Whether a call raises, and what, does not depend on the measured time. *)
Lemma process_frame_raise_any_time frame t t' d h img e :
  h !! frame = Some img ->
  snd (process_frame frame t (mkWorld d h)) = Raise e ->
  snd (process_frame frame t' (mkWorld d h)) = Raise e.
Proof.
  intros Hframe. rewrite !(process_frame_run _ _ _ _ _ Hframe). cbv zeta.
  destruct (Z.of_N (im_height img) =? 0); [done|].
  destruct (resize_refused img (target_width_of img, 480)); [done|].
  destruct (rbind _ _) as [fvd|e']; [|done].
  destruct (make_labels _) as [labels|e']; [|done].
  discriminate.
Qed.

(** [C8] When the measured inference time is zero, the rate recorded for the
    frame is zero: the call raises nothing that it would not raise with
    another time, and when it returns, the entry it appended to the window
    is 0. *)
Theorem zero_time_records_zero_fps frame t d h img :
  h !! frame = Some img -> (t == 0)%Q ->
  let out := process_frame frame t (mkWorld d h) in
  (forall e t', snd out = Raise e ->
     snd (process_frame frame t' (mkWorld d h)) = Raise e) /\
  (forall r, snd out = Ok r -> last (fps_history (self (fst out))) = Some 0%Q).
Proof.
  intros Hframe Ht. cbv zeta. split.
  - intros e t' He. by eapply process_frame_raise_any_time.
  - intros r Hr.
    destruct (process_frame_history frame t d h img Hframe) as [_ Hhist].
    rewrite Hr in Hhist. rewrite Hhist, push_fps_last. by rewrite fps_of_zero.
Qed.

End Rate.

(** [zero_time_records_zero_fps] on [road], inference measured as taking no
    time: the call returns and records 0. *)
Lemma zero_time_records_zero_fps_witness :
  let out := process_frame 0%nat 0 (mkWorld fresh_detector [road]) in
  (exists r, snd out = Ok r) /\ last (fps_history (self (fst out))) = Some 0%Q.
Proof.
  cbv zeta.
  destruct (zero_time_records_zero_fps 0%nat 0 fresh_detector [road] road eq_refl (Qeq_refl 0))
    as [_ Hok].
  destruct (snd (process_frame 0%nat 0 (mkWorld fresh_detector [road]))) as [r|e] eqn:Hout;
    [|vm_compute in Hout; discriminate].
  split; [by exists r|]. by apply (Hok r).
Defined.

(** ** Statistics *)

(** On an empty window the first test answers, whatever the counter is. *)
Lemma stats_empty_window_any_count `{E : Externals} (d : VehicleDetector) :
  fps_history d = [] ->
  get_performance_stats d
  = Ok (<["avg_fps" := JInt 0]> (<["total_frames" := JInt 0]> ∅)).
Proof. intros Hh. unfold get_performance_stats. by rewrite bool_decide_eq_true_2. Qed.

(** [C7] On an empty window [get_performance_stats] returns neither the
    frame counter nor a minimum or maximum.  A detector whose only call of
    [process_frame] raised (the frame [sliver] cannot be resized) has counted
    one frame and has an empty window; its statistics report 0 frames and
    have no entry for the minimum and the maximum. *)
Theorem stats_on_empty_window :
  let w := fst (process_frame 0%nat (1 # 50) (mkWorld fresh_detector [sliver])) in
  frame_count (self w) = 1 /\ fps_history (self w) = [] /\
  exists stats, get_performance_stats (self w) = Ok stats /\
    stats !! "total_frames" = Some (JInt 0) /\
    stats !! "min_fps" = None /\ stats !! "max_fps" = None.
Proof.
  cbv zeta. split; [by vm_compute|]. split; [by vm_compute|].
  eexists. split; [reflexivity|]. by vm_compute.
Qed.

(** ** A call that returns *)

Section Returns.
Context `{E : Externals}.

(** Everything that a returning call has done. *)
Lemma process_frame_Ok frame t d h img w' ann vd :
  h !! frame = Some img ->
  process_frame frame t (mkWorld d h) = (w', Ok (ann, vd)) ->
  let tw := target_width_of img in
  im_height img <> 0%N /\ 0 < tw /\
  exists fvd labels,
    rbind (rescale (from_ultralytics (model d (resized_frame img tw 480)))
                   (Z.of_N (im_width img)) (Z.of_N (im_height img)) tw 480)
          filter_vehicles = Ok fvd /\
    vd = snd (track d fvd) /\
    make_labels vd = Ok labels /\
    ann = S (length h) /\
    frame_count (self w') = frame_count d + 1 /\
    heap w' = (h ++ [resized_frame img tw 480]) ++
              [overlay (draw_labels (zip (xyxy vd) labels) (draw_boxes vd img))
                       (len vd) (mean (fps_history (self w'))) (frame_count d + 1) t tw].
Proof.
  intros Hframe. rewrite (process_frame_run _ _ _ _ _ Hframe). cbv zeta.
  destruct (Z.of_N (im_height img) =? 0) eqn:Hh; [discriminate|].
  destruct (resize_refused img (target_width_of img, 480)) eqn:Htw; [discriminate|].
  apply resize_refused_false in Htw as ([Htw _] & _).
  apply Z.eqb_neq in Hh.
  destruct (rbind _ _) as [fvd|e] eqn:Hfvd; [|discriminate].
  destruct (make_labels _) as [labels|e] eqn:Hlabels; [|discriminate].
  intros Heq. injection Heq as <- <- <-.
  split; [lia|]. split; [done|]. exists fvd, labels.
  destruct d as [ms ct fc net tr hist]. by simp_state.
Qed.


(** [Z.quot] on the sizes of a frame is the division that rounds down. *)
Lemma target_width_floor img :
  target_width_of img = Z.of_N (im_width img) * 480 / Z.of_N (im_height img).
Proof.
  unfold target_width_of.
  destruct (im_height img) as [|p] eqn:Hh.
  - by rewrite Z.div_0_r, Z.quot_0_r_ext.
  - apply Z.quot_div_nonneg; lia.
Qed.

(** [C5, as amended] A frame of positive height is resized before
    inference to height 480 and to the width that keeps the aspect ratio,
    rounded down to a whole pixel, whatever its own height, when that width
    is at least 1, fits an [int] and OpenCV has the memory for the buffer:
    the network runs on the resized frame and on nothing else.  Otherwise
    [cv2.resize] raises: the call has counted the frame and done nothing
    else, no buffer is made and no network is asked. *)
Theorem inference_on_resized_frame frame t d h img :
  h !! frame = Some img ->
  (0 < im_height img)%N ->
  let tw := Z.of_N (im_width img) * 480 / Z.of_N (im_height img) in
  (1 <= tw <= INT_MAX -> cv2_allocates tw 480 = true ->
   runs_inference_on frame t (mkWorld d h) tw 480) /\
  (tw = 0 \/ INT_MAX < tw \/ cv2_allocates tw 480 = false ->
   process_frame frame t (mkWorld d h)
   = (mkWorld (set_frame_count (frame_count d + 1) d) h, Raise Cv2Error)).
Proof.
  intros Hframe Hpos. cbv zeta. rewrite <- target_width_floor.
  assert (Hh : (Z.of_N (im_height img) =? 0) = false) by (apply Z.eqb_neq; lia).
  split.
  - intros [Htw1 Htw2] Hmem.
    assert (Hw : im_width img <> 0%N).
    { intros Hw. rewrite target_width_floor, Hw in Htw1.
      change (Z.of_N 0 * 480) with 0 in Htw1. rewrite Z.div_0_l in Htw1; lia. }
    assert (Hres : resize_refused img (target_width_of img, 480) = false).
    { apply resize_refused_false. repeat split; [lia|done|lia|done|done]. }
    unfold runs_inference_on. cbn [heap self]. cbv zeta.
    rewrite (list_lookup_total_correct _ _ _ Hframe).
    assert (Hlast : forall x, (h ++ [x]) !! length h = Some x).
    { intros x. rewrite lookup_app_r by lia. by rewrite Nat.sub_diag. }
    split.
    { rewrite (process_frame_run _ _ _ _ _ Hframe). cbv zeta. rewrite Hh, Hres.
      destruct (rbind _ _) as [fvd|e]; [|by cbn [fst heap]].
      destruct (make_labels _) as [labels|e]; cbn [fst heap]; [|done].
      rewrite lookup_app_l by (rewrite length_app; simpl; lia). done. }
    split; [reflexivity|]. split; [cbn [resized_frame im_width]; lia|]. split.
    { intros ann vd Hout.
      destruct (process_frame frame t (mkWorld d h)) as [w' r] eqn:Hrun.
      cbn [snd] in Hout. subst r.
      destruct (process_frame_Ok _ _ _ _ _ _ _ _ Hframe Hrun)
        as (_ & _ & fvd & labels & Hfvd & Hvd & _).
      by exists fvd. }
    intros net Hnet. rewrite !(process_frame_run _ _ _ _ _ Hframe). cbv zeta.
    rewrite Hh, Hres. destruct d as [ms ct fc net0 tr hist].
    cbn [with_network model frame_count model_size conf_threshold tracker fps_history] in *.
    rewrite Hnet. unfold track. cbn [tracker].
    destruct (rbind _ _) as [fvd|e]; [|reflexivity].
    destruct (make_labels _) as [labels|e]; reflexivity.
  - intros Hno.
    assert (Hres : resize_refused img (target_width_of img, 480) = true).
    { apply not_false_iff_true. intros ([Htw1 Htw2] & _ & _ & Hmem)%resize_refused_false.
      destruct Hno as [Hz|[Hbig|Hmem']]; [lia|lia|congruence]. }
    rewrite (process_frame_run _ _ _ _ _ Hframe). cbv zeta. by rewrite Hh, Hres.
Qed.

End Returns.

(** [inference_on_resized_frame] on a frame lower than 480 rows and on one
    that is too wide: [icon], 64 by 48, is enlarged to 640 by 480; [strip],
    5000000 by 1, would become 2400000000 by 480, which [cv2.resize] does
    not take. *)
Lemma inference_on_resized_frame_witness :
  runs_inference_on 0%nat (1 # 50) (mkWorld fresh_detector [icon]) 640 480 /\
  process_frame 0%nat (1 # 50) (mkWorld fresh_detector [strip])
  = (mkWorld (set_frame_count 1 fresh_detector) [strip], Raise Cv2Error).
Proof.
  split.
  - apply (inference_on_resized_frame 0%nat (1 # 50) fresh_detector [icon] icon eq_refl);
      [reflexivity|split; discriminate|reflexivity].
  - apply (inference_on_resized_frame 0%nat (1 # 50) fresh_detector [strip] strip eq_refl);
      [reflexivity|]. right. left. reflexivity.
Defined.

(** [C5, as stated, fails] The frame [sliver], one column wide and 481 rows
    high, gets the target width 0: [cv2.resize] raises, no buffer of height
    480 is made and the network does not run. *)
Lemma inference_on_resized_frame_counterexample :
  ~ exists width', runs_inference_on 0%nat (1 # 50) (mkWorld fresh_detector [sliver]) width' 480.
Proof.
  intros (width' & Hheap & _). vm_compute in Hheap. discriminate.
Qed.

(** ** Rounding *)




Lemma pow2_add a b : (pow2 (a + b) == pow2 a * pow2 b)%Q.
Proof. unfold pow2. by apply Qpower_plus. Qed.

Lemma pow2_Z n : 0 <= n -> (pow2 n == inject_Z (2 ^ n))%Q.
Proof. intros Hn. unfold pow2. by rewrite Zpower_Qpower. Qed.



Lemma Qlog2_lt x : (0 < x)%Q -> (x < pow2 (Qlog2 x + 1))%Q.
Proof.
  intros Hx. unfold Qlog2. cbv zeta.
  set (c := Z.log2 (Qnum x) - Z.log2 (Z.pos (Qden x))).
  destruct (Qle_bool (pow2 c) x) eqn:Hc.
  2:{ replace (c - 1 + 1) with c by lia. apply Qnot_le_lt. intros Hle.
      apply Qle_bool_iff in Hle. congruence. }
  clear Hc. subst c. destruct x as [n d]. unfold Qlt in Hx. simpl in Hx. cbn [Qnum Qden].
  assert (Hn : 0 < n) by lia.
  destruct (Z.log2_spec n Hn) as [_ Hn2].
  destruct (Z.log2_spec (Z.pos d) eq_refl) as [Hd1 _].
  pose proof (Z.log2_nonneg n) as Hln. pose proof (Z.log2_nonneg (Z.pos d)) as Hld.
  replace (Z.log2 n - Z.log2 (Z.pos d) + 1) with (Z.succ (Z.log2 n) + - Z.log2 (Z.pos d)) by lia.
  rewrite pow2_add. unfold pow2 at 2. rewrite Qpower_opp. fold (pow2 (Z.log2 (Z.pos d))).
  rewrite !pow2_Z by lia.
  set (a := 2 ^ Z.succ (Z.log2 n)) in *. set (b := 2 ^ Z.log2 (Z.pos d)) in *.
  assert (Hb : 0 < b) by (subst b; apply Z.pow_pos_nonneg; lia).
  apply Qlt_shift_div_l; [unfold Qlt; simpl; lia|].
  unfold Qlt. simpl. nia.
Qed.

#[global] Instance round_half_even_comp : Proper (Qeq ==> eq) round_half_even.
Proof.
  intros x y Hxy. unfold round_half_even. cbv zeta.
  rewrite (Qfloor_comp _ _ Hxy).
  replace ((x - inject_Z (Qfloor y)) ?= 1 # 2)%Q with ((y - inject_Z (Qfloor y)) ?= 1 # 2)%Q;
    [done|].
  apply Qcompare_comp; [|done]. by rewrite Hxy.
Qed.









(** ** Boxes in the coordinates of the frame *)

Section Rescale.
Context `{E : Externals}.





End Rescale.




(** ** The annotated frame *)

Section Annotation.
Context `{E : Externals}.

(** Where the buffers of a returning call are: the frame is untouched, the
    annotated frame is a new buffer. *)
Lemma process_frame_buffers frame t d h img w' ann vd :
  h !! frame = Some img ->
  process_frame frame t (mkWorld d h) = (w', Ok (ann, vd)) ->
  exists labels,
    make_labels vd = Ok labels /\
    ann <> frame /\
    heap w' !! frame = Some img /\
    heap w' !! ann =
      Some (overlay (draw_labels (zip (xyxy vd) labels) (draw_boxes vd img))
                    (len vd) (mean (fps_history (self w'))) (frame_count (self w')) t
                    (target_width_of img)).
Proof.
  intros Hframe Hrun.
  assert (Hlt : (frame < length h)%nat) by (eapply lookup_lt_Some; eauto).
  destruct (process_frame_Ok _ _ _ _ _ _ _ _ Hframe Hrun)
    as (_ & _ & fvd & labels & _ & _ & Hlabels & -> & Hcount & Hheap).
  cbv zeta in Hheap. exists labels. split; [done|]. split; [lia|].
  rewrite Hheap, Hcount. split.
  - rewrite !lookup_app_l; [done|lia|rewrite length_app; simpl; lia].
  - rewrite lookup_app_r by (rewrite length_app; simpl; lia).
    rewrite length_app. simpl. by replace (S (length h) - (length h + 1))%nat with 0%nat by lia.
Qed.

(** [C2] When [process_frame] returns no detection, the annotated frame is
    the input frame with the two overlay lines and nothing else, in a buffer
    of its own; the input frame is as it was. *)
Theorem no_detections_only_overlay frame t d h img w' ann vd :
  h !! frame = Some img ->
  process_frame frame t (mkWorld d h) = (w', Ok (ann, vd)) ->
  len vd = 0%nat ->
  ann <> frame /\
  heap w' !! frame = Some img /\
  heap w' !! ann =
    Some (overlay img 0 (mean (fps_history (self w'))) (frame_count (self w')) t
                  (target_width_of img)).
Proof.
  intros Hframe Hrun Hlen.
  destruct (process_frame_buffers _ _ _ _ _ _ _ _ Hframe Hrun)
    as (labels & _ & Hne & Hin & Hann).
  split; [done|]. split; [done|]. rewrite Hann.
  unfold draw_boxes. rewrite Hlen. unfold len in Hlen.
  destruct (xyxy vd); [done|discriminate].
Qed.

(** The labels of [labels_from], entry by entry. *)
Lemma labels_from_spec tids rows : forall i0 labels,
  labels_from (Some tids) i0 rows = Ok labels ->
  length labels = length rows /\
  forall k label, labels !! k = Some label ->
    exists cid conf, rows !! k = Some (cid, conf) /\
      label = match tids !! (i0 + k)%nat with
              | Some tid => id_label tid cid conf
              | None => class_label cid +:+ " " +:+ format_f 2 conf
              end.
Proof.
  induction rows as [|[cid conf] rows IH]; intros i0 labels H; cbn [labels_from] in H.
  - injection H as <-. split; [done|]. intros k label Hk. by rewrite lookup_nil in Hk.
  - destruct (labels_from (Some tids) (S i0) rows) as [rest|] eqn:Hrest.
    2:{ destruct (tids !! i0); discriminate. }
    destruct (IH _ _ Hrest) as [Hlen Hrows].
    assert (Hl : labels = match tids !! i0 with
                          | Some tid => id_label tid cid conf
                          | None => class_label cid +:+ " " +:+ format_f 2 conf
                          end :: rest).
    { destruct (tids !! i0); cbn [rbind] in H; by injection H as <-. }
    subst labels. split; [simpl; lia|].
    intros [|k] label Hk; cbn in Hk.
    + injection Hk as <-. exists cid, conf. by rewrite Nat.add_0_r.
    + destruct (Hrows k label Hk) as (cid' & conf' & Hrow & ->).
      exists cid', conf'. split; [done|]. by rewrite Nat.add_succ_r.
Qed.

Lemma from_ultralytics_valid rs : valid (from_ultralytics rs).
Proof. unfold valid, len. cbn. by rewrite !length_map. Qed.

Lemma rescale_valid rs width height tw th dets :
  rescale (from_ultralytics rs) width height tw th = Ok dets ->
  valid dets /\ is_Some (class_id dets) /\ is_Some (confidence dets).
Proof.
  unfold rescale. destruct (0 <? len _)%nat.
  - destruct (py_truediv _ (inject_Z tw)); cbn [rbind]; [|discriminate].
    destruct (py_truediv _ (inject_Z th)); cbn [rbind]; [|discriminate].
    intros [= <-]. unfold valid, len. cbn. rewrite !length_map. eauto.
  - intros [= <-]. split; [apply from_ultralytics_valid|]. cbn. eauto.
Qed.

Lemma mask_select_opt_Some {A} mask (o o' : option (list A)) :
  mask_select_opt mask o = Ok o' -> is_Some o -> is_Some o'.
Proof.
  intros H [l ->]. cbn in H. destruct (mask_select mask l); cbn in H; [|discriminate].
  injection H as <-. eauto.
Qed.

Lemma filter_vehicles_valid dets fvd :
  valid dets -> is_Some (class_id dets) -> is_Some (confidence dets) ->
  filter_vehicles dets = Ok fvd ->
  valid fvd /\ is_Some (class_id fvd) /\ is_Some (confidence fvd).
Proof.
  intros Hv Hi Hc. unfold filter_vehicles.
  destruct (len dets =? 0)%nat; [by intros [= <-]|].
  destruct (class_id dets) as [ids|] eqn:Hids; [|discriminate].
  intros H. split; [by eapply getitem_mask_valid|].
  apply getitem_mask_inv in H as (_ & Hcf & Hci & _).
  split; eapply mask_select_opt_Some; eauto.
Qed.

(** [C6] Every label that [process_frame] draws is the text "ID:", the
    track id, a space, the class name, a space and the confidence with two
    decimals, for trackers that number the detections they return; the
    class name is the entry of [vehicle_classes] for the class id of the
    detection, and "class_<id>" for an id that the table does not have.  The
    labels are drawn over the boxes on a copy of the original frame, one
    label per returned detection, each from the track id, the class id and
    the confidence of its own detection. *)
Theorem labels_carry_track_ids frame t d h img w' ann vd :
  h !! frame = Some img ->
  tracker_assigns_ids ->
  process_frame frame t (mkWorld d h) = (w', Ok (ann, vd)) ->
  exists labels,
    ann <> frame /\
    heap w' !! frame = Some img /\
    heap w' !! ann =
      Some (overlay (draw_labels (zip (xyxy vd) labels) (draw_boxes vd img))
                    (len vd) (mean (fps_history (self w'))) (frame_count (self w')) t
                    (target_width_of img)) /\
    length labels = len vd /\
    forall i label, labels !! i = Some label ->
      exists tid cid conf,
        tracker_id vd ≫= (.!! i) = Some tid /\
        class_id vd ≫= (.!! i) = Some cid /\
        confidence vd ≫= (.!! i) = Some conf /\
        label = "ID:" +:+ pretty tid +:+ " "
                +:+ match vehicle_classes !! cid with
                    | Some name => name
                    | None => "class_" +:+ pretty cid
                    end
                +:+ " " +:+ format_f 2 conf.
Proof.
  intros Hframe Htracker Hrun.
  destruct (process_frame_buffers _ _ _ _ _ _ _ _ Hframe Hrun)
    as (labels & Hlabels & Hne & Hin & Hann).
  exists labels. do 3 (split; [done|]).
  destruct (process_frame_Ok _ _ _ _ _ _ _ _ Hframe Hrun)
    as (_ & _ & fvd & labels' & Hfvd & Hvd & _).
  destruct (rescale _ _ _ _ _) as [dets|] eqn:Hdets; cbn [rbind] in Hfvd; [|discriminate].
  apply rescale_valid in Hdets as (Hv & Hi & Hc).
  destruct (filter_vehicles_valid _ _ Hv Hi Hc Hfvd) as (Hv' & Hi' & Hc').
  unfold track in Hvd. destruct (0 <? len fvd)%nat eqn:Hpos.
  - clear Hi Hc.
    destruct (Htracker (tracker d) fvd Hv' Hi' Hc')
      as (ids & confs & tids & Hi & Hc & Ht & Li & Lc & Lt).
    rewrite <- Hvd in *. unfold make_labels in Hlabels. rewrite Hi, Hc, Ht in Hlabels.
    destruct (labels_from_spec _ _ _ _ Hlabels) as [Hlen Hrows].
    rewrite length_zip in Hlen. split; [lia|].
    intros i label Hl. destruct (Hrows i label Hl) as (cid & conf & Hrow & ->).
    apply lookup_zip_Some in Hrow as [Hcid Hconf].
    assert (Hti : is_Some (tids !! i)).
    { apply lookup_lt_is_Some. apply lookup_lt_Some in Hcid. lia. }
    destruct Hti as [tid Htid]. exists tid, cid, conf.
    rewrite Hi, Hc, Ht. change (0 + i)%nat with i. rewrite Htid.
    split; [cbn; by rewrite Htid|]. split; [by cbn|]. split; [by cbn|].
    unfold id_label, class_label. by destruct (vehicle_classes !! cid).
  - cbn [snd] in Hvd. subst vd. apply Nat.ltb_ge in Hpos.
    destruct Hv' as (_ & Li & _). destruct Hi' as [ids Hids]. destruct Hc' as [confs Hconfs].
    rewrite Hids in Li. cbn in Li.
    unfold make_labels in Hlabels. rewrite Hids, Hconfs in Hlabels.
    destruct ids; [|simpl in Li; lia]. cbn in Hlabels. injection Hlabels as <-.
    split; [simpl; lia|]. intros i label Hl. by rewrite lookup_nil in Hl.
Qed.


Lemma rescale_total rs width height tw :
  0 < tw -> exists dets, rescale (from_ultralytics rs) width height tw 480 = Ok dets.
Proof.
  intros Htw. unfold rescale. destruct (0 <? len _)%nat; [|eauto].
  unfold py_truediv.
  replace (Qeq_bool (inject_Z tw) 0) with false.
  2:{ symmetry. apply not_true_iff_false. intros Hq%Qeq_bool_eq.
      unfold Qeq in Hq. simpl in Hq. lia. }
  cbn. eauto.
Qed.

Lemma labels_from_total tids rows : forall i0,
  exists labels, labels_from (Some tids) i0 rows = Ok labels.
Proof.
  induction rows as [|[cid conf] rows IH]; intros i0; cbn [labels_from]; [eauto|].
  destruct (IH (S i0)) as [rest ->]. destruct (tids !! i0); cbn; eauto.
Qed.

(** When [cv2.resize] takes a frame with the target size of line 111. *)
Lemma resize_accepted img :
  (0 < im_height img)%N -> (im_height img <= im_width img * 480)%N ->
  target_width_of img <= INT_MAX -> cv2_allocates (target_width_of img) 480 = true ->
  resize_refused img (target_width_of img, 480) = false.
Proof.
  intros Hpos Hwide Hint Hmem. apply resize_refused_false.
  assert (Htw : 0 < target_width_of img).
  { rewrite target_width_floor. apply Z.div_str_pos. lia. }
  repeat split; [done|done|lia|lia|done].
Qed.

(** A frame that can be resized goes through: [process_frame] returns, for
    trackers that number the detections they return. *)
Lemma process_frame_returns frame t d h img :
  h !! frame = Some img ->
  resize_refused img (target_width_of img, 480) = false ->
  tracker_assigns_ids ->
  exists w' ann vd, process_frame frame t (mkWorld d h) = (w', Ok (ann, vd)).
Proof.
  intros Hframe Hres Htracker.
  pose proof Hres as ([Htw _] & Hpos & _)%resize_refused_false.
  rewrite (process_frame_run _ _ _ _ _ Hframe). cbv zeta.
  replace (Z.of_N (im_height img) =? 0) with false by (symmetry; apply Z.eqb_neq; lia).
  rewrite Hres.
  destruct (rescale_total (model d (resized_frame img (target_width_of img) 480))
              (Z.of_N (im_width img)) (Z.of_N (im_height img)) _ Htw) as [dets Hdets].
  rewrite Hdets. cbn [rbind].
  destruct (rescale_valid _ _ _ _ _ _ Hdets) as (Hv & Hi & Hc).
  destruct (filter_vehicles_total dets Hv Hi) as [fvd Hfvd]. rewrite Hfvd.
  destruct (filter_vehicles_valid _ _ Hv Hi Hc Hfvd) as (Hv' & Hi' & Hc').
  pose proof Hv' as (_ & Li & _).
  pose proof Hi' as [ids Hids]. pose proof Hc' as [confs Hconfs].
  assert (Hlabels : exists labels, make_labels (snd (track d fvd)) = Ok labels).
  { unfold track. destruct (0 <? len fvd)%nat eqn:Hlen.
    - destruct (Htracker (tracker d) fvd Hv' Hi' Hc')
        as (ids' & confs' & tids & Hi'' & Hc'' & Ht' & _).
      rename Hi'' into Hti, Hc'' into Htc.
      unfold make_labels. rewrite Hti, Htc, Ht'. apply labels_from_total.
    - cbn [snd]. apply Nat.ltb_ge in Hlen. unfold make_labels. rewrite Hids, Hconfs.
      rewrite Hids in Li. cbn in Li. destruct ids; [|simpl in Li; lia]. cbn. eauto. }
  destruct Hlabels as [labels ->]. eauto.
Qed.

End Annotation.

Lemma toy_assigns_ids : tracker_assigns_ids.
Proof.
  intros ts d (Lc & Li & _) [ids Hids] [confs Hconfs]. unfold tracked. cbn.
  rewrite Hids, Hconfs in *. cbn in Lc, Li.
  exists ids, confs. eexists. repeat split; [done..|].
  by rewrite length_map, length_seq.
Qed.

(** [no_detections_only_overlay] on [portrait]: the network sees a parking
    meter only, which the filter drops. *)
Lemma no_detections_only_overlay_witness :
  let out := process_frame 0%nat (1 # 50) (mkWorld fresh_detector [portrait]) in
  exists ann vd,
    snd out = Ok (ann, vd) /\ len vd = 0%nat /\
    ann <> 0%nat /\
    heap (fst out) !! 0%nat = Some portrait /\
    heap (fst out) !! ann =
      Some (overlay portrait 0 (mean (fps_history (self (fst out))))
                    (frame_count (self (fst out))) (1 # 50) (target_width_of portrait)).
Proof.
  cbv zeta.
  destruct (process_frame 0%nat (1 # 50) (mkWorld fresh_detector [portrait]))
    as [w' [[ann vd]|e]] eqn:Hrun; [|vm_compute in Hrun; discriminate].
  assert (Hlen : len vd = 0%nat).
  { vm_compute in Hrun. by injection Hrun as _ _ <-. }
  exists ann, vd. split; [done|]. split; [done|].
  exact (no_detections_only_overlay 0%nat (1 # 50) fresh_detector [portrait] portrait
           w' ann vd eq_refl Hrun Hlen).
Defined.

(** [labels_carry_track_ids] on [road]: the labels of the car and of the
    truck, as drawn. *)
Lemma labels_carry_track_ids_witness :
  let out := process_frame 0%nat (1 # 50) (mkWorld fresh_detector [road]) in
  exists ann vd,
    snd out = Ok (ann, vd) /\
    heap (fst out) !! ann =
      Some (overlay (draw_labels (zip (xyxy vd) ["ID:1 car 0.90"; "ID:2 truck 0.75"])
                                 (draw_boxes vd road))
                    (len vd) (mean (fps_history (self (fst out))))
                    (frame_count (self (fst out))) (1 # 50) (target_width_of road)).
Proof.
  cbv zeta.
  destruct (process_frame 0%nat (1 # 50) (mkWorld fresh_detector [road]))
    as [w' [[ann vd]|e]] eqn:Hrun; [|vm_compute in Hrun; discriminate].
  destruct (labels_carry_track_ids 0%nat (1 # 50) fresh_detector [road] road w' ann vd
              eq_refl toy_assigns_ids Hrun) as (labels & _ & _ & Hann & Hlen & Hform).
  exists ann, vd. split; [reflexivity|]. cbn [fst snd]. rewrite Hann.
  assert (Hvd : tracker_id vd = Some [1; 2] /\ class_id vd = Some [2; 7] /\
                confidence vd = Some [9 # 10; 75 # 100]%Q /\ len vd = 2%nat).
  { clear Hann Hlen Hform. vm_compute in Hrun. injection Hrun as _ _ <-.
    repeat split; reflexivity. }
  destruct Hvd as (Ht & Hi & Hc & Hn). rewrite Hn in Hlen. rewrite Ht, Hi, Hc in Hform.
  destruct labels as [|l0 [|l1 [|l2 labels]]]; try discriminate Hlen.
  destruct (Hform 0%nat l0 eq_refl) as (tid0 & cid0 & conf0 & [= <-] & [= <-] & [= <-] & ->).
  destruct (Hform 1%nat l1 eq_refl) as (tid1 & cid1 & conf1 & [= <-] & [= <-] & [= <-] & ->).
  do 3 f_equal; vm_compute; reflexivity.
Defined.

(** The two labels of [road], as drawn. *)
Example road_labels :
  rbind (filter_vehicles (from_ultralytics (toy_net (mkImage 480 853 []))))
        (fun fvd => make_labels (snd (toy_track 1 fvd)))
  = Ok ["ID:1 car 0.90"; "ID:2 truck 0.75"].
Proof. by vm_compute. Qed.

(** ** The JSON entry point *)

Section EntryPointFacts.
Context `{E : Externals}.

Lemma catchable_rbind {A B} (r : result A) (k : A -> result B) :
  catchable r -> (forall a, catchable (k a)) -> catchable (rbind r k).
Proof. destruct r as [a|e]; cbn; auto. Qed.

Lemma mask_select_catchable {A} mask : forall l : list A, catchable (mask_select mask l).
Proof.
  induction mask as [|b mask IH]; intros [|x l]; cbn [mask_select]; try done.
  apply catchable_rbind; [apply IH|done].
Qed.

Lemma mask_select_opt_catchable {A} mask (o : option (list A)) :
  catchable (mask_select_opt mask o).
Proof.
  destruct o as [l|]; cbn [mask_select_opt]; [|done].
  apply catchable_rbind; [apply mask_select_catchable|done].
Qed.

Lemma filter_vehicles_catchable d : catchable (filter_vehicles d).
Proof.
  unfold filter_vehicles. destruct (len d =? 0)%nat; [done|].
  destruct (class_id d); [|done]. unfold getitem_mask.
  repeat (apply catchable_rbind;
          [apply mask_select_catchable || apply mask_select_opt_catchable|intros ?]).
  done.
Qed.

Lemma py_truediv_catchable a b : catchable (py_truediv a b).
Proof. unfold py_truediv. by destruct (Qeq_bool b 0). Qed.

Lemma rescale_catchable d width height tw th : catchable (rescale d width height tw th).
Proof.
  unfold rescale. destruct (0 <? len d)%nat; [|done].
  repeat (apply catchable_rbind; [apply py_truediv_catchable|intros ?]). done.
Qed.

Lemma labels_from_catchable tids rows : forall i, catchable (labels_from tids i rows).
Proof.
  induction rows as [|[cid conf] rows IH]; intros i; cbn [labels_from]; [done|].
  apply catchable_rbind.
  - destruct tids as [ids|]; [|done]. by destruct (ids !! i).
  - intros label. apply catchable_rbind; [apply IH|done].
Qed.

Lemma make_labels_catchable vd : catchable (make_labels vd).
Proof.
  unfold make_labels. destruct (class_id vd), (confidence vd); try done.
  apply labels_from_catchable.
Qed.

(** [process_frame] raises nothing but subclasses of [Exception]. *)
Lemma process_frame_catchable frame t d h img :
  h !! frame = Some img -> catchable (snd (process_frame frame t (mkWorld d h))).
Proof.
  intros Hframe. rewrite (process_frame_run _ _ _ _ _ Hframe). cbv zeta.
  destruct (Z.of_N (im_height img) =? 0); [done|].
  destruct (resize_refused img (target_width_of img, 480)); [done|].
  match goal with |- context [rbind ?r ?k] =>
    assert (Hc : catchable (rbind r k))
      by (apply catchable_rbind; [apply rescale_catchable|apply filter_vehicles_catchable]);
    destruct (rbind r k) as [fvd|e] end; [|done].
  match goal with |- context [make_labels ?vd] =>
    pose proof (make_labels_catchable vd) as Hl; destruct (make_labels vd) end; done.
Qed.

Lemma attr_get_catchable {A} (a : attr A) i x : catchable (attr_get a i x).
Proof. by destruct a. Qed.

Lemma coco_name_catchable c : catchable (coco_name c).
Proof.
  unfold coco_name. destruct (c <? _); [|done].
  by destruct ((if c <? 0 then _ else _) <? 0).
Qed.

Lemma detection_entry_spec o i b :
  match detection_entry o i b with
  | Ok r => is_detection_entry r
  | Raise e => is_Exception e = true
  end.
Proof.
  unfold detection_entry. destruct b as [[[x1 y1] x2] y2].
  pose proof (attr_get_catchable (o_tracker_id o) i (Z.of_nat i)) as H1.
  destruct (attr_get (o_tracker_id o) i (Z.of_nat i)) as [tid|]; cbn [rbind]; [|done].
  pose proof (attr_get_catchable (o_confidence o) i (1 # 2)%Q) as H2.
  destruct (attr_get (o_confidence o) i (1 # 2)%Q) as [conf|]; cbn [rbind]; [|done].
  pose proof (attr_get_catchable (o_class_id o) i 2) as H3.
  destruct (attr_get (o_class_id o) i 2) as [cls|]; cbn [rbind]; [|done].
  pose proof (coco_name_catchable cls) as H4.
  destruct (coco_name cls) as [name|]; cbn [rbind]; [|done].
  unfold is_detection_entry. by eexists _, _, _, _, _, _, _, _.
Qed.

Lemma entries_from_spec o boxes : forall i,
  match entries_from o i boxes with
  | Ok rs => Forall is_detection_entry rs
  | Raise e => is_Exception e = true
  end.
Proof.
  induction boxes as [|b boxes IH]; intros i; cbn [entries_from]; [done|].
  pose proof (detection_entry_spec o i b) as Hb.
  destruct (detection_entry o i b) as [r|]; cbn [rbind]; [|done].
  specialize (IH (S i)). destruct (entries_from o (S i) boxes) as [rs|]; cbn [rbind]; [|done].
  by constructor.
Qed.

Lemma detection_results_spec o :
  match detection_results o with
  | Ok rs => Forall is_detection_entry rs
  | Raise e => is_Exception e = true
  end.
Proof.
  unfold detection_results. destruct (o_xyxy o) as [| |boxes]; try done.
  destruct (0 <? length boxes)%nat; [apply entries_from_spec|done].
Qed.

(** [C9, as amended] When the weights load, [detect_frame] returns a JSON
    object for every path, size, threshold and timing: the list of
    detections, each with box, track id, confidence, class id and class
    name, or an error object.  A path that cannot be read gives the error
    object, and so does every exception that [process_frame] raises. *)
Theorem detect_frame_emits_json image_path model_size conf t d0 :
  new_detector model_size conf = Ok d0 ->
  exists j,
    detect_frame image_path model_size conf t = Ok j /\
    (is_detections_object j \/ is_error_object j) /\
    (cv2_imread image_path = None -> j = JObj [("error", JStr "Could not load image")]) /\
    (forall frame e,
       cv2_imread image_path = Some frame ->
       snd (process_frame 0%nat t (mkWorld d0 [frame])) = Raise e ->
       j = JObj [("error", JStr (exn_str e)); ("success", JBool false)]).
Proof.
  intros Hnew. unfold detect_frame. rewrite Hnew. cbn [rbind].
  destruct (cv2_imread image_path) as [frame|] eqn:Hread.
  - pose proof (process_frame_catchable 0%nat t d0 [frame] frame eq_refl) as Hc.
    destruct (process_frame 0%nat t (mkWorld d0 [frame])) as [w' [[ann vd]|e]] eqn:Hrun;
      cbn [snd] in Hc.
    + pose proof (detection_results_spec (of_Detections vd)) as Hres.
      destruct (detection_results (of_Detections vd)) as [rs|e]; cbn [rbind try_except].
      * eexists. split; [reflexivity|]. split; [left; by exists rs|].
        split; [done|]. intros frame' e' [= <-] He'. rewrite Hrun in He'. discriminate.
      * rewrite Hres. eexists. split; [reflexivity|].
        split; [right; by eexists _, _|]. split; [done|].
        intros frame' e' [= <-] He'. rewrite Hrun in He'. discriminate.
    + cbn [try_except catchable] in *. rewrite Hc. eexists. split; [reflexivity|].
      split; [right; by eexists _, _|]. split; [done|].
      intros frame' e' [= <-] He'. rewrite Hrun in He'. by injection He' as <-.
  - cbn [try_except]. eexists. split; [reflexivity|].
    split; [right; by eexists _, _|]. split; [done|]. intros frame' e' Hf. discriminate.
Qed.

End EntryPointFacts.

(** [detect_frame_emits_json] on the readable [road.jpg], on a path that
    cannot be read and on [sliver.png], on which [process_frame] raises. *)
Lemma detect_frame_emits_json_witness :
  (exists j, detect_frame "road.jpg" "n" (1 # 2) (1 # 50) = Ok j /\ is_detections_object j) /\
  detect_frame "missing.jpg" "n" (1 # 2) (1 # 50)
    = Ok (JObj [("error", JStr "Could not load image")]) /\
  detect_frame "sliver.png" "n" (1 # 2) (1 # 50)
    = Ok (JObj [("error", JStr (exn_str Cv2Error)); ("success", JBool false)]).
Proof.
  split; [|split].
  - destruct (detect_frame_emits_json "road.jpg" "n" (1 # 2) (1 # 50) fresh_detector eq_refl)
      as (j & Hj & [Hdet|Herr] & _); [by exists j|].
    destruct Herr as (msg & rest & ->). vm_compute in Hj. discriminate.
  - destruct (detect_frame_emits_json "missing.jpg" "n" (1 # 2) (1 # 50) fresh_detector eq_refl)
      as (j & Hj & _ & Hmissing & _).
    by rewrite Hj, (Hmissing eq_refl).
  - destruct (detect_frame_emits_json "sliver.png" "n" (1 # 2) (1 # 50) fresh_detector eq_refl)
      as (j & Hj & _ & _ & Hraise).
    rewrite Hj, (Hraise sliver Cv2Error eq_refl); [done|]. by vm_compute.
Defined.

(** [C9, as stated, fails] With a model size whose weights do not load,
    [load_model] ends the process: [detect_frame] returns no JSON at all. *)
Lemma detect_frame_emits_json_counterexample :
  detect_frame "road.jpg" "q" (1 # 2) (1 # 50) = Raise (SystemExit 1) /\
  ~ exists j, detect_frame "road.jpg" "q" (1 # 2) (1 # 50) = Ok j.
Proof.
  split; [by vm_compute|]. intros [j Hj]. vm_compute in Hj. discriminate.
Qed.

(** ** Track ids in the JSON *)

Lemma attr_get_fallback {A} (a : attr A) (i : nat) (x : A) :
  a = Absent \/ (exists l, a = Arr l /\ (length l <= i)%nat) ->
  attr_get a i x = Ok x.
Proof.
  intros [->|(l & -> & Hl)]; cbn [attr_get]; [done|].
  by rewrite lookup_ge_None_2.
Qed.

Lemma entries_from_lookup o boxes : forall i0 rs,
  entries_from o i0 boxes = Ok rs ->
  length rs = length boxes /\
  forall k r, rs !! k = Some r ->
    exists b, boxes !! k = Some b /\ detection_entry o (i0 + k) b = Ok r.
Proof.
  induction boxes as [|b boxes IH]; intros i0 rs H; cbn [entries_from] in H.
  - injection H as <-. split; [done|]. intros k r Hk. by rewrite lookup_nil in Hk.
  - destruct (detection_entry o i0 b) as [r0|] eqn:Hr0; cbn [rbind] in H; [|discriminate].
    destruct (entries_from o (S i0) boxes) as [rest|] eqn:Hrest; cbn [rbind] in H;
      [|discriminate].
    injection H as <-. destruct (IH _ _ Hrest) as [Hlen Hrows].
    split; [simpl; lia|]. intros [|k] r Hk; cbn in Hk.
    + injection Hk as <-. exists b. by rewrite Nat.add_0_r.
    + destruct (Hrows k r Hk) as (b' & Hb' & Hentry). exists b'.
      split; [done|]. by rewrite Nat.add_succ_r.
Qed.

(** [C10] In the list that [detect_frame] builds, a detection whose index has
    no tracker id (the detections have no [tracker_id] attribute, or the
    array of tracker ids ends before that index) gets its own zero-based
    index as [track_id]. *)
Theorem track_id_falls_back_to_index o boxes rs :
  o_xyxy o = Arr boxes ->
  detection_results o = Ok rs ->
  length rs = length boxes /\
  forall i r, rs !! i = Some r ->
    o_tracker_id o = Absent \/
      (exists tids, o_tracker_id o = Arr tids /\ (length tids <= i)%nat) ->
    json_field "track_id" r = Some (JInt (Z.of_nat i)).
Proof.
  intros Hxyxy. unfold detection_results. rewrite Hxyxy.
  destruct (0 <? length boxes)%nat eqn:Hpos.
  - intros Hrs. destruct (entries_from_lookup _ _ _ _ Hrs) as [Hlen Hrows].
    split; [done|]. intros i r Hi Hno.
    destruct (Hrows i r Hi) as (b & _ & Hentry). cbn [Nat.add] in Hentry.
    unfold detection_entry in Hentry. destruct b as [[[x1 y1] x2] y2].
    rewrite (attr_get_fallback _ _ _ Hno) in Hentry. cbn [rbind] in Hentry.
    destruct (attr_get (o_confidence o) i _); cbn [rbind] in Hentry; [|discriminate].
    destruct (attr_get (o_class_id o) i _) as [cls|]; cbn [rbind] in Hentry; [|discriminate].
    destruct (coco_name cls); cbn [rbind] in Hentry; [|discriminate].
    by injection Hentry as <-.
  - intros [= <-]. apply Nat.ltb_ge in Hpos. split; [simpl; lia|].
    intros i r Hi. by rewrite lookup_nil in Hi.
Qed.

(** [track_id_falls_back_to_index] on [short_ids]: the first entry has the
    tracker's id, the last one its index. *)
Lemma track_id_falls_back_to_index_witness :
  exists rs r0 r2,
    detection_results short_ids = Ok rs /\
    rs !! 0%nat = Some r0 /\ json_field "track_id" r0 = Some (JInt 7) /\
    rs !! 2%nat = Some r2 /\ json_field "track_id" r2 = Some (JInt 2).
Proof.
  destruct (detection_results short_ids) as [rs|e] eqn:Hrs;
    [|vm_compute in Hrs; discriminate].
  destruct (track_id_falls_back_to_index short_ids _ rs eq_refl Hrs) as [Hlen Hidx].
  destruct rs as [|r0 [|r1 [|r2 rs]]]; try discriminate.
  exists (r0 :: r1 :: r2 :: rs), r0, r2. do 2 (split; [done|]).
  split; [vm_compute in Hrs; by injection Hrs as <- _ _|]. split; [done|].
  apply (Hidx 2%nat r2 eq_refl). right. exists [7]. split; [done|]. simpl. lia.
Defined.

(** * Further properties *)

(** ** More on the class filter *)

Lemma mask_select_rows {A} (p : Z -> bool) (ids : list Z) : forall (l r : list A) rids,
  mask_select (map p ids) l = Ok r ->
  mask_select (map p ids) ids = Ok rids ->
  zip r rids = List.filter (fun row => p (snd row)) (zip l ids).
Proof.
  induction ids as [|c ids IH]; intros [|x l] r rids Hr Hi;
    cbn [map mask_select] in Hr, Hi; try discriminate.
  - by injection Hr as <-.
  - destruct (mask_select (map p ids) l) as [r'|] eqn:Hr'; cbn [rbind] in Hr; [|discriminate].
    destruct (mask_select (map p ids) ids) as [rids'|] eqn:Hi'; cbn [rbind] in Hi;
      [|discriminate].
    injection Hr as <-. injection Hi as <-. cbn [zip zip_with List.filter snd].
    destruct (p c); cbn [zip zip_with]; [f_equal|]; by apply IH.
Qed.

Lemma mask_select_kept (p : Z -> bool) (ids : list Z) : forall rids,
  mask_select (map p ids) ids = Ok rids -> Forall (fun c => p c = true) rids.
Proof.
  induction ids as [|c ids IH]; intros rids H; cbn [map mask_select] in H.
  - injection H as <-. constructor.
  - destruct (mask_select (map p ids) ids) as [r'|] eqn:Hr; cbn [rbind] in H; [|discriminate].
    destruct (p c) eqn:Hc; injection H as <-; [constructor; [done|]|]; by apply IH.
Qed.

Lemma filter_vehicles_rows d ids confs d' :
  valid d -> class_id d = Some ids -> confidence d = Some confs ->
  filter_vehicles d = Ok d' ->
  exists ids' confs',
    class_id d' = Some ids' /\ confidence d' = Some confs' /\
    zip (xyxy d') ids' = List.filter (fun row => is_vehicle (snd row)) (zip (xyxy d) ids) /\
    zip confs' ids' = List.filter (fun row => is_vehicle (snd row)) (zip confs ids) /\
    Forall (fun c => is_Some (vehicle_classes !! c)) ids'.
Proof.
  intros (Lc & Li & _) Hids Hconfs. unfold filter_vehicles.
  rewrite Hids in Li. rewrite Hconfs in Lc. cbn [opt_len_ok] in Lc, Li.
  destruct (len d =? 0)%nat eqn:Hlen.
  - intros [= <-]. apply Nat.eqb_eq in Hlen. exists ids, confs.
    rewrite Hids, Hconfs. do 2 (split; [done|]).
    rewrite Hlen in Li, Lc. unfold len in Hlen.
    destruct ids; [|discriminate]. destruct confs; [|discriminate].
    destruct (xyxy d); [|discriminate]. repeat split; constructor.
  - rewrite Hids. intros (Hb & Hc & Hi & _)%getitem_mask_inv.
    rewrite Hids in Hi. rewrite Hconfs in Hc. cbn [mask_select_opt] in Hi, Hc.
    destruct (mask_select (map is_vehicle ids) ids) as [ids'|] eqn:Hids';
      cbn [rbind] in Hi; [|discriminate].
    destruct (mask_select (map is_vehicle ids) confs) as [confs'|] eqn:Hconfs';
      cbn [rbind] in Hc; [|discriminate].
    injection Hi as Hi. injection Hc as Hc. exists ids', confs'.
    do 2 (split; [done|]).
    split; [by eapply mask_select_rows|]. split; [by eapply mask_select_rows|].
    eapply Forall_impl; [by eapply mask_select_kept|].
    intros c Hc'. unfold is_vehicle in Hc'. by apply bool_decide_eq_true in Hc'.
Qed.



(** ** More on [process_frame] *)

Section MoreCalls.
Context `{E : Externals}.

(** [X2] Every call of [process_frame] counts its frame, whether it returns
    or raises: the counter goes up by one. *)
Theorem process_frame_counts_every_call frame t d h img :
  h !! frame = Some img ->
  frame_count (self (fst (process_frame frame t (mkWorld d h)))) = frame_count d + 1.
Proof. intros Hframe. by destruct (process_frame_history frame t d h img Hframe). Qed.

(** [X3] In every state of a running detector the counter is at least the
    number of rates in the window: calls that raise are counted and record
    nothing. *)
Theorem window_within_counter w :
  reachable w -> Z.of_nat (length (fps_history (self w))) <= frame_count (self w).
Proof.
  induction 1 as [size conf d h Hnew | w frame img t Hw IH Hframe | w h Hw IH].
  - unfold new_detector in Hnew. destruct (yolo_weights _); [|discriminate].
    by injection Hnew as <-.
  - destruct w as [d h]. cbn [heap self] in *.
    destruct (process_frame_history frame t d h img Hframe) as [Hcount Hhist].
    rewrite Hcount, Hhist. destruct (snd _); [|lia].
    unfold push_fps. destruct (30 <? _)%nat.
    + rewrite length_drop, length_app. simpl. lia.
    + rewrite length_app. simpl. lia.
  - done.
Qed.

Lemma process_frame_buffers_kept frame t d h img :
  h !! frame = Some img ->
  let out := process_frame frame t (mkWorld d h) in
  (forall l x, h !! l = Some x -> heap (fst out) !! l = Some x) /\
  (length h <= length (heap (fst out)) <= length h + 2)%nat /\
  (forall r, snd out = Ok r -> length (heap (fst out)) = (length h + 2)%nat).
Proof.
  intros Hframe. cbv zeta. rewrite (process_frame_run _ _ _ _ _ Hframe). cbv zeta.
  assert (Hkeep : forall (tl : list image) l x, h !! l = Some x -> (h ++ tl) !! l = Some x).
  { intros tl l x Hl. rewrite lookup_app_l; [done|]. by eapply lookup_lt_Some. }
  destruct (Z.of_N (im_height img) =? 0); [cbn [fst snd heap]; repeat split; (done || lia)|].
  destruct (resize_refused img (target_width_of img, 480));
    [cbn [fst snd heap]; repeat split; (done || lia)|].
  destruct (rbind _ _) as [fvd|e]; cbn [fst snd heap].
  2:{ rewrite length_app. simpl. repeat split; (by auto || lia || done). }
  destruct (make_labels _) as [labels|e]; cbn [fst snd heap].
  2:{ rewrite length_app. simpl. repeat split; (by auto || lia || done). }
  rewrite <- app_assoc, length_app. simpl. repeat split; (by auto || lia).
Qed.

(** [X4] [process_frame] writes to buffers of its own only: every buffer that
    was on the heap before the call is unchanged after it, whatever the
    outcome, and the call allocates at most two buffers, exactly two when
    it returns. *)
Theorem process_frame_keeps_buffers frame t d h img :
  h !! frame = Some img ->
  let out := process_frame frame t (mkWorld d h) in
  (forall l x, h !! l = Some x -> heap (fst out) !! l = Some x) /\
  (length h <= length (heap (fst out)) <= length h + 2)%nat /\
  (forall r, snd out = Ok r -> length (heap (fst out)) = (length h + 2)%nat).
Proof. apply process_frame_buffers_kept. Qed.

(** [X5] A frame whose width times 480 is below its height cannot be
    resized: [process_frame] raises the error of [cv2.resize], having
    counted the frame, and leaves heap, window and tracker as they were. *)
Theorem process_frame_rejects_narrow_frame frame t d h img :
  h !! frame = Some img ->
  (im_width img * 480 < im_height img)%N ->
  process_frame frame t (mkWorld d h)
  = (mkWorld (set_frame_count (frame_count d + 1) d) h, Raise Cv2Error).
Proof.
  intros Hframe Hnarrow. rewrite (process_frame_run _ _ _ _ _ Hframe). cbv zeta.
  replace (Z.of_N (im_height img) =? 0) with false by (symmetry; apply Z.eqb_neq; lia).
  rewrite resize_refused_narrow; [done|].
  rewrite target_width_floor. rewrite Z.div_small; lia.
Qed.

Lemma fps_of_nonneg t : (0 <= fps_of t)%Q.
Proof.
  unfold fps_of. destruct (Qlt_le_dec 0 t) as [Hlt|]; [|apply Qle_refl].
  unfold Qdiv. rewrite Qmult_1_l. apply Qinv_le_0_compat. by apply Qlt_le_weak.
Qed.

Lemma Qsum_from_nonneg l : forall acc,
  (0 <= acc)%Q -> Forall (Qle 0) l -> (0 <= fold_left Qplus l acc)%Q.
Proof.
  induction l as [|x l IH]; intros acc Hacc Hl; cbn [fold_left]; [done|].
  inversion Hl; subst. apply IH; [|done].
  replace 0%Q with (0 + 0)%Q by reflexivity. by apply Qplus_le_compat.
Qed.

(** [X6] The window of a running detector holds no negative rate, also when
    the clock ran backwards during a call, and so its mean is not negative
    either. *)
Theorem recorded_rates_nonnegative w :
  reachable w ->
  Forall (Qle 0) (fps_history (self w)) /\ (0 <= mean (fps_history (self w)))%Q.
Proof.
  intros Hw.
  assert (Hall : Forall (Qle 0) (fps_history (self w))).
  { induction Hw as [size conf d h Hnew | w frame img t Hw IH Hframe | w h Hw IH].
    - unfold new_detector in Hnew. destruct (yolo_weights _); [|discriminate].
      injection Hnew as <-. constructor.
    - destruct w as [d h]. cbn [heap self] in *.
      destruct (process_frame_history frame t d h img Hframe) as [_ Hhist].
      rewrite Hhist. destruct (snd _); [|done].
      assert (Hpush : Forall (Qle 0) (fps_history d ++ [fps_of t])).
      { apply Forall_app. split; [done|]. constructor; [apply fps_of_nonneg|constructor]. }
      unfold push_fps. destruct (30 <? _)%nat; [by apply Forall_drop|done].
    - done. }
  split; [done|]. unfold mean, Qdiv. apply Qmult_le_0_compat.
  - by apply Qsum_from_nonneg.
  - destruct (fps_history (self w)) as [|x l]; [done|].
    apply Qinv_le_0_compat. unfold Qlen, Qle. simpl. lia.
Qed.

End MoreCalls.

(** [process_frame_counts_every_call] on a call that raises. *)
Lemma process_frame_counts_every_call_witness :
  let out := process_frame 0%nat (1 # 50) (mkWorld fresh_detector [sliver]) in
  snd out = Raise Cv2Error /\ frame_count (self (fst out)) = 1.
Proof.
  split; [by vm_compute|].
  exact (process_frame_counts_every_call 0%nat (1 # 50) fresh_detector [sliver] sliver eq_refl).
Defined.

(** [window_within_counter] after a call that raises: one frame counted, no
    rate recorded. *)
Lemma window_within_counter_witness :
  let w := fst (process_frame 0%nat (1 # 50) (mkWorld fresh_detector [sliver])) in
  Z.of_nat (length (fps_history (self w))) <= frame_count (self w) /\
  frame_count (self w) = 1 /\ fps_history (self w) = [].
Proof.
  split; [|by vm_compute].
  apply window_within_counter.
  apply (reach_call (mkWorld fresh_detector [sliver]) 0%nat sliver (1 # 50)); [|done].
  by apply (reach_new "n" (1 # 2)).
Defined.

(** [process_frame_keeps_buffers] with a second buffer on the heap. *)
Lemma process_frame_keeps_buffers_witness :
  let out := process_frame 0%nat (1 # 50) (mkWorld fresh_detector [road; icon]) in
  heap (fst out) !! 0%nat = Some road /\ heap (fst out) !! 1%nat = Some icon /\
  length (heap (fst out)) = 4%nat.
Proof.
  cbv zeta.
  destruct (process_frame_keeps_buffers 0%nat (1 # 50) fresh_detector [road; icon] road eq_refl)
    as (Hkeep & _ & Hlen).
  split; [by apply Hkeep|]. split; [by apply Hkeep|].
  destruct (snd (process_frame 0%nat (1 # 50) (mkWorld fresh_detector [road; icon])))
    as [r|e] eqn:Hout; [|vm_compute in Hout; discriminate].
  by apply (Hlen r).
Defined.

(** [process_frame_rejects_narrow_frame] on [sliver], 1 by 481. *)
Lemma process_frame_rejects_narrow_frame_witness :
  process_frame 0%nat (1 # 50) (mkWorld fresh_detector [sliver])
  = (mkWorld (set_frame_count 1 fresh_detector) [sliver], Raise Cv2Error).
Proof.
  by apply (process_frame_rejects_narrow_frame 0%nat (1 # 50) fresh_detector [sliver] sliver).
Defined.

(** [recorded_rates_nonnegative] after a call whose clock ran backwards. *)
Lemma recorded_rates_nonnegative_witness :
  let w := fst (process_frame 0%nat (-1 # 50) (mkWorld fresh_detector [road])) in
  fps_history (self w) = [0%Q] /\ Forall (Qle 0) (fps_history (self w)).
Proof.
  split; [by vm_compute|].
  apply recorded_rates_nonnegative.
  apply (reach_call (mkWorld fresh_detector [road]) 0%nat road (-1 # 50)); [|done].
  by apply (reach_new "n" (1 # 2)).
Defined.

Section MoreCalls2.
Context `{E : Externals}.

(** [X7] [process_frame] returns on every frame that [cv2.resize] takes
    (positive height, width times 480 at least the height, a target width
    that fits an [int], memory for the resized buffer), for trackers that
    number the detections they return: no exception comes from the glue code
    on such a frame. *)
Theorem process_frame_returns_on_resizable frame t d h img :
  h !! frame = Some img ->
  (0 < im_height img)%N -> (im_height img <= im_width img * 480)%N ->
  target_width_of img <= INT_MAX -> cv2_allocates (target_width_of img) 480 = true ->
  tracker_assigns_ids ->
  exists w' ann vd, process_frame frame t (mkWorld d h) = (w', Ok (ann, vd)).
Proof.
  intros Hframe Hpos Hwide Hint Hmem Htracker.
  apply (process_frame_returns frame t d h img Hframe); [|done].
  by apply resize_accepted.
Qed.

(** [X8] [process_frame] does not read [conf_threshold]: with another
    threshold the call has the same outcome, buffers and detector state, the
    threshold apart. *)
Theorem conf_threshold_is_ignored frame t d h img conf :
  h !! frame = Some img ->
  let out := process_frame frame t (mkWorld d h) in
  process_frame frame t (mkWorld (set_conf_threshold conf d) h)
  = (mkWorld (set_conf_threshold conf (self (fst out))) (heap (fst out)), snd out).
Proof.
  intros Hframe. cbv zeta. rewrite !(process_frame_run _ _ _ _ _ Hframe). cbv zeta.
  destruct d as [ms ct fc net tr hist].
  cbn [set_conf_threshold frame_count model_size conf_threshold model tracker fps_history].
  destruct (Z.of_N (im_height img) =? 0); [done|].
  destruct (resize_refused img (target_width_of img, 480)); [done|].
  destruct (rbind _ _) as [fvd|e]; [|done].
  unfold track. cbn [tracker].
  destruct (make_labels _) as [labels|e]; done.
Qed.

Lemma track_classes d fvd c :
  tracker_keeps_classes ->
  c ∈ default [] (class_id (snd (track d fvd))) -> c ∈ default [] (class_id fvd).
Proof.
  intros Htracker. unfold track. destruct (0 <? len fvd)%nat; [|done]. apply Htracker.
Qed.

(** [X9] Every class id that [process_frame] returns is a key of
    [vehicle_classes], for trackers that return class ids they were given;
    the name in its label is then the one of the table, not the fallback
    "class_<id>". *)
Theorem returned_classes_are_vehicle_classes frame t d h img w' ann vd c :
  h !! frame = Some img ->
  tracker_keeps_classes ->
  process_frame frame t (mkWorld d h) = (w', Ok (ann, vd)) ->
  c ∈ default [] (class_id vd) ->
  exists name, vehicle_classes !! c = Some name /\ class_label c = name.
Proof.
  intros Hframe Htracker Hrun Hc.
  destruct (process_frame_Ok _ _ _ _ _ _ _ _ Hframe Hrun)
    as (_ & _ & fvd & labels & Hfvd & -> & _).
  apply (track_classes _ _ _ Htracker) in Hc.
  destruct (rescale _ _ _ _ _) as [dets|] eqn:Hdets; cbn [rbind] in Hfvd; [|discriminate].
  destruct (rescale_valid _ _ _ _ _ _ Hdets) as (Hv & [ids Hids] & [confs Hconfs]).
  destruct (filter_vehicles_rows _ _ _ _ Hv Hids Hconfs Hfvd)
    as (ids' & confs' & Hi & _ & _ & _ & Hall).
  rewrite Hi in Hc. cbn in Hc.
  rewrite Forall_forall in Hall. destruct (Hall c Hc) as [name Hname].
  exists name. split; [done|]. unfold class_label. by rewrite Hname.
Qed.

End MoreCalls2.

Lemma toy_keeps_classes : tracker_keeps_classes.
Proof. by intros ts d c. Qed.

(** [process_frame_returns_on_resizable] on [icon], 64 by 48. *)
Lemma process_frame_returns_on_resizable_witness :
  exists w' ann vd,
    process_frame 0%nat (1 # 50) (mkWorld fresh_detector [icon]) = (w', Ok (ann, vd)).
Proof.
  apply (process_frame_returns_on_resizable 0%nat (1 # 50) fresh_detector [icon] icon eq_refl);
    [reflexivity|discriminate|discriminate|reflexivity|apply toy_assigns_ids].
Defined.

(** [conf_threshold_is_ignored] on [road]: threshold 0.99 instead of 0.5, the
    same two detections. *)
Lemma conf_threshold_is_ignored_witness :
  snd (process_frame 0%nat (1 # 50) (mkWorld (set_conf_threshold (99 # 100) fresh_detector) [road]))
  = snd (process_frame 0%nat (1 # 50) (mkWorld fresh_detector [road])).
Proof.
  by rewrite (conf_threshold_is_ignored 0%nat (1 # 50) fresh_detector [road] road (99 # 100)
                eq_refl).
Defined.

(** [returned_classes_are_vehicle_classes] on [road]: the truck, class 7. *)
Lemma returned_classes_are_vehicle_classes_witness :
  exists w' ann vd,
    process_frame 0%nat (1 # 50) (mkWorld fresh_detector [road]) = (w', Ok (ann, vd)) /\
    class_id vd = Some [2; 7] /\
    exists name, vehicle_classes !! 7 = Some name /\ class_label 7 = name.
Proof.
  destruct (process_frame 0%nat (1 # 50) (mkWorld fresh_detector [road]))
    as [w' [[ann vd]|e]] eqn:Hrun; [|vm_compute in Hrun; discriminate].
  assert (Hids : class_id vd = Some [2; 7]).
  { vm_compute in Hrun. by injection Hrun as _ _ <-. }
  exists w', ann, vd. do 2 (split; [done|]).
  apply (returned_classes_are_vehicle_classes 0%nat (1 # 50) fresh_detector [road] road
           w' ann vd 7 eq_refl toy_keeps_classes Hrun).
  rewrite Hids. cbn. right. by left.
Defined.

(** ** More on the statistics *)

Section MoreStats.
Context `{E : Externals}.

Lemma Qmin_list_spec l : forall x,
  Qmin_list x l ∈ x :: l /\ Forall (Qle (Qmin_list x l)) (x :: l).
Proof.
  unfold Qmin_list. induction l as [|y l IH]; intros x; cbn [fold_left].
  - split; [by left|]. constructor; [apply Qle_refl|constructor].
  - destruct (Qlt_le_dec y x) as [Hlt|Hle].
    + destruct (IH y) as [Hin Hall]. split; [by right|].
      inversion Hall as [|? ? Hy Hl]; subst.
      constructor; [|by constructor].
      eapply Qle_trans; [exact Hy|by apply Qlt_le_weak].
    + destruct (IH x) as [Hin Hall].
      split; [apply elem_of_cons in Hin as [->|Hin]; [by left|by do 2 right]|].
      inversion Hall as [|? ? Hx Hl]; subst.
      constructor; [done|]. constructor; [|done].
      eapply Qle_trans; [exact Hx|done].
Qed.

Lemma Qmax_list_spec l : forall x,
  Qmax_list x l ∈ x :: l /\ Forall (fun y => Qle y (Qmax_list x l)) (x :: l).
Proof.
  unfold Qmax_list. induction l as [|y l IH]; intros x; cbn [fold_left].
  - split; [by left|]. constructor; [apply Qle_refl|constructor].
  - destruct (Qlt_le_dec x y) as [Hlt|Hle].
    + destruct (IH y) as [Hin Hall]. split; [by right|].
      inversion Hall as [|? ? Hy Hl]; subst.
      constructor; [|by constructor].
      eapply Qle_trans; [by apply Qlt_le_weak|exact Hy].
    + destruct (IH x) as [Hin Hall].
      split; [apply elem_of_cons in Hin as [->|Hin]; [by left|by do 2 right]|].
      inversion Hall as [|? ? Hx Hl]; subst.
      constructor; [done|]. constructor; [|done].
      eapply Qle_trans; [exact Hle|done].
Qed.

Lemma stats_min_max_bound_helper d :
  fps_history d <> [] ->
  exists stats lo hi,
    get_performance_stats d = Ok stats /\
    stats !! "total_frames" = Some (JInt (frame_count d)) /\
    stats !! "min_fps" = Some (JFloat lo) /\ stats !! "max_fps" = Some (JFloat hi) /\
    lo ∈ fps_history d /\ hi ∈ fps_history d /\
    Forall (fun x => Qle lo x /\ Qle x hi) (fps_history d).
Proof.
  intros Hne. unfold get_performance_stats.
  rewrite !bool_decide_eq_false_2 by done.
  rewrite py_truediv_len by done.
  destruct (fps_history d) as [|x rest] eqn:Hh; [done|]. cbn [rbind].
  destruct (Qmin_list_spec rest x) as [Hlo Hlo_all].
  destruct (Qmax_list_spec rest x) as [Hhi Hhi_all].
  eexists _, (Qmin_list x rest), (Qmax_list x rest). split; [reflexivity|].
  split; [rewrite lookup_insert_ne by done; by rewrite lookup_insert_eq|].
  split; [do 2 (rewrite lookup_insert_ne by done); by rewrite lookup_insert_eq|].
  split; [do 3 (rewrite lookup_insert_ne by done); by rewrite lookup_insert_eq|].
  do 2 (split; [done|]).
  rewrite Forall_forall in *. intros y Hy. split; [by apply Hlo_all|by apply Hhi_all].
Qed.

(** [X10] On a window that is not empty, [get_performance_stats] returns
    the frame counter, and as minimum and maximum two rates of the window
    that bound every rate in it. *)
Theorem stats_min_max_bound_window d :
  fps_history d <> [] ->
  exists stats lo hi,
    get_performance_stats d = Ok stats /\
    stats !! "total_frames" = Some (JInt (frame_count d)) /\
    stats !! "min_fps" = Some (JFloat lo) /\ stats !! "max_fps" = Some (JFloat hi) /\
    lo ∈ fps_history d /\ hi ∈ fps_history d /\
    Forall (fun x => Qle lo x /\ Qle x hi) (fps_history d).
Proof. apply stats_min_max_bound_helper. Qed.

(** [X11] [get_performance_stats] never raises and always has the keys
    "avg_fps" and "total_frames"; it has the keys "min_fps" and "max_fps"
    exactly when the window is not empty. *)
Theorem stats_keys d :
  exists stats,
    get_performance_stats d = Ok stats /\
    is_Some (stats !! "avg_fps") /\ is_Some (stats !! "total_frames") /\
    (is_Some (stats !! "min_fps") <-> fps_history d <> []) /\
    (is_Some (stats !! "max_fps") <-> fps_history d <> []).
Proof.
  destruct (fps_history d) as [|x rest] eqn:Hh.
  - rewrite (stats_empty_window_any_count d Hh). eexists. split; [reflexivity|].
    split; [by rewrite lookup_insert_eq|].
    split; [rewrite lookup_insert_ne by done; by rewrite lookup_insert_eq|].
    split; (split; [|done]); intros [v Hv];
      do 2 (rewrite lookup_insert_ne in Hv by done); by rewrite lookup_empty in Hv.
  - destruct (stats_min_max_bound_helper d) as (stats & lo & hi & Hs & Ht & Hmin & Hmax & _);
      [by rewrite Hh|].
    destruct (stats_nonempty d) as (stats' & Hs' & Havg & _); [by rewrite Hh|].
    rewrite Hs in Hs'. injection Hs' as <-.
    exists stats. split; [done|]. rewrite Havg, Ht, Hmin, Hmax.
    repeat split; eauto.
Qed.

End MoreStats.

(** [stats_min_max_bound_window] after two calls on [road], at 50 and at 25
    frames per second. *)
Lemma stats_min_max_bound_window_witness :
  let w1 := fst (process_frame 0%nat (1 # 50) (mkWorld fresh_detector [road])) in
  let w2 := fst (process_frame 0%nat (1 # 25) (mkWorld (self w1) [road])) in
  fps_history (self w2) = [fps_of (1 # 50); fps_of (1 # 25)] /\
  exists stats lo hi,
    get_performance_stats (self w2) = Ok stats /\
    stats !! "total_frames" = Some (JInt 2) /\
    stats !! "min_fps" = Some (JFloat lo) /\ stats !! "max_fps" = Some (JFloat hi) /\
    Qle lo (fps_of (1 # 25)) /\ Qle (fps_of (1 # 50)) hi.
Proof.
  cbv zeta.
  set (w2 := fst (process_frame 0%nat (1 # 25)
                    (mkWorld (self (fst (process_frame 0%nat (1 # 50)
                                           (mkWorld fresh_detector [road])))) [road]))).
  assert (Hh : fps_history (self w2) = [fps_of (1 # 50); fps_of (1 # 25)])
    by (vm_compute; reflexivity).
  assert (Hc : frame_count (self w2) = 2) by (vm_compute; reflexivity).
  assert (Hne : fps_history (self w2) <> []) by (rewrite Hh; discriminate).
  split; [exact Hh|].
  destruct (stats_min_max_bound_window (self w2) Hne)
    as (stats & lo & hi & Hs & Ht & Hlo & Hhi & _ & _ & Hall).
  exists stats, lo, hi. rewrite Hc in Ht. do 4 (split; [assumption|]).
  rewrite Hh in Hall. inversion Hall as [|? ? [_ H50] Hrest]; subst.
  inversion Hrest as [|? ? [H25 _] _]; subst. split; assumption.
Defined.

(** ** The window as a queue *)

Lemma push_fps_last_thirty (xs : list Q) (x : Q) :
  push_fps x (drop (length xs - 30) xs) = drop (length (xs ++ [x]) - 30) (xs ++ [x]).
Proof.
  unfold push_fps. rewrite !length_app, length_drop. cbn [length].
  destruct (30 <? length xs - (length xs - 30) + 1)%nat eqn:Hc.
  - apply Nat.ltb_lt in Hc.
    rewrite drop_app_le by (rewrite length_drop; lia). rewrite drop_drop.
    replace (length xs - 30 + 1)%nat with (length xs + 1 - 30)%nat by lia.
    by rewrite drop_app_le by lia.
  - apply Nat.ltb_ge in Hc.
    replace (length xs - 30)%nat with 0%nat by lia.
    replace (length xs + 1 - 30)%nat with 0%nat by lia. by rewrite !drop_0.
Qed.

(** [X12] The window is a queue of the last 30 rates: pushing any sequence of
    rates, one after the other, on an empty window leaves the last 30 of
    them (all of them when there are fewer), in the order they came. *)
Theorem window_is_last_thirty (rates : list Q) :
  fold_left (fun history fps => push_fps fps history) rates []
  = drop (length rates - 30) rates.
Proof.
  induction rates as [|x rates IH] using rev_ind; [done|].
  rewrite fold_left_app. cbn [fold_left]. rewrite IH. apply push_fps_last_thirty.
Qed.

(** ** More on the JSON entry point *)

(** [X13] For detections that come from the tracker, the list that
    [detect_frame] builds has one entry per detection, in order, and each
    entry carries the box, tracker id, confidence and class id of its
    detection; the class name is the one [coco_name] gives for that id. *)
Theorem json_entries_mirror_detections vd ids confs tids rs :
  class_id vd = Some ids -> confidence vd = Some confs -> tracker_id vd = Some tids ->
  length ids = len vd -> length confs = len vd -> length tids = len vd ->
  detection_results (of_Detections vd) = Ok rs ->
  length rs = len vd /\
  forall i r, rs !! i = Some r ->
    exists x1 y1 x2 y2 tid conf cls name,
      xyxy vd !! i = Some (x1, y1, x2, y2) /\
      tids !! i = Some tid /\ confs !! i = Some conf /\ ids !! i = Some cls /\
      coco_name cls = Ok name /\
      r = JObj [ ("bbox", JArr [JFloat x1; JFloat y1; JFloat x2; JFloat y2]);
                 ("track_id", JInt tid);
                 ("confidence", JFloat conf);
                 ("class_id", JInt cls);
                 ("class_name", JStr name) ].
Proof.
  intros Hi Hc Ht Li Lc Lt. unfold detection_results, of_Detections. cbn [o_xyxy].
  destruct (0 <? length (xyxy vd))%nat eqn:Hpos.
  - intros Hrs. destruct (entries_from_lookup _ _ _ _ Hrs) as [Hlen Hrows].
    split; [done|]. intros i r Hr.
    destruct (Hrows i r Hr) as (b & Hb & Hentry). cbn [Nat.add] in Hentry.
    assert (Hlt : (i < len vd)%nat) by (by eapply lookup_lt_Some).
    destruct (lookup_lt_is_Some_2 tids i) as [tid Htid]; [lia|].
    destruct (lookup_lt_is_Some_2 confs i) as [conf Hconf]; [lia|].
    destruct (lookup_lt_is_Some_2 ids i) as [cls Hcls]; [lia|].
    unfold detection_entry in Hentry. destruct b as [[[x1 y1] x2] y2].
    cbn [o_tracker_id o_confidence o_class_id] in Hentry. rewrite Hi, Hc, Ht in Hentry.
    cbn [attr_of_option attr_get] in Hentry. rewrite Htid, Hconf, Hcls in Hentry.
    cbn [default from_option id rbind] in Hentry.
    destruct (coco_name cls) as [name|] eqn:Hname; cbn [rbind] in Hentry; [|discriminate].
    injection Hentry as <-. by exists x1, y1, x2, y2, tid, conf, cls, name.
  - intros [= <-]. apply Nat.ltb_ge in Hpos. unfold len. split; [simpl; lia|].
    intros i r Hr. by rewrite lookup_nil in Hr.
Qed.

(** [json_entries_mirror_detections] on two tracked detections. *)
Lemma json_entries_mirror_detections_witness :
  let vd := mkDetections [(10, 20, 110, 220)%Q; (300, 100, 640, 480)%Q]
                         (Some [9 # 10; 75 # 100]%Q) (Some [2; 7]) (Some [1; 2]) in
  exists rs r,
    detection_results (of_Detections vd) = Ok rs /\ length rs = 2%nat /\
    rs !! 1%nat = Some r /\
    json_field "track_id" r = Some (JInt 2) /\ json_field "class_id" r = Some (JInt 7).
Proof.
  cbv zeta.
  set (vd := mkDetections [(10, 20, 110, 220)%Q; (300, 100, 640, 480)%Q]
                          (Some [9 # 10; 75 # 100]%Q) (Some [2; 7]) (Some [1; 2])).
  destruct (detection_results (of_Detections vd)) as [rs|e] eqn:Hrs;
    [|vm_compute in Hrs; discriminate].
  destruct (json_entries_mirror_detections vd [2; 7] [9 # 10; 75 # 100]%Q [1; 2] rs
              eq_refl eq_refl eq_refl eq_refl eq_refl eq_refl Hrs) as [Hlen Hrows].
  change (len vd) with 2%nat in Hlen.
  destruct rs as [|r0 [|r1 rs]]; try discriminate Hlen.
  exists (r0 :: r1 :: rs), r1. split; [reflexivity|]. split; [exact Hlen|].
  split; [reflexivity|].
  destruct (Hrows 1%nat r1 eq_refl)
    as (x1 & y1 & x2 & y2 & tid & conf & cls & name & _ & Htid & _ & Hcls & _ & ->).
  injection Htid as <-. injection Hcls as <-. split; reflexivity.
Defined.

(** [X14] The class name in the JSON comes from a list of nine names: a class
    id from 0 to 8 gets the name that the labels on the frame use, and every
    class id from 9 on gets "class_<id>", also those that [vehicle_classes]
    names. *)
Theorem json_class_name_of_id c :
  0 <= c ->
  coco_name c = Ok (if c <? 9 then class_label c else "class_" +:+ pretty c).
Proof.
  intros Hc. destruct (c <? 9) eqn:Hlt.
  - apply Z.ltb_lt in Hlt.
    assert (Hcases : c = 0 \/ c = 1 \/ c = 2 \/ c = 3 \/ c = 4 \/ c = 5 \/ c = 6 \/ c = 7 \/ c = 8)
      by lia.
    destruct Hcases as [->|[->|[->|[->|[->|[->|[->|[->| ->]]]]]]]]; by vm_compute.
  - unfold coco_name. change (Z.of_nat (length coco_classes)) with 9. cbv zeta. by rewrite Hlt.
Qed.

(** [json_class_name_of_id] on the class ids 2 and 9: "car" as on the frame,
    and "class_9" where the frame says "traffic_light". *)
Lemma json_class_name_of_id_witness :
  coco_name 2 = Ok "car" /\ class_label 2 = "car" /\
  coco_name 9 = Ok "class_9" /\ class_label 9 = "traffic_light".
Proof.
  split; [|split; [by vm_compute|split; [|by vm_compute]]].
  - rewrite (json_class_name_of_id 2) by lia. by vm_compute.
  - rewrite (json_class_name_of_id 9) by lia. by vm_compute.
Defined.

(** [X15] A negative class id indexes the list of names from its end, as
    Python lists do: from -9 to -1 it gets the name of the id plus 9, below
    -9 the lookup raises [IndexError]. *)
Theorem json_class_name_of_negative_id c :
  c < 0 ->
  coco_name c = if c <? -9 then Raise IndexError else coco_name (c + 9).
Proof.
  intros Hc. unfold coco_name. change (Z.of_nat (length coco_classes)) with 9. cbv zeta.
  replace (c <? 9) with true by (symmetry; apply Z.ltb_lt; lia).
  replace (c <? 0) with true by (symmetry; apply Z.ltb_lt; lia).
  destruct (c <? -9) eqn:Hlow.
  - apply Z.ltb_lt in Hlow.
    by replace (c + 9 <? 0) with true by (symmetry; apply Z.ltb_lt; lia).
  - apply Z.ltb_ge in Hlow.
    replace (c + 9 <? 0) with false by (symmetry; apply Z.ltb_ge; lia).
    replace (c + 9 <? 9) with true by (symmetry; apply Z.ltb_lt; lia).
    by replace (c + 9 <? 0) with false by (symmetry; apply Z.ltb_ge; lia).
Qed.

(** [json_class_name_of_negative_id] on -1, the last name, and on -10. *)
Lemma json_class_name_of_negative_id_witness :
  coco_name (-1) = Ok "boat" /\ coco_name (-10) = Raise IndexError.
Proof.
  split.
  - rewrite (json_class_name_of_negative_id (-1)) by lia. by vm_compute.
  - by rewrite (json_class_name_of_negative_id (-10)) by lia.
Defined.

Section MoreEntryPoint.
Context `{E : Externals}.

(** [X16] The one way for [detect_frame] not to return JSON is that the
    weights do not load: what it raises is [SystemExit] with code 1, and the
    file of the weights is the one that failed. *)
Theorem detect_frame_fails_on_load_only image_path model_size conf t e :
  detect_frame image_path model_size conf t = Raise e ->
  e = SystemExit 1 /\ yolo_weights ("yolov8" +:+ model_size +:+ ".pt") = None.
Proof.
  unfold detect_frame. destruct (new_detector model_size conf) as [d0|e0] eqn:Hnew;
    cbn [rbind].
  - destruct (cv2_imread image_path) as [frame|]; [|discriminate].
    pose proof (process_frame_catchable 0%nat t d0 [frame] frame eq_refl) as Hc.
    destruct (process_frame 0%nat t (mkWorld d0 [frame])) as [w' [[ann vd]|e']];
      cbn [snd catchable] in Hc.
    + pose proof (detection_results_spec (of_Detections vd)) as Hres.
      destruct (detection_results (of_Detections vd)) as [rs|e']; cbn [rbind try_except];
        [discriminate|]. by rewrite Hres.
    + cbn [try_except]. by rewrite Hc.
  - unfold new_detector in Hnew. destruct (yolo_weights _); [discriminate|].
    injection Hnew as <-. cbn [try_except is_Exception]. by intros [= <-].
Qed.

End MoreEntryPoint.

(** [detect_frame_fails_on_load_only] with the size "q", which has no
    weights. *)
Lemma detect_frame_fails_on_load_only_witness :
  detect_frame "road.jpg" "q" (1 # 2) (1 # 50) = Raise (SystemExit 1) /\
  yolo_weights "yolov8q.pt" = None.
Proof.
  assert (Hraise : detect_frame "road.jpg" "q" (1 # 2) (1 # 50) = Raise (SystemExit 1))
    by (by vm_compute).
  split; [done|].
  by destruct (detect_frame_fails_on_load_only "road.jpg" "q" (1 # 2) (1 # 50) _ Hraise).
Defined.

Section NoVehicles.
Context `{E : Externals}.

Lemma rescale_classes rs width height tw th dets :
  rescale (from_ultralytics rs) width height tw th = Ok dets ->
  class_id dets = Some (map snd rs) /\
  confidence dets = Some (map (fun p => snd (fst p)) rs).
Proof.
  unfold rescale. destruct (0 <? len _)%nat.
  - destruct (py_truediv _ (inject_Z tw)); cbn [rbind]; [|discriminate].
    destruct (py_truediv _ (inject_Z th)); cbn [rbind]; [|discriminate].
    by intros [= <-].
  - by intros [= <-].
Qed.

Lemma filter_no_vehicle {A} (l : list A) (ids : list Z) :
  Forall (fun c => is_vehicle c = false) ids ->
  List.filter (fun row : A * Z => is_vehicle (snd row)) (zip l ids) = [].
Proof.
  intros Hall. revert l. induction Hall as [|c ids Hc Hall IH]; intros [|x l]; try done.
  cbn [zip zip_with List.filter snd]. rewrite Hc. apply IH.
Qed.

(** [X17] On a readable image that [cv2.resize] takes (positive height,
    width times 480 at least the height, a target width that fits an [int],
    memory for the resized buffer) and on which the network predicts no
    class of [vehicle_classes], [detect_frame] returns the object with an
    empty list of detections and [success] true. *)
Theorem detect_frame_without_vehicles image_path model_size conf t net frame :
  yolo_weights ("yolov8" +:+ model_size +:+ ".pt") = Some net ->
  cv2_imread image_path = Some frame ->
  (0 < im_height frame)%N -> (im_height frame <= im_width frame * 480)%N ->
  target_width_of frame <= INT_MAX -> cv2_allocates (target_width_of frame) 480 = true ->
  Forall (fun p : prediction => is_vehicle (snd p) = false)
         (net (resized_frame frame (target_width_of frame) 480)) ->
  detect_frame image_path model_size conf t
  = Ok (JObj [("detections", JArr []); ("success", JBool true)]).
Proof.
  intros Hnet Hread Hpos Hwide Hint Hmem Hnone.
  assert (Htw : 0 < target_width_of frame).
  { rewrite target_width_floor. apply Z.div_str_pos. lia. }
  unfold detect_frame, new_detector. rewrite Hnet, Hread. cbn [rbind].
  rewrite (process_frame_run 0%nat t _ [frame] frame eq_refl). cbv zeta.
  cbn [model frame_count tracker fps_history].
  replace (Z.of_N (im_height frame) =? 0) with false by (symmetry; apply Z.eqb_neq; lia).
  rewrite (resize_accepted frame Hpos Hwide Hint Hmem).
  destruct (rescale_total (net (resized_frame frame (target_width_of frame) 480))
              (Z.of_N (im_width frame)) (Z.of_N (im_height frame)) _ Htw) as [dets Hdets].
  rewrite Hdets. cbn [rbind].
  destruct (rescale_valid _ _ _ _ _ _ Hdets) as (Hv & Hi & Hc).
  destruct (rescale_classes _ _ _ _ _ _ Hdets) as [Hids Hconfs].
  destruct (filter_vehicles_total dets Hv Hi) as [fvd Hfvd]. rewrite Hfvd.
  destruct (filter_vehicles_rows _ _ _ _ Hv Hids Hconfs Hfvd)
    as (ids' & confs' & Hi' & Hc' & Hrows & _ & _).
  destruct (filter_vehicles_valid _ _ Hv Hi Hc Hfvd) as ((Lc & Li & _) & _ & _).
  rewrite filter_no_vehicle in Hrows by (by apply Forall_map).
  rewrite Hi' in Li. rewrite Hc' in Lc. cbn [opt_len_ok] in Li, Lc.
  assert (Hempty : xyxy fvd = []).
  { unfold len in Li. destruct (xyxy fvd) as [|b bs]; [done|].
    destruct ids'; [discriminate|]. discriminate. }
  assert (Hlen : len fvd = 0%nat) by (unfold len; by rewrite Hempty).
  rewrite Hlen in Li, Lc. destruct ids'; [|discriminate]. destruct confs'; [|discriminate].
  unfold track. rewrite Hlen. cbn [Nat.ltb Nat.leb snd fst].
  unfold make_labels. rewrite Hi', Hc'. cbn [zip zip_with labels_from].
  unfold detection_results, of_Detections. cbn [o_xyxy]. rewrite Hempty. reflexivity.
Qed.

End NoVehicles.

(** [detect_frame_without_vehicles] on [portrait.jpg], where the network sees
    a parking meter only. *)
Lemma detect_frame_without_vehicles_witness :
  detect_frame "portrait.jpg" "n" (1 # 2) (1 # 50)
  = Ok (JObj [("detections", JArr []); ("success", JBool true)]).
Proof.
  apply (detect_frame_without_vehicles "portrait.jpg" "n" (1 # 2) (1 # 50) toy_net portrait);
    try (by vm_compute).
  change (resized_frame portrait (target_width_of portrait) 480) with (mkImage 480 360 []).
  repeat constructor.
Defined.

(** ** The front ends [main] and [run_demo] *)

Section FrontEndFacts.
Context `{E : Externals}.
Variable str_float : Q -> string.

Ltac simp_front := cbn [f_world f_trace self heap fst snd].

Lemma stats_keys_helper d :
  exists stats, get_performance_stats d = Ok stats /\ is_Some (stats !! "avg_fps").
Proof.
  destruct (fps_history d) as [|x rest] eqn:Hh.
  - rewrite (stats_empty_window_any_count d Hh). eexists. split; [reflexivity|].
    by rewrite lookup_insert_eq.
  - destruct (stats_nonempty d) as (stats & Hs & Havg & _); [by rewrite Hh|].
    exists stats. split; [done|]. by rewrite Havg.
Qed.

(** One turn of a reading loop up to the call of [process_frame]: the frame
    is a new buffer, and the call sees it. *)
Lemma call_process_new_frame img t (s : front) :
  f_bind (call (alloc img)) (fun frame => call (process_frame frame t)) s
  = let w := f_world s in
    let out := process_frame (length (heap w)) t (mkWorld (self w) (heap w ++ [img])) in
    (mkFront (fst out) (f_trace s),
     match snd out with Ok r => Done r | Raise e => Failed (Raised e) end).
Proof.
  unfold f_bind, call, alloc. simp_front. cbv zeta.
  destruct (process_frame _ _ _) as [w' [r|e]]; reflexivity.
Qed.

Lemma new_frame_lookup (h : list image) img : (h ++ [img]) !! length h = Some img.
Proof. rewrite lookup_app_r by lia. by rewrite Nat.sub_diag. Qed.

(** [X18] The summary printed by [main] needs the keys "min_fps" and
    "max_fps": when the window is empty at the end (no call of
    [process_frame] returned), [main] ends with [KeyError] on "min_fps",
    whatever the loop did, also when the loop itself had raised; when the
    window is not empty, the summary prints and [main] ends as the loop
    did. *)
Theorem main_block_outcome writer shots s :
  let out := main_block str_float writer shots s in
  let history := fps_history (self (f_world (fst out))) in
  (history = [] -> snd out = Failed (KeyError "min_fps")) /\
  (history <> [] -> snd out = snd (main_loop writer shots s)).
Proof.
  cbv zeta. unfold main_block, try_finally.
  destruct (main_loop writer shots s) as [s1 r]. cbn [snd].
  unfold print_summary, f_bind, emit, call, get_self, lift, f_lift. simp_front.
  destruct (fps_history (self (f_world s1))) as [|x rest] eqn:Hh.
  - rewrite (stats_empty_window_any_count _ Hh). unfold dict_get.
    rewrite lookup_insert_ne by done. rewrite lookup_insert_eq.
    rewrite lookup_insert_eq.
    do 2 (rewrite lookup_insert_ne by done). rewrite lookup_empty. simp_front.
    split; [done|]. by rewrite Hh.
  - destruct (stats_min_max_bound_helper (self (f_world s1)))
      as (stats & lo & hi & Hs & Ht & Hlo & Hhi & _); [by rewrite Hh|].
    destruct (stats_nonempty (self (f_world s1))) as (stats' & Hs' & Havg & _);
      [by rewrite Hh|].
    rewrite Hs in Hs'. injection Hs' as <-.
    rewrite Hs. unfold dict_get. rewrite Ht, Havg, Hlo, Hhi. simp_front.
    split; [by rewrite Hh|done].
Qed.


(** One turn of the loop of [main]. *)
Lemma main_loop_step writer sh shots s :
  main_loop writer (sh :: shots) s =
  let w := f_world s in
  let out := process_frame (length (heap w)) (shot_time sh)
                           (mkWorld (self w) (heap w ++ [shot_frame sh])) in
  match snd out with
  | Raise e => (mkFront (fst out) (f_trace s), Failed (Raised e))
  | Ok r =>
      let pic := heap (fst out) !!! fst r in
      let trace := f_trace s ++ (if writer then [WriteVideo pic] else [])
                   ++ [Show "Vehicle Detection" pic] in
      let key := Z.land (shot_key sh) 255 in
      let path := "screenshot_" +:+ pretty (shot_clock sh) +:+ ".jpg" in
      if key =? 113 then (mkFront (fst out) trace, Done tt)
      else main_loop writer shots
             (mkFront (fst out)
                (trace ++ if key =? 115
                          then [WriteImage path pic; Print ("📸 Screenshot saved: " +:+ path)]
                          else []))
  end.
Proof.
  cbn [main_loop]. unfold f_bind at 1 2, call at 1 2, alloc. simp_front. cbv zeta.
  destruct (process_frame _ _ _) as [w' [r|e]]; [|reflexivity]. simp_front.
  unfold f_bind at 1, call at 1, read. simp_front.
  destruct writer; unfold f_bind at 1 2, emit at 1 2, f_ret at 1; simp_front;
    (destruct (Z.land (shot_key sh) 255 =? 113); [by rewrite <- ?app_assoc|]);
    (destruct (Z.land (shot_key sh) 255 =? 115);
     [unfold f_bind at 1 2, emit; simp_front; by rewrite <- ?app_assoc
     |unfold f_bind at 1, f_ret; by rewrite <- ?app_assoc, ?app_nil_r]).
Qed.

Lemma shown_app t1 t2 : shown (t1 ++ t2) = shown t1 ++ shown t2.
Proof. unfold shown. apply omap_app. Qed.
Lemma written_app t1 t2 : written (t1 ++ t2) = written t1 ++ written t2.
Proof. unfold written. apply omap_app. Qed.

(** [X19] With [--save], [main] writes to the video exactly the pictures that
    it shows, in the same order, whatever happens in the loop; without it,
    nothing is written. *)
Theorem main_loop_writes_what_it_shows writer shots : forall s,
  let trace := f_trace (fst (main_loop writer shots s)) in
  exists added,
    trace = f_trace s ++ added /\
    written added = if writer then shown added else [].
Proof.
  induction shots as [|sh shots IH]; intros s; cbv zeta.
  - cbn [main_loop]. unfold emit. simp_front. eexists. split; [reflexivity|].
    by destruct writer.
  - rewrite main_loop_step. cbv zeta.
    destruct (process_frame _ _ _) as [w' [[ann vd]|e]]; cbn [fst snd].
    2:{ exists []. split; [by rewrite app_nil_r|]. by destruct writer. }
    destruct (Z.land (shot_key sh) 255 =? 113).
    + simp_front. eexists. split; [reflexivity|]. by destruct writer.
    + match goal with |- context [main_loop writer shots ?s0] =>
        destruct (IH s0) as (added & Hadd & Hw) end.
      rewrite Hadd. cbn [f_trace]. rewrite <- !app_assoc.
      eexists. split; [reflexivity|].
      destruct writer, (Z.land (shot_key sh) 255 =? 115);
        rewrite ?written_app, ?shown_app, Hw; reflexivity.
Qed.


(** [X20] The loop of [main] reads nothing after the shot at which "q" is
    pressed: the frames that the capture would deliver afterwards have no
    influence on what [main] does. *)
Theorem main_loop_stops_at_q writer before sh after after' : forall s,
  Z.land (shot_key sh) 255 = 113 ->
  main_loop writer (before ++ sh :: after) s = main_loop writer (before ++ sh :: after') s.
Proof.
  intros s Hq. revert s. induction before as [|b before IH]; intros s; cbn [app].
  - rewrite !main_loop_step. cbv zeta. rewrite Hq. reflexivity.
  - rewrite !main_loop_step. cbv zeta.
    destruct (snd (process_frame _ _ _)) as [r|e]; [|reflexivity].
    destruct (Z.land (shot_key b) 255 =? 113); [reflexivity|]. apply IH.
Qed.

(** One turn of the loop of [run_demo]. *)
Lemma demo_loop_step sh shots n total s :
  demo_loop (sh :: shots) n total s =
  let w := f_world s in
  let out := process_frame (length (heap w)) (shot_time sh)
                           (mkWorld (self w) (heap w ++ [shot_frame sh])) in
  match snd out with
  | Raise e => (mkFront (fst out) (f_trace s), Failed (Raised e))
  | Ok r =>
      let total' := total + Z.of_nat (len (snd r)) in
      let n' := n + 1 in
      let trace :=
        f_trace s
        ++ (if n' mod 10 =? 0
            then [Print ("Frame " +:+ pretty n' +:+ ": " +:+ pretty (len (snd r))
                         +:+ " vehicles detected")]
            else [])
        ++ [Show "Vehicle Detection Demo" (heap (fst out) !!! fst r)] in
      if Z.land (shot_key sh) 255 =? 113 then (mkFront (fst out) trace, Done (n', total'))
      else demo_loop shots n' total' (mkFront (fst out) trace)
  end.
Proof.
  cbn [demo_loop]. unfold f_bind at 1 2, call at 1 2, alloc. simp_front. cbv zeta.
  destruct (process_frame _ _ _) as [w' [[ann vd]|e]]; [|reflexivity]. simp_front.
  destruct ((n + 1) mod 10 =? 0);
    unfold f_bind at 1 2 3, call, read, emit, f_ret; simp_front;
    rewrite <- ?app_assoc; by destruct (Z.land (shot_key sh) 255 =? 113).
Qed.

(** [X21] The frame counter that [run_demo] keeps for itself moves with the
    counter of the detector: when the loop ends without exception, its count
    has grown by as much as [frame_count] of the detector, and by the number
    of pictures shown; its second counter has not decreased. *)
Theorem demo_loop_counts shots : forall n total s s' n' total',
  demo_loop shots n total s = (s', Done (n', total')) ->
  n' - n = frame_count (self (f_world s')) - frame_count (self (f_world s)) /\
  n' - n = Z.of_nat (length (shown (f_trace s'))) - Z.of_nat (length (shown (f_trace s))) /\
  total <= total'.
Proof.
  induction shots as [|sh shots IH]; intros n total s s' n' total' Hrun.
  - cbn [demo_loop] in Hrun. injection Hrun as <- <- <-. lia.
  - rewrite demo_loop_step in Hrun. cbv zeta in Hrun.
    destruct s as [[d h] tr]. simp_front. cbn [f_world f_trace self heap] in Hrun.
    destruct (process_frame_history (length h) (shot_time sh) d (h ++ [shot_frame sh])
                (shot_frame sh) (new_frame_lookup _ _)) as [Hcount _].
    cbv zeta in Hcount.
    destruct (process_frame _ _ _) as [w' [[ann vd]|e]]; cbn [fst snd] in Hrun, Hcount;
      [|discriminate].
    set (line := if (n + 1) mod 10 =? 0 then _ else []) in Hrun.
    assert (Hshown : length (shown (tr ++ line ++ [Show "Vehicle Detection Demo" (heap w' !!! ann)]))
                     = S (length (shown tr))).
    { rewrite !shown_app, !length_app. unfold line.
      destruct ((n + 1) mod 10 =? 0); cbn; lia. }
    destruct (Z.land (shot_key sh) 255 =? 113).
    + injection Hrun as <- <- <-. simp_front. rewrite Hshown. lia.
    + apply IH in Hrun as (H1 & H2 & H3). simp_front. cbn [f_world f_trace self] in H1, H2.
      rewrite Hshown in H2. lia.
Qed.

(** [X22] The report of [run_demo] cannot fail: whatever the counters and
    the state of the detector, the lookups in the statistics find their key
    and no division is by zero. *)
Theorem demo_report_never_fails n total s :
  snd (demo_report n total s) = Done tt.
Proof.
  unfold demo_report, f_bind at 1 2 3, emit at 1, call, get_self, lift. simp_front.
  destruct (stats_keys_helper (self (f_world s))) as (stats & Hs & [avg Havg]).
  rewrite Hs. unfold f_bind at 1 2 3, emit at 1 2 3. simp_front.
  destruct (0 <? n) eqn:Hn; [|reflexivity]. apply Z.ltb_lt in Hn.
  unfold f_bind at 1, format_ratio_1f at 1, py_truediv.
  replace (Qeq_bool (inject_Z n) 0) with false.
  2:{ symmetry. apply not_true_iff_false. intros Hq%Qeq_bool_eq.
      unfold Qeq in Hq. simpl in Hq. lia. }
  unfold f_ret at 1, f_bind at 1 2 3, emit at 1 2, f_lift, dict_get. rewrite Havg. simp_front.
  unfold number_positive. destruct (json_number avg) as [q|]; [|reflexivity].
  destruct (Qlt_le_dec 0 q) as [Hq|]; [|reflexivity].
  unfold f_bind, format_ratio_1f, py_truediv. cbn [default from_option id].
  replace (Qeq_bool q 0) with false; [reflexivity|].
  symmetry. apply not_true_iff_false. intros Hz%Qeq_bool_eq.
  rewrite Hz in Hq. by apply Qlt_irrefl in Hq.
Qed.

End FrontEndFacts.

(** [main_block_outcome] on a capture that delivers no frame, and on one
    that delivers one. *)
Lemma main_block_outcome_witness :
  let out := main_block (fun _ => "") true [] fresh_front in
  snd out = Failed (KeyError "min_fps") /\
  printed (f_trace (fst out))
  = ["End of video"; "
📊 Performance Summary:"; "   Total frames: 0"; "   Average FPS: 0.0"] /\
  snd (main_block (fun _ => "") true [quiet_shot] fresh_front) = Done tt.
Proof.
  cbv zeta.
  destruct (main_block_outcome (fun _ => "") true [] fresh_front) as [Hempty _].
  destruct (main_block_outcome (fun _ => "") true [quiet_shot] fresh_front) as [_ Hfull].
  split; [by apply Hempty; vm_compute|]. split; [by vm_compute|].
  rewrite Hfull; by vm_compute.
Defined.

(** [main_loop_writes_what_it_shows] on three shots, saving the video. *)
Lemma main_loop_writes_what_it_shows_witness :
  let trace := f_trace (fst (main_loop true [quiet_shot; s_shot; q_shot] fresh_front)) in
  length (shown trace) = 3%nat /\ written trace = shown trace.
Proof.
  cbv zeta.
  destruct (main_loop_writes_what_it_shows true [quiet_shot; s_shot; q_shot] fresh_front)
    as (added & Hadd & Hw).
  cbn [f_trace fresh_front app] in Hadd. rewrite Hadd. split; [|exact Hw].
  rewrite <- Hadd. by vm_compute.
Defined.

(** [main_loop_stops_at_q]: a frame that cannot be processed, after "q". *)
Lemma main_loop_stops_at_q_witness :
  main_loop false [quiet_shot; q_shot; mkShot sliver 0 0 0] fresh_front
  = main_loop false [quiet_shot; q_shot] fresh_front.
Proof.
  by apply (main_loop_stops_at_q false [quiet_shot] q_shot [mkShot sliver 0 0 0] [] fresh_front).
Defined.

(** [demo_loop_counts] on three shots. *)
Lemma demo_loop_counts_witness :
  exists s' total',
    demo_loop [quiet_shot; s_shot; quiet_shot] 0 0 fresh_front = (s', Done (3, total')) /\
    frame_count (self (f_world s')) = 3 /\ 0 <= total'.
Proof.
  destruct (demo_loop [quiet_shot; s_shot; quiet_shot] 0 0 fresh_front)
    as [s' [[n' total']|e]] eqn:Hrun; [|vm_compute in Hrun; discriminate].
  destruct (demo_loop_counts _ _ _ _ _ _ _ Hrun) as (Hcount & _ & Htotal).
  assert (Hn : n' = 3) by (vm_compute in Hrun; by injection Hrun as _ <- _).
  subst n'. exists s', total'. split; [done|]. cbn in Hcount. split; lia.
Defined.

(** ** The pictures the GUIs show *)

Lemma py_int_floor_le x n : (0 <= x)%Q -> (x <= inject_Z n)%Q -> 0 <= py_int x <= n.
Proof.
  intros H0 Hn. unfold py_int.
  replace (Qle_bool 0 x) with true by (symmetry; by apply Qle_bool_iff).
  split.
  - replace 0 with (Qfloor (inject_Z 0)) by apply Qfloor_Z. by apply Qfloor_resp_le.
  - rewrite <- (Qfloor_Z n). by apply Qfloor_resp_le.
Qed.

Lemma py_min_le_l a b : (py_min a b <= a)%Q.
Proof.
  unfold py_min. destruct (Qlt_le_dec b a); [by apply Qlt_le_weak|apply Qle_refl].
Qed.
Lemma py_min_le_r a b : (py_min a b <= b)%Q.
Proof. unfold py_min. destruct (Qlt_le_dec b a); [apply Qle_refl|done]. Qed.
Lemma py_min_nonneg a b : (0 <= a)%Q -> (0 <= b)%Q -> (0 <= py_min a b)%Q.
Proof. intros. unfold py_min. by destruct (Qlt_le_dec b a). Qed.

Lemma Q_of_Z_pos n : 0 < n -> (0 < inject_Z n)%Q.
Proof. intros Hn. unfold Qlt. simpl. lia. Qed.

Lemma scaled_side n scale :
  0 < n -> (0 <= scale)%Q -> (scale <= 600 / inject_Z n)%Q ->
  (0 <= inject_Z n * scale)%Q /\ (inject_Z n * scale <= inject_Z 600)%Q.
Proof.
  intros Hn H0 Hs. pose proof (Q_of_Z_pos _ Hn) as Hq. split.
  - apply Qmult_le_0_compat; [by apply Qlt_le_weak|done].
  - apply Qle_trans with (inject_Z n * (600 / inject_Z n))%Q.
    + rewrite !(Qmult_comm (inject_Z n)). apply Qmult_le_compat_r; [done|by apply Qlt_le_weak].
    + rewrite Qmult_div_r; [apply Qle_refl|].
      intros Hz. rewrite Hz in Hq. by apply Qlt_irrefl in Hq.
Qed.

(** The size for the display fits 600 by 600. *)
Lemma display_size_fits width height w' h' :
  display_size width height = Ok (w', h') ->
  0 <= width -> 0 <= height ->
  0 <= w' <= 600 /\ 0 <= h' <= 600.
Proof.
  unfold display_size. cbv zeta. unfold py_truediv.
  destruct (Qeq_bool (inject_Z width) 0) eqn:Hw0; cbn [rbind]; [discriminate|].
  destruct (Qeq_bool (inject_Z height) 0) eqn:Hh0; cbn [rbind]; [discriminate|].
  intros [= <- <-] Hw Hh.
  assert (Hwpos : 0 < width).
  { apply Qeq_bool_neq in Hw0. destruct (decide (width = 0)) as [->|]; [by destruct Hw0|lia]. }
  assert (Hhpos : 0 < height).
  { apply Qeq_bool_neq in Hh0. destruct (decide (height = 0)) as [->|]; [by destruct Hh0|lia]. }
  assert (Hsx : (0 <= inject_Z 600 / inject_Z width)%Q).
  { unfold Qdiv. apply Qmult_le_0_compat; [done|].
    apply Qinv_le_0_compat, Qlt_le_weak. by apply Q_of_Z_pos. }
  assert (Hsy : (0 <= inject_Z 600 / inject_Z height)%Q).
  { unfold Qdiv. apply Qmult_le_0_compat; [done|].
    apply Qinv_le_0_compat, Qlt_le_weak. by apply Q_of_Z_pos. }
  pose proof (py_min_nonneg _ _ Hsx Hsy) as Hs0.
  destruct (scaled_side width _ Hwpos Hs0 (py_min_le_l _ _)) as [? ?].
  destruct (scaled_side height _ Hhpos Hs0 (py_min_le_r _ _)) as [? ?].
  split; by apply py_int_floor_le.
Qed.

Section GuiFacts.
Context `{E : Externals}.

(** [X23] The picture that the GUIs hand to the display is at most 600 wide
    and 600 high: a frame within these bounds is shown as it is, in its own
    buffer, and a larger one is resized into a new buffer within them; no
    buffer that existed is changed. *)
Theorem display_fits_600 (h : list image) frame img h' l :
  h !! frame = Some img ->
  resize_for_display h frame = (h', Ok l) ->
  (exists img', h' !! l = Some img' /\ (im_width img' <= 600)%N /\ (im_height img' <= 600)%N) /\
  ((im_width img <= 600)%N /\ (im_height img <= 600)%N -> l = frame /\ h' = h) /\
  (forall k x, h !! k = Some x -> h' !! k = Some x).
Proof.
  intros Hframe. unfold resize_for_display. cbv zeta.
  rewrite (list_lookup_total_correct _ _ _ Hframe).
  destruct ((600 <? Z.of_N (im_width img)) || (600 <? Z.of_N (im_height img))) eqn:Hbig.
  - destruct (display_size _ _) as [[w' hh']|e] eqn:Hsize; [|discriminate].
    destruct (display_size_fits _ _ _ _ Hsize) as [Hw Hh]; [lia..|].
    unfold heap_resize. cbv beta iota zeta. rewrite (list_lookup_total_correct _ _ _ Hframe).
    destruct (resize_refused img (w', hh')); [discriminate|]. intros [= <- <-].
    split; [|split].
    + exists (resized_frame img w' hh'). split.
      * rewrite lookup_app_r by lia. by rewrite Nat.sub_diag.
      * cbn [resized_frame im_width im_height]. lia.
    + intros [Hw' Hh']. apply orb_true_iff in Hbig as [Hb|Hb]; apply Z.ltb_lt in Hb; lia.
    + intros k x Hk. rewrite lookup_app_l; [done|]. by eapply lookup_lt_Some.
  - intros [= <- <-]. apply orb_false_iff in Hbig as [Hw Hh].
    apply Z.ltb_ge in Hw, Hh. split; [|split; [done|done]].
    exists img. split; [done|]. lia.
Qed.

End GuiFacts.

(** [display_fits_600] on [road], 1280 by 720: shown at 600 by 337. *)
Lemma display_fits_600_witness :
  exists h' l img',
    resize_for_display [road] 0%nat = (h', Ok l) /\ h' !! l = Some img' /\
    im_width img' = 600%N /\ im_height img' = 337%N /\ h' !! 0%nat = Some road.
Proof.
  destruct (resize_for_display [road] 0%nat) as [h' [l|e]] eqn:Hr;
    [|vm_compute in Hr; discriminate].
  destruct (display_fits_600 [road] 0%nat road h' l eq_refl Hr) as ((img' & Himg & _) & _ & Hkeep).
  exists h', l, img'. split; [done|]. split; [done|].
  vm_compute in Hr. injection Hr as <- <-. cbn in Himg. injection Himg as <-.
  repeat split.
Defined.

(** ** [update_frame] and [play_loop] of [gui_detector.py] *)

Ltac simp_dg :=
  cbn [dg_detector dg_cap dg_is_playing dg_current_frame dg_total_frames dg_fps dg_frame_var
       dg_info_text dg_video_label dg_status_var dg_heap
       dg_set_detection dg_set_info_text dg_set_display dg_set_position dg_set_is_playing
       fst snd self heap].

(** The shorter side of a picture more than 600 times as long as wide comes
    out as 0. *)
Lemma thin_side_is_zero w h :
  0 < w -> w * 600 < h ->
  py_int (inject_Z w * py_min (inject_Z 600 / inject_Z w) (inject_Z 600 / inject_Z h)) = 0.
Proof.
  intros Hw Hthin.
  assert (Hh : 0 < h) by lia.
  pose proof (Q_of_Z_pos _ Hw) as Hwq. pose proof (Q_of_Z_pos _ Hh) as Hhq.
  assert (Hsy0 : (0 <= inject_Z 600 / inject_Z h)%Q).
  { unfold Qdiv. apply Qmult_le_0_compat; [done|]. by apply Qinv_le_0_compat, Qlt_le_weak. }
  assert (Hsx0 : (0 <= inject_Z 600 / inject_Z w)%Q).
  { unfold Qdiv. apply Qmult_le_0_compat; [done|]. by apply Qinv_le_0_compat, Qlt_le_weak. }
  set (x := (inject_Z w * py_min (inject_Z 600 / inject_Z w) (inject_Z 600 / inject_Z h))%Q).
  assert (Hx0 : (0 <= x)%Q).
  { apply Qmult_le_0_compat; [by apply Qlt_le_weak|by apply py_min_nonneg]. }
  assert (Hx1 : (x < 1)%Q).
  { apply Qle_lt_trans with (inject_Z w * (inject_Z 600 / inject_Z h))%Q.
    - unfold x. rewrite !(Qmult_comm (inject_Z w)).
      apply Qmult_le_compat_r; [apply py_min_le_r|by apply Qlt_le_weak].
    - unfold Qdiv. rewrite Qmult_assoc. apply Qlt_shift_div_r; [done|].
      rewrite Qmult_1_l. rewrite <- inject_Z_mult. rewrite <- Zlt_Qlt. lia. }
  unfold py_int. replace (Qle_bool 0 x) with true by (symmetry; by apply Qle_bool_iff).
  assert (Hf0 : 0 <= Qfloor x).
  { replace 0 with (Qfloor (inject_Z 0)) by apply Qfloor_Z. by apply Qfloor_resp_le. }
  assert (Hf1 : Qfloor x < 1).
  { rewrite Zlt_Qlt. eapply Qle_lt_trans; [apply Qfloor_le|exact Hx1]. }
  lia.
Qed.

Section DetectionGuiFacts.
Context `{E : Externals}.

Lemma dg_update_frame_run t g video img :
  dg_cap g = Some video ->
  seek_read video (dg_current_frame g) = Some img ->
  dg_update_frame t g =
  let '(d, h1, frame, info) := dg_detected t g img in
  let g1 := dg_set_info_text info (dg_set_detection d h1 g) in
  match resize_for_display h1 frame with
  | (h2, Raise e) => (dg_set_detection d h2 g1, Failed (Raised e))
  | (h2, Ok l) =>
      (dg_set_display (bgr2rgb (h2 !!! l))
                      ("Frame: " +:+ pretty (dg_current_frame g + 1) +:+ "/"
                       +:+ pretty (dg_total_frames g))
                      (dg_set_detection d h2 g1),
       Done tt)
  end.
Proof.
  intros Hcap Hread. unfold dg_update_frame, dg_detected. cbv zeta.
  unfold st_bind at 1, st_get. rewrite Hcap, Hread.
  unfold st_bind at 1, dg_new_frame.
  destruct g as [det cap playing cur total fps fvar info label status h]. simp_dg.
  destruct det as [d|].
  - pose proof (process_frame_catchable (length h) t d (h ++ [img]) img
                  (new_frame_lookup _ _)) as Hc.
    unfold st_bind at 1, st_try, st_bind at 1, dg_call. simp_dg.
    destruct (process_frame _ _ _) as [w' [[processed dets]|e]]; simp_dg.
    + destruct (0 <? len dets)%nat;
        unfold st_bind at 1, dg_log_info, st_modify, st_ret; simp_dg;
        unfold st_bind, dg_resize_for_display; simp_dg;
        destruct (resize_for_display _ _) as [h2 [l|e]]; reflexivity.
    + cbn [catchable snd] in Hc. cbn [is_front_Exception]. rewrite Hc.
      unfold st_bind at 1, dg_log_info, st_modify, st_ret; simp_dg.
      unfold st_bind, dg_resize_for_display; simp_dg.
      destruct (resize_for_display _ _) as [h2 [l|e']]; reflexivity.
  - unfold st_bind, st_ret, dg_resize_for_display. simp_dg.
    destruct (resize_for_display _ _) as [h2 [l|e]]; reflexivity.
Qed.


Lemma resize_for_display_small (h : list image) frame img :
  h !! frame = Some img ->
  (im_width img <= 600)%N -> (im_height img <= 600)%N ->
  resize_for_display h frame = (h, Ok frame).
Proof.
  intros Hframe Hw Hh. unfold resize_for_display. cbv zeta.
  rewrite (list_lookup_total_correct _ _ _ Hframe).
  replace (600 <? Z.of_N (im_width img)) with false by (symmetry; apply Z.ltb_ge; lia).
  by replace (600 <? Z.of_N (im_height img)) with false by (symmetry; apply Z.ltb_ge; lia).
Qed.

(** [X24] In [update_frame] of [gui_detector.py] an exception of
    [process_frame] does not escape: the call ends normally, the log gets
    the line "Detection error: ..." and the frame is shown without
    annotation (here for a frame that needs no resizing for the display);
    the detector has counted the frame. *)
Theorem dg_detection_error_is_logged t g video img d e :
  dg_cap g = Some video ->
  seek_read video (dg_current_frame g) = Some img ->
  dg_detector g = Some d ->
  snd (process_frame (length (dg_heap g)) t (mkWorld d (dg_heap g ++ [img]))) = Raise e ->
  (im_width img <= 600)%N -> (im_height img <= 600)%N ->
  let out := dg_update_frame t g in
  snd out = Done tt /\
  dg_info_text (fst out) = dg_info_text g ++ ["Detection error: " +:+ exn_str e] /\
  dg_video_label (fst out) = Some (bgr2rgb img) /\
  frame_count <$> dg_detector (fst out) = Some (frame_count d + 1).
Proof.
  intros Hcap Hread Hdet Hraise Hw Hh. cbv zeta.
  rewrite (dg_update_frame_run t g video img Hcap Hread).
  unfold dg_detected. cbv zeta. rewrite Hdet, Hraise.
  destruct (process_frame_buffers_kept (length (dg_heap g)) t d (dg_heap g ++ [img]) img
              (new_frame_lookup _ _)) as (Hkeep & _ & _).
  destruct (process_frame_history (length (dg_heap g)) t d (dg_heap g ++ [img]) img
              (new_frame_lookup _ _)) as [Hcount _].
  cbv zeta in Hkeep, Hcount.
  specialize (Hkeep _ _ (new_frame_lookup (dg_heap g) img)).
  rewrite (resize_for_display_small _ _ img Hkeep Hw Hh).
  simp_dg. rewrite (list_lookup_total_correct _ _ _ Hkeep). cbn [fmap option_fmap option_map].
  by rewrite Hcount.
Qed.

(** [X25] [update_frame] of [gui_detector.py] resizes for the display
    outside of its [try]: on a frame more than 600 times as high as it is
    wide the new width is 0, and the error of [cv2.resize] escapes from
    [update_frame], with or without a detector. *)
Theorem dg_update_frame_raises_on_thin_frame t g video img :
  dg_cap g = Some video ->
  seek_read video (dg_current_frame g) = Some img ->
  (0 < im_width img)%N -> (im_width img * 600 < im_height img)%N ->
  snd (dg_update_frame t g) = Failed (Raised Cv2Error).
Proof.
  intros Hcap Hread Hw Hthin.
  rewrite (dg_update_frame_run t g video img Hcap Hread).
  assert (Hresize : forall h, h !! length (dg_heap g) = Some img ->
            exists h2, resize_for_display h (length (dg_heap g)) = (h2, Raise Cv2Error)).
  { intros h Hframe. unfold resize_for_display. cbv zeta.
    rewrite (list_lookup_total_correct _ _ _ Hframe).
    replace (600 <? Z.of_N (im_height img)) with true by (symmetry; apply Z.ltb_lt; lia).
    rewrite orb_true_r.
    destruct (display_size _ _) as [[w' h']|e] eqn:Hsize.
    - assert (Hw' : w' = 0).
      { revert Hsize. unfold display_size, py_truediv. cbv zeta.
        destruct (Qeq_bool (inject_Z (Z.of_N (im_width img))) 0); cbn [rbind]; [discriminate|].
        destruct (Qeq_bool (inject_Z (Z.of_N (im_height img))) 0); cbn [rbind]; [discriminate|].
        intros [= <- _]. apply thin_side_is_zero; lia. }
      subst w'. unfold heap_resize. cbv zeta. rewrite resize_refused_narrow by lia. eauto.
    - exfalso. revert Hsize. unfold display_size, py_truediv. cbv zeta.
      replace (Qeq_bool (inject_Z (Z.of_N (im_width img))) 0) with false.
      2:{ symmetry. apply not_true_iff_false. intros Hq%Qeq_bool_eq.
          unfold Qeq in Hq. simpl in Hq. lia. }
      replace (Qeq_bool (inject_Z (Z.of_N (im_height img))) 0) with false; [discriminate|].
      symmetry. apply not_true_iff_false. intros Hq%Qeq_bool_eq.
      unfold Qeq in Hq. simpl in Hq. lia. }
  unfold dg_detected. cbv zeta. destruct (dg_detector g) as [d|].
  - assert (Hnarrow : (im_width img * 480 < im_height img)%N) by lia.
    rewrite (process_frame_run _ t d _ img (new_frame_lookup _ _)). cbv zeta.
    replace (Z.of_N (im_height img) =? 0) with false by (symmetry; apply Z.eqb_neq; lia).
    rewrite resize_refused_narrow by (rewrite target_width_floor, Z.div_small; lia).
    cbn [fst snd heap]. destruct (Hresize _ (new_frame_lookup _ _)) as [h2 ->]. done.
  - destruct (Hresize _ (new_frame_lookup _ _)) as [h2 ->]. done.
Qed.

End DetectionGuiFacts.

Section DetectionGuiPlayback.
Context `{E : Externals}.

(** [update_frame] leaves video, position and playback flag alone. *)
Lemma dg_update_frame_keeps t g :
  let g' := fst (dg_update_frame t g) in
  dg_cap g' = dg_cap g /\ dg_is_playing g' = dg_is_playing g /\
  dg_current_frame g' = dg_current_frame g /\ dg_total_frames g' = dg_total_frames g /\
  dg_fps g' = dg_fps g /\ dg_frame_var g' = dg_frame_var g.
Proof.
  cbv zeta. destruct (dg_cap g) as [video|] eqn:Hcap.
  2:{ unfold dg_update_frame, st_bind, st_get. by rewrite Hcap. }
  destruct (seek_read video (dg_current_frame g)) as [img|] eqn:Hread.
  2:{ unfold dg_update_frame, st_bind, st_get. by rewrite Hcap, Hread. }
  rewrite (dg_update_frame_run t g video img Hcap Hread).
  destruct (dg_detected t g img) as [[[d h1] frame] info].
  destruct (resize_for_display h1 frame) as [h2 [l|e]]; simp_dg; by rewrite Hcap.
Qed.

(** [X26] Playback in [gui_detector.py] ends (when nothing else touches the
    GUI): from a position [c] of a video of [n] frames the loop has stopped
    after at most [n - 1 - c] turns and one test; it never moves the position
    backwards nor beyond the last frame; and when it ends without exception
    after playing, the playback flag is off and the position is the last
    frame. *)
Theorem dg_play_loop_ends fuel times : forall g,
  (Z.to_nat (dg_total_frames g - 1 - dg_current_frame g) < fuel)%nat ->
  exists g' r,
    dg_play_loop fuel times g = Some (g', r) /\
    dg_current_frame g <= dg_current_frame g' <= Z.max (dg_current_frame g) (dg_total_frames g - 1) /\
    (dg_is_playing g = true -> is_Some (dg_cap g) -> r = Done tt ->
     dg_is_playing g' = false /\
     dg_current_frame g' = Z.max (dg_current_frame g) (dg_total_frames g - 1)).
Proof.
  induction fuel as [|fuel IH]; intros g Hfuel; [lia|]. cbn [dg_play_loop].
  destruct (dg_is_playing g && bool_decide (is_Some (dg_cap g))) eqn:Hgo.
  2:{ exists g, (Done tt). split; [done|]. split; [lia|]. intros Hp Hc _.
      rewrite Hp, (bool_decide_eq_true_2 _ Hc) in Hgo. done. }
  destruct (dg_current_frame g <? dg_total_frames g - 1) eqn:Hlt.
  2:{ apply Z.ltb_ge in Hlt. eexists _, _. split; [reflexivity|]. simp_dg.
      split; [lia|]. intros _ _ _. split; [done|]. lia. }
  apply Z.ltb_lt in Hlt.
  set (g1 := dg_set_position (dg_current_frame g + 1) g).
  destruct (dg_update_frame_keeps (times (dg_current_frame g1)) g1)
    as (Hcap & Hplay & Hcur & Htot & Hfps & _).
  cbv zeta in *. destruct (dg_update_frame _ g1) as [g2 [[]|e]]; cbn [fst] in *.
  2:{ eexists _, _. split; [reflexivity|]. rewrite Hcur. unfold g1. simp_dg.
      split; [lia|]. intros _ _ Hr. discriminate. }
  destruct (sleep_one_frame (dg_fps g2)) as [[]|e].
  2:{ eexists _, _. split; [reflexivity|]. rewrite Hcur. unfold g1. simp_dg.
      split; [lia|]. intros _ _ Hr. discriminate. }
  assert (Hcur2 : dg_current_frame g2 = dg_current_frame g + 1) by (by rewrite Hcur).
  assert (Htot2 : dg_total_frames g2 = dg_total_frames g) by (by rewrite Htot).
  destruct (IH g2) as (g' & r & Hrun & Hbound & Hend); [rewrite Hcur2, Htot2; lia|].
  exists g', r. split; [done|]. rewrite Hcur2, Htot2 in Hbound, Hend.
  split; [lia|]. intros Hp Hc Hr.
  apply andb_true_iff in Hgo as [Hp' Hc']. apply bool_decide_eq_true in Hc'.
  destruct Hend as [Hoff Hlast]; [by rewrite Hplay|by rewrite Hcap|done|].
  split; [done|]. lia.
Qed.

(** [X27] When the video reports 0 frames per second, playback in
    [gui_detector.py] shows one more frame and then dies in
    [time.sleep(1.0 / self.fps)] with [ZeroDivisionError]; the playback flag
    is still on. *)
Theorem dg_play_loop_zero_fps fuel times g :
  dg_is_playing g = true -> is_Some (dg_cap g) ->
  dg_current_frame g < dg_total_frames g - 1 ->
  (dg_fps g == 0)%Q ->
  let g1 := dg_set_position (dg_current_frame g + 1) g in
  let out := dg_update_frame (times (dg_current_frame g + 1)) g1 in
  snd out = Done tt ->
  dg_play_loop (S fuel) times g = Some (fst out, Failed (Raised ZeroDivisionError)) /\
  dg_is_playing (fst out) = true /\ dg_current_frame (fst out) = dg_current_frame g + 1.
Proof.
  intros Hplay Hcap Hlt Hfps. cbv zeta. intros Hdone. cbn [dg_play_loop].
  rewrite Hplay, (bool_decide_eq_true_2 _ Hcap). cbn [andb].
  replace (dg_current_frame g <? dg_total_frames g - 1) with true
    by (symmetry; by apply Z.ltb_lt).
  destruct (dg_update_frame_keeps (times (dg_current_frame g + 1))
              (dg_set_position (dg_current_frame g + 1) g))
    as (_ & Hplay' & Hcur' & _ & Hfps' & _).
  cbv zeta in *. simp_dg.
  destruct (dg_update_frame _ _) as [g2 r]. cbn [fst snd] in *. subst r.
  simp_dg. unfold sleep_one_frame, py_truediv.
  replace (Qeq_bool (dg_fps g2) 0) with true.
  2:{ symmetry. apply Qeq_bool_iff. by rewrite Hfps'. }
  split; [done|]. split; [by rewrite Hplay'|done].
Qed.

End DetectionGuiPlayback.

(** [dg_detection_error_is_logged] on the third frame of [toy_player], which
    [process_frame] cannot resize. *)
Lemma dg_detection_error_is_logged_witness :
  let g := dg_set_position 2 toy_player in
  let out := dg_update_frame (1 # 50) g in
  snd out = Done tt /\
  dg_info_text (fst out) = ["Detection error: " +:+ exn_str Cv2Error] /\
  dg_video_label (fst out) = Some (bgr2rgb sliver).
Proof.
  cbv zeta.
  destruct (dg_detection_error_is_logged (1 # 50) (dg_set_position 2 toy_player)
              [icon; portrait; sliver; icon] sliver fresh_detector Cv2Error)
    as (Hdone & Hlog & Hshow & _); try done; by vm_compute.
Defined.

(** [dg_update_frame_raises_on_thin_frame] on [needle], 1 by 601. *)
Lemma dg_update_frame_raises_on_thin_frame_witness :
  snd (dg_update_frame (1 # 50) needle_player) = Failed (Raised Cv2Error).
Proof.
  by apply (dg_update_frame_raises_on_thin_frame (1 # 50) needle_player [needle] needle).
Defined.

(** [dg_play_loop_ends] on [playing_player]: from the first frame of four,
    playback stops on the last one. *)
Lemma dg_play_loop_ends_witness :
  exists g',
    dg_play_loop 4 (fun _ => 1 # 50) playing_player = Some (g', Done tt) /\
    dg_is_playing g' = false /\ dg_current_frame g' = 3 /\
    length (dg_info_text g') = 3%nat.
Proof.
  destruct (dg_play_loop_ends 4 (fun _ => 1 # 50) playing_player)
    as (g' & r & Hrun & _ & Hend); [vm_compute; lia|].
  assert (Hr : r = Done tt).
  { pose proof Hrun as Hc. vm_compute in Hc. by injection Hc as _ <-. }
  subst r. exists g'. split; [done|].
  destruct Hend as [Hoff Hlast]; [done|by eexists|done|].
  split; [done|]. split; [done|].
  vm_compute in Hrun. by injection Hrun as <-.
Defined.

(** [dg_play_loop_zero_fps] on [stalled_player]. *)
Lemma dg_play_loop_zero_fps_witness :
  exists g',
    dg_play_loop 4 (fun _ => 1 # 50) stalled_player
    = Some (g', Failed (Raised ZeroDivisionError)) /\
    dg_is_playing g' = true /\ dg_current_frame g' = 1.
Proof.
  assert (Hcap : is_Some (dg_cap stalled_player)) by (by eexists).
  assert (Hlt : dg_current_frame stalled_player < dg_total_frames stalled_player - 1)
    by (vm_compute; reflexivity).
  assert (Hdone : snd (dg_update_frame (1 # 50)
                         (dg_set_position (dg_current_frame stalled_player + 1) stalled_player))
                  = Done tt) by (vm_compute; reflexivity).
  destruct (dg_play_loop_zero_fps 3 (fun _ => 1 # 50) stalled_player eq_refl Hcap Hlt
              (Qeq_refl 0) Hdone) as (Hrun & Hon & Hpos).
  eexists. split; [exact Hrun|]. split; [exact Hon|exact Hpos].
Defined.

(** ** [update_frame] and [play_loop] of [gui.py] *)

Ltac simp_vg :=
  cbn [vg_detector vg_cap vg_is_playing vg_current_frame vg_total_frames vg_fps
       vg_processing_times vg_downsample vg_downsample_factor vg_frame_var vg_video_label
       vg_frame_label vg_detection_label vg_processing_label vg_status_var vg_heap
       vg_set_detection vg_set_status vg_set_processing_times vg_set_display
       vg_set_position vg_set_is_playing fst snd self heap].

Section VehicleGuiFacts.
Context `{E : Externals}.

Lemma vg_kept_refl g : vg_kept g g.
Proof. by repeat split. Qed.

Lemma vg_kept_trans g1 g2 g3 : vg_kept g1 g2 -> vg_kept g2 g3 -> vg_kept g1 g3.
Proof.
  unfold vg_kept. intros (-> & -> & -> & -> & -> & -> & -> & ->) (-> & -> & -> & -> & -> & -> & -> & ->).
  by repeat split.
Qed.

(** An OpenCV call changes the buffers only. *)
Lemma vg_heap_op_spec {A} (f : list image -> list image * result A) g :
  let out := vg_heap_op f g in
  vg_kept g (fst out) /\
  vg_processing_times (fst out) = vg_processing_times g /\
  vg_detector (fst out) = vg_detector g /\
  vg_heap (fst out) = fst (f (vg_heap g)) /\
  snd out = match snd (f (vg_heap g)) with
            | Ok a => Done a
            | Raise e => Failed (Raised e)
            end.
Proof.
  cbv zeta. unfold vg_heap_op. destruct (f (vg_heap g)) as [h' [a|e]]; simp_vg;
    by repeat split.
Qed.

Lemma heap_resize_spec (h : list image) src dsize :
  match heap_resize h src dsize with
  | (h', Ok l) => is_Some (h' !! l)
  | (_, Raise e) => e = Cv2Error
  end.
Proof.
  unfold heap_resize. cbv zeta.
  destruct (resize_refused (h !!! src) dsize); [done|]. destruct dsize as [w hh].
  eexists. apply new_frame_lookup.
Qed.

Lemma resize_for_display_catchable (h : list image) frame :
  catchable (snd (resize_for_display h frame)).
Proof.
  unfold resize_for_display. cbv zeta.
  destruct ((600 <? Z.of_N (im_width (h !!! frame))) || (600 <? Z.of_N (im_height (h !!! frame))));
    [|done].
  destruct (display_size _ _) as [dsize|e] eqn:Hd.
  - pose proof (heap_resize_spec h frame dsize) as Hr.
    destruct (heap_resize h frame dsize) as [h' [l|e]]; [done|by subst e].
  - unfold display_size, py_truediv, rbind in Hd.
    repeat match type of Hd with
           | context [if ?b then _ else _] => destruct b
           end; try discriminate; by injection Hd as <-.
Qed.

(** Lines 336-342 keep the frame a buffer of the GUI, or fail in
    [cv2.resize]. *)
Lemma vg_downsampled_spec frame g :
  is_Some (vg_heap g !! frame) ->
  let out := vg_downsampled frame g in
  vg_kept g (fst out) /\
  vg_processing_times (fst out) = vg_processing_times g /\
  vg_detector (fst out) = vg_detector g /\
  match snd out with
  | Done l => is_Some (vg_heap (fst out) !! l)
  | Failed e => is_front_Exception e = true
  end.
Proof.
  intros Hframe. cbv zeta. unfold vg_downsampled, st_bind, st_get.
  destruct (vg_downsample g).
  - match goal with |- context [vg_heap_op ?f g] =>
      destruct (vg_heap_op_spec f g) as (Hk & Ht & Hd & Hh & Hr);
      pose proof (heap_resize_spec (vg_heap g) frame
                    (py_int (inject_Z (Z.of_N (im_width (vg_heap g !!! frame)))
                             * vg_downsample_factor g),
                     py_int (inject_Z (Z.of_N (im_height (vg_heap g !!! frame)))
                             * vg_downsample_factor g))) as Hs;
      destruct (vg_heap_op f g) as [g' r] end.
    cbn [fst snd] in *. subst r. do 3 (split; [done|]). rewrite Hh.
    destruct (heap_resize _ _ _) as [h' [l|e]]; cbn [fst snd]; [done|by subst e].
  - unfold st_ret. cbn [fst snd]. split; [apply vg_kept_refl|]. by repeat split.
Qed.

(** Lines 344-355 always go on to the display. *)
Lemma vg_detected_spec t frame g :
  is_Some (vg_heap g !! frame) ->
  exists g' r,
    vg_detected t frame g = (g', Done r) /\ vg_kept g g' /\
    vg_processing_times g' = vg_processing_times g.
Proof.
  intros [img Hframe]. unfold vg_detected, st_bind at 1, st_get.
  destruct (vg_detector g) as [d|] eqn:Hdet.
  2:{ unfold st_ret. eexists _, _. split; [reflexivity|]. split; [apply vg_kept_refl|done]. }
  pose proof (process_frame_catchable frame t d (vg_heap g) img Hframe) as Hc.
  unfold st_try, st_bind at 1, vg_call.
  destruct (process_frame frame t _) as [w' [[processed dets]|e]]; cbn [snd] in Hc.
  - unfold st_ret. eexists _, _. split; [reflexivity|]. simp_vg. by repeat split.
  - cbn [catchable] in Hc. cbn [is_front_Exception]. rewrite Hc.
    unfold st_bind, vg_log_status, st_modify, st_ret.
    eexists _, _. split; [reflexivity|]. simp_vg. by repeat split.
Qed.

(** Lines 363-384 fail in the resize for the display only. *)
Lemma vg_show_spec frame n ms g :
  let out := vg_show frame n ms g in
  vg_kept g (fst out) /\
  vg_processing_times (fst out) = vg_processing_times g /\
  match snd out with
  | Done _ => True
  | Failed e => is_front_Exception e = true
  end.
Proof.
  cbv zeta. unfold vg_show, st_bind.
  match goal with |- context [vg_heap_op ?f g] =>
    destruct (vg_heap_op_spec f g) as (Hk & Ht & _ & _ & Hr);
    destruct (vg_heap_op f g) as [g' r] end.
  cbn [fst snd] in *. subst r.
  pose proof (resize_for_display_catchable (vg_heap g) frame) as Hc.
  destruct (snd (resize_for_display (vg_heap g) frame)) as [l|e].
  - unfold st_modify. simp_vg. done.
  - cbn [fst snd]. done.
Qed.

(** [update_frame] of [gui.py] returns whatever happens; the time of the
    frame is the only thing it adds to the window. *)
Lemma vg_update_frame_spec t el g :
  exists g',
    vg_update_frame t el g = (g', Done tt) /\ vg_kept g g' /\
    (vg_processing_times g' = vg_processing_times g \/
     vg_processing_times g' = push_fps (el * 1000) (vg_processing_times g)).
Proof.
  unfold vg_update_frame, st_try.
  match goal with |- context [st_bind st_get ?k] => set (body := st_bind st_get k) end.
  assert (Hbody : exists g' r,
             body g = (g', r) /\ vg_kept g g' /\
             (vg_processing_times g' = vg_processing_times g \/
              vg_processing_times g' = push_fps (el * 1000) (vg_processing_times g)) /\
             match r with
             | Done _ => True
             | Failed e => is_front_Exception e = true
             end).
  { unfold body, st_bind at 1, st_get.
    destruct (vg_cap g) as [video|].
    2:{ eexists _, _. split; [reflexivity|]. split; [apply vg_kept_refl|]. by split; [left|]. }
    destruct (seek_read video (vg_current_frame g)) as [img|].
    2:{ eexists _, _. split; [reflexivity|]. split; [apply vg_kept_refl|]. by split; [left|]. }
    unfold st_bind at 1.
    destruct (vg_heap_op_spec (fun h : list image => (h ++ [img], Ok (length h))) g)
      as (K1 & T1 & _ & H1 & R1).
    destruct (vg_heap_op _ g) as [g1 r1]. cbn [fst snd] in *. subst r1.
    assert (V1 : is_Some (vg_heap g1 !! length (vg_heap g)))
      by (rewrite H1; eexists; apply new_frame_lookup).
    unfold st_bind at 1.
    destruct (vg_downsampled_spec _ g1 V1) as (K2 & T2 & _ & V2).
    destruct (vg_downsampled _ g1) as [g2 [l2|e2]]; cbn [fst snd] in *.
    2:{ eexists _, _. split; [reflexivity|]. split; [by eapply vg_kept_trans|].
        split; [left; by rewrite T2|done]. }
    unfold st_bind at 1.
    destruct (vg_detected_spec t l2 g2 V2) as (g3 & [l3 n] & -> & K3 & T3).
    unfold st_bind at 1, vg_record_time, st_modify.
    match goal with |- context [vg_show l3 n ?ms ?g4] =>
      destruct (vg_show_spec l3 n ms g4) as (K4 & T4 & R4);
      destruct (vg_show l3 n ms g4) as [g5 r5] end.
    cbn [fst snd] in *. revert T4. simp_vg. intros T4.
    eexists _, _. split; [reflexivity|]. split.
    { eapply vg_kept_trans; [|exact K4]. eapply vg_kept_trans; [exact K1|].
      eapply vg_kept_trans; [exact K2|]. destruct K3 as (? & ? & ? & ? & ? & ? & ? & ?).
      by repeat split. }
    split; [right; by rewrite T4, T3, T2, T1|exact R4]. }
  destruct Hbody as (g' & r & -> & Hk & Ht & He). destruct r as [[]|e].
  - exists g'. split; [reflexivity|]. split; [exact Hk|exact Ht].
  - rewrite He. unfold vg_log_status, st_modify.
    eexists. split; [reflexivity|]. simp_vg. destruct Hk as (? & ? & ? & ? & ? & ? & ? & ?).
    split; [by repeat split|exact Ht].
Qed.

(** [X28] [update_frame] of [gui.py] never raises: whatever the video, the
    settings and the detector, it returns, and it leaves the video, the
    position, the slider, the playback flag, the frame rate and the number
    of frames as they were.  (The same method of [gui_detector.py] raises
    on a frame that cannot be resized for the display.) *)
Theorem vg_update_frame_never_raises t el g :
  let out := vg_update_frame t el g in
  snd out = Done tt /\
  vg_cap (fst out) = vg_cap g /\ vg_is_playing (fst out) = vg_is_playing g /\
  vg_current_frame (fst out) = vg_current_frame g /\
  vg_frame_var (fst out) = vg_frame_var g /\
  vg_total_frames (fst out) = vg_total_frames g /\ vg_fps (fst out) = vg_fps g.
Proof.
  cbv zeta. destruct (vg_update_frame_spec t el g) as (g' & -> & Hk & _). cbn [fst snd].
  destruct Hk as (? & ? & ? & ? & ? & ? & ? & ?). by repeat split.
Qed.

(** [X29] The window of processing times of [gui.py] never exceeds 30
    entries: [update_frame] keeps the bound, and what it leaves is the
    window as it was or, after the time of this frame joined it, a window
    that ends in that time, in milliseconds. *)
Theorem vg_processing_window_bounded t el g :
  (length (vg_processing_times g) <= 30)%nat ->
  let times := vg_processing_times (fst (vg_update_frame t el g)) in
  (length times <= 30)%nat /\
  (times = vg_processing_times g \/ last times = Some (el * 1000)%Q).
Proof.
  intros Hlen. cbv zeta. destruct (vg_update_frame_spec t el g) as (g' & -> & _ & Ht).
  cbn [fst]. destruct Ht as [-> | ->].
  - split; [done|by left].
  - split; [by apply push_fps_length|right; apply push_fps_last].
Qed.

(** The turns of the playback loop end, and fail in [time.sleep] only. *)
Lemma vg_play_turns_end fuel times : forall g,
  (Z.to_nat (vg_total_frames g - 1 - vg_current_frame g) < fuel)%nat ->
  exists g' r,
    vg_play_turns fuel times g = Some (g', r) /\
    vg_current_frame g <= vg_current_frame g'
      <= Z.max (vg_current_frame g) (vg_total_frames g - 1) /\
    match r with
    | Done _ => is_Some (vg_cap g) -> vg_is_playing g' = false
    | Failed e => is_front_Exception e = true
    end.
Proof.
  induction fuel as [|fuel IH]; intros g Hfuel; [lia|]. cbn [vg_play_turns].
  destruct (vg_is_playing g && bool_decide (is_Some (vg_cap g))) eqn:Hgo.
  2:{ exists g, (Done tt). split; [done|]. split; [lia|]. intros Hc.
      rewrite (bool_decide_eq_true_2 _ Hc), andb_true_r in Hgo. done. }
  destruct (vg_current_frame g <? vg_total_frames g - 1) eqn:Hlt.
  2:{ apply Z.ltb_ge in Hlt. eexists _, _. split; [reflexivity|]. simp_vg.
      split; [lia|done]. }
  apply Z.ltb_lt in Hlt. cbv zeta.
  destruct (times (vg_current_frame (vg_set_position (vg_current_frame g + 1) g))) as [t el].
  destruct (vg_update_frame_spec t el (vg_set_position (vg_current_frame g + 1) g))
    as (g2 & -> & Hk & _).
  destruct Hk as (Hcap & Hplay & Hcur & Htot & Hfps & _). revert Hcap Hplay Hcur Htot Hfps.
  simp_vg. intros Hcap Hplay Hcur Htot Hfps.
  destruct (sleep_one_frame (vg_fps g2)) as [[]|e] eqn:Hsleep.
  2:{ eexists _, _. split; [reflexivity|]. rewrite Hcur. split; [lia|].
      unfold sleep_one_frame in Hsleep.
      destruct (py_truediv 1 (vg_fps g2)) as [s|e'] eqn:Hdiv;
        [destruct (Qlt_le_dec s 0); [|discriminate]|]; injection Hsleep as <-; [done|].
      unfold py_truediv in Hdiv. destruct (Qeq_bool (vg_fps g2) 0); [|discriminate].
      by injection Hdiv as <-. }
  destruct (IH g2) as (g' & r & Hrun & Hbound & Hend); [rewrite Hcur, Htot; lia|].
  exists g', r. split; [done|]. rewrite Hcur, Htot in Hbound. split; [lia|].
  destruct r; [|done]. intros Hc. apply Hend. by rewrite Hcap.
Qed.

(** [X30] Playback in [gui.py] always ends quietly (when nothing else
    touches the GUI): after at most [n - 1 - c] turns and one test from a
    position [c] of a video of [n] frames the loop has returned without
    exception, with the playback flag off if a video is open, and with the
    position neither moved backwards nor beyond the last frame.  This
    includes a video that reports 0 frames per second. *)
Theorem vg_play_loop_ends fuel times g :
  (Z.to_nat (vg_total_frames g - 1 - vg_current_frame g) < fuel)%nat ->
  exists g',
    vg_play_loop fuel times g = Some (g', Done tt) /\
    (is_Some (vg_cap g) -> vg_is_playing g' = false) /\
    vg_current_frame g <= vg_current_frame g'
      <= Z.max (vg_current_frame g) (vg_total_frames g - 1).
Proof.
  intros Hfuel. unfold vg_play_loop.
  destruct (vg_play_turns_end fuel times g Hfuel) as (g' & r & -> & Hbound & Hend).
  destruct r as [[]|e].
  - exists g'. split; [reflexivity|]. split; [exact Hend|exact Hbound].
  - rewrite Hend. eexists. split; [reflexivity|]. simp_vg. split; [done|exact Hbound].
Qed.

End VehicleGuiFacts.

(** [vg_processing_window_bounded] on [needle_gui]: the frame cannot be
    resized for the display and the status bar says so; its time is in the
    window all the same. *)
Lemma vg_processing_window_bounded_witness :
  let g' := fst (vg_update_frame (1 # 50) (1 # 40) needle_gui) in
  (length (vg_processing_times g') <= 30)%nat /\
  last (vg_processing_times g') = Some ((1 # 40) * 1000)%Q /\
  vg_video_label g' = None /\
  vg_status_var g' = "Frame update error: " +:+ exn_str Cv2Error.
Proof.
  cbv zeta.
  assert (Hlen : (length (vg_processing_times needle_gui) <= 30)%nat) by (vm_compute; lia).
  destruct (vg_processing_window_bounded (1 # 50) (1 # 40) needle_gui Hlen) as [Hb _].
  split; [exact Hb|]. vm_compute. repeat split.
Defined.

(** [vg_play_loop_ends] on [stalled_gui]: the division by the frame rate
    ends playback after one frame. *)
Lemma vg_play_loop_ends_witness :
  exists g',
    vg_play_loop 4 (fun _ => (1 # 50, 1 # 40)) stalled_gui = Some (g', Done tt) /\
    vg_is_playing g' = false /\ vg_current_frame g' = 1 /\
    vg_status_var g' = "Playback error: " +:+ exn_str ZeroDivisionError.
Proof.
  assert (Hfuel : (Z.to_nat (vg_total_frames stalled_gui - 1 - vg_current_frame stalled_gui) < 4)%nat)
    by (vm_compute; lia).
  destruct (vg_play_loop_ends 4 (fun _ => (1 # 50, 1 # 40)) stalled_gui Hfuel)
    as (g' & Hrun & Hoff & _).
  exists g'. split; [exact Hrun|]. split; [apply Hoff; by eexists|].
  vm_compute in Hrun. injection Hrun as <-. split; reflexivity.
Defined.
